(** * ByteBeast: the behavioural state engine

    A shallow embedding of [src/state/mood_engine.py], together with the
    parts of [src/core/models.py] and [src/core/config.py] it relies on,
    and the properties of the engine stated in the specification.
    A second part embeds the code around the engine: the display frame
    of [src/core/models.py] and its creation in
    [src/display/manager.py], the battery curve, the power policy and
    the readings of [src/power/manager.py], the pressure trend of
    [src/sensors/manager.py] and the dot-notation access of
    [src/core/config.py].

    Conventions of the embedding.
    - Python floats are exact rationals ([Q]): no rounding, no NaN, no
      infinities.  Equalities between computed numbers are stated with
      [==] ([Qeq]).  Python ints are [Z].
    - A Python [dict] that the code iterates over to build ordered output
      or to break ties ([Beast.needs], the exposure scores) is an
      association list in insertion order (module [ODict]).  A [dict]
      that is only read and written by key (configuration sections,
      [actions], [Beast.traits], a task's reward) is a [gmap].
    - A subscript [d[k]] on a missing key raises [KeyError]; operations
      that can raise return a [result].  Evaluation order, including the
      short-circuit of [and]/[or], is kept, so the error raised is the
      one Python raises.
    - [time.time()] is an explicit argument [now].
    - The engine is verified for an arbitrary loaded configuration: the
      defaults file of the repository ([config/defaults.yaml]) is
      outside the verified sources.  [Config.load_config] is modelled
      on the two levels of the YAML tree the engine reads. *)

From Stdlib Require Import QArith Qabs Lqa ZArith List Bool Lia.
From stdpp Require Import gmap strings fin_maps.
Import ListNotations.

Local Open Scope Q_scope.
Local Open Scope string_scope.

(** ** Python primitives *)

Module Py.

(** Exceptions the engine can raise. *)
Inductive exn : Type :=
| KeyError (key : string)
| ZeroDivisionError
| ValueError.

Inductive result (A : Type) : Type :=
| Ok (a : A)
| Raise (e : exn).
Arguments Ok {A} a.
Arguments Raise {A} e.

Definition bind {A B} (m : result A) (k : A -> result B) : result B :=
  match m with
  | Ok a => k a
  | Raise e => Raise e
  end.

Definition is_ok {A} (m : result A) : bool :=
  match m with Ok _ => true | Raise _ => false end.

(** [x < y], [x <= y] on floats. *)
Definition ltb (x y : Q) : bool := negb (Qle_bool y x).
Definition leb (x y : Q) : bool := Qle_bool x y.

(** Two-argument [max(a, b)] and [min(a, b)]: the first argument is
    returned unless the second is strictly better. *)
Definition max (a b : Q) : Q := if ltb a b then b else a.
Definition min (a b : Q) : Q := if ltb b a then b else a.

(** [m[k]] on a key-only dictionary. *)
Definition subscript (m : gmap string Q) (k : string) : result Q :=
  match m !! k with
  | Some v => Ok v
  | None => Raise (KeyError k)
  end.

(** [m.get(k, default)]. *)
Definition get (m : gmap string Q) (k : string) (default : Q) : Q :=
  match m !! k with
  | Some v => v
  | None => default
  end.

(** [k in m]. *)
Definition contains (m : gmap string Q) (k : string) : bool :=
  match m !! k with
  | Some _ => true
  | None => false
  end.

End Py.

Import Py.

Declare Scope py_scope.
Delimit Scope py_scope with py.
Notation "'let*' x := m 'in' k" := (Py.bind m (fun x => k))
  (at level 10, x name, m at level 100, k at level 200) : py_scope.
Infix "<?" := Py.ltb (at level 70, no associativity) : py_scope.
Infix "<=?" := Py.leb (at level 70, no associativity) : py_scope.
Local Open Scope py_scope.

(** ** Insertion-ordered dictionaries *)

Module ODict.

Definition t : Type := list (string * Q).

Definition keys (d : t) : list string := map fst d.
Definition values (d : t) : list Q := map snd d.

Fixpoint lookup (k : string) (d : t) : option Q :=
  match d with
  | [] => None
  | (k', v) :: r => if String.eqb k k' then Some v else lookup k r
  end.

(** [d[k]] *)
Definition subscript (d : t) (k : string) : result Q :=
  match lookup k d with
  | Some v => Ok v
  | None => Raise (KeyError k)
  end.

(** [d.get(k, default)] *)
Definition get (d : t) (k : string) (default : Q) : Q :=
  match lookup k d with
  | Some v => v
  | None => default
  end.

(** [d[k] = v]: an existing key keeps its position, a new key goes to
    the end. *)
Fixpoint store (k : string) (v : Q) (d : t) : t :=
  match d with
  | [] => [(k, v)]
  | (k', v') :: r =>
      if String.eqb k k' then (k', v) :: r else (k', v') :: store k v r
  end.

(** [d[k] = f(d[k])] *)
Definition each_step (f : Q -> Q) (acc : t) (k : string) : t :=
  match lookup k acc with
  | Some v => store k (f v) acc
  | None => acc
  end.

(** [for k in d: d[k] = f(d[k])], the loop the engine and the
    constructor use to clamp every value. *)
Definition update_each (f : Q -> Q) (d : t) : t :=
  fold_left (each_step f) (keys d) d.

(** The dictionary with [f] applied to every value, keys in place. *)
Definition on_values (f : Q -> Q) (d : t) : t :=
  map (fun kv => (fst kv, f (snd kv))) d.

(** A Python dictionary has each key once. *)
Definition well_formed (d : t) : Prop := List.NoDup (keys d).

(** The running maximum of [max(..., key=lambda x: x[1])]: a later
    item replaces the current best only when its value is strictly
    greater. *)
Definition better (best kv : string * Q) : string * Q :=
  if snd best <? snd kv then kv else best.

(** [max(d.items(), key=lambda x: x[1])]: the first item whose value
    is maximal; [ValueError] on an empty dictionary. *)
Definition max_item (d : t) : result (string * Q) :=
  match d with
  | [] => Raise ValueError
  | kv :: r => Ok (fold_left better r kv)
  end.

(** [max(d.values())] *)
Definition max_value (d : t) : result Q :=
  match values d with
  | [] => Raise ValueError
  | v :: r =>
      Ok (fold_left (fun best v' => if best <? v' then v' else best) r v)
  end.

End ODict.

(** ** Data model ([src/core/models.py]) *)

(** Environmental sensor feature data.  (The constructor's default for
    a falsy [timestamp] is left out: the engine never reads it.) *)
Record EnvFeatures : Type := {
  lux : Q;
  cct_k : Q;
  temp_c : Q;
  rh : Q;
  pressure_hpa : Q;
  pressure_trend : Q;
  motion_rms_g : Q;
  shake_events : Z;
  heading_deg : Q;
  roll : Q;
  pitch : Q;
  yaw : Q;
  vbat : Q;
  ibat : Q;
  pwr_w : Q;
  charging : bool;
  ssid_fingerprint : string;
  timestamp : Q
}.

(** Virtual pet state data.  The last two fields are the attributes
    [_last_fingerprint] and [_last_lux] that [_detect_novelty] reads
    with [getattr]/[hasattr]: [None] when the object has no such
    attribute. *)
Record Beast : Type := {
  mood : string;
  needs : ODict.t;
  traits : gmap string Q;
  evolution_path : string;
  evolution_stage : Z;
  evolution_prog : Q;
  energy : Q;
  last_updated : Q;
  _last_fingerprint : option string;
  _last_lux : option Q
}.

Definition clamp (lo hi v : Q) : Q := Py.max lo (Py.min hi v).

(** Integer [max(1, min(4, n))]. *)
Definition clamp_stage (n : Z) : Z :=
  let m := if (n <? 4)%Z then n else 4%Z in
  if (1 <? m)%Z then m else 1%Z.

(** [Beast.__post_init__]: validate ranges. *)
Definition Beast_post_init (b : Beast) : Beast :=
  {| mood := mood b;
     needs := ODict.update_each (clamp 0 100) (needs b);
     traits := clamp 0 1 <$> traits b;
     evolution_path := evolution_path b;
     evolution_stage := clamp_stage (evolution_stage b);
     evolution_prog := clamp 0 1 (evolution_prog b);
     energy := clamp 0 100 (energy b);
     last_updated := last_updated b;
     _last_fingerprint := _last_fingerprint b;
     _last_lux := _last_lux b |}.

(** The dataclass constructor [Beast(mood, needs, traits, ...)]: the
    generated [__init__] assigns the eight declared fields, then runs
    [__post_init__].  No other attribute exists on the new object. *)
Definition Beast_init (mood0 : string) (needs0 : ODict.t)
    (traits0 : gmap string Q) (path : string) (stage : Z) (prog : Q)
    (energy0 : Q) (updated : Q) : Beast :=
  Beast_post_init
    {| mood := mood0; needs := needs0; traits := traits0;
       evolution_path := path; evolution_stage := stage;
       evolution_prog := prog; energy := energy0;
       last_updated := updated;
       _last_fingerprint := None; _last_lux := None |}.

(** Field defaults of the dataclass. *)
Definition default_needs : ODict.t :=
  [("hunger", 50); ("rest", 50); ("social", 50); ("hygiene", 50)].

Definition default_traits : gmap string Q :=
  <["playful" := 0.5]> (<["needy" := 0.5]> (<["rebellious" := 0.5]>
  (<["social" := 0.5]> (<["explorer" := 0.5]> ∅)))).

(** [Beast(mood=m)] with every other field defaulted; [now] is the
    value of the [time.time] default factory. *)
Definition Beast_default (mood0 : string) (now : Q) : Beast :=
  Beast_init mood0 default_needs default_traits "sun" 1 0 100 now.

(** ** Configuration ([src/core/config.py]) *)

(** The sections of the loaded configuration the engine reads through
    the properties [thresholds], [needs], [evolution] and [power];
    [get_section] returns an empty dictionary for a missing section. *)
Record Config : Type := {
  thresholds : gmap string Q;
  needs_config : gmap string Q;
  evolution : gmap string Q;
  power : gmap string Q
}.

(** [Config._deep_merge] on the loaded YAML tree, restricted to the two
    levels the engine reads (sections, each a dictionary of numbers):
    a section present on both sides is merged key by key, any other
    entry of [override] is stored as it is. *)
Definition merge_section (base override : gmap string Q) : gmap string Q :=
  map_fold (fun key value base => <[key := value]> base) base override.

Definition _deep_merge (base override : gmap string (gmap string Q))
    : gmap string (gmap string Q) :=
  map_fold
    (fun key value base =>
       match base !! key with
       | Some section => <[key := merge_section section value]> base
       | None => <[key := value]> base
       end)
    base override.

(** [Config.load_config]: the defaults file when it exists, overridden
    by the custom file when one is given and exists; [_config] starts
    as the empty dictionary. *)
Definition load_config
    (defaults custom : option (gmap string (gmap string Q)))
    : gmap string (gmap string Q) :=
  let config := match defaults with Some d => d | None => ∅ end in
  match custom with
  | Some c => _deep_merge config c
  | None => config
  end.

(** [Config.get_section]: [self.get(section, {})]. *)
Definition get_section (section : string)
    (config : gmap string (gmap string Q)) : gmap string Q :=
  match config !! section with
  | Some d => d
  | None => ∅
  end.

(** The configuration as the engine sees it through the properties. *)
Definition Config_of (config : gmap string (gmap string Q)) : Config :=
  {| thresholds := get_section "thresholds" config;
     needs_config := get_section "needs" config;
     evolution := get_section "evolution" config;
     power := get_section "power" config |}.

(** ** The engine ([src/state/mood_engine.py]) *)

Section MoodEngine.

(** [self.config]; [self.thresholds] is its [thresholds] section. *)
Variable self : Config.

(** Check for extreme environmental conditions. *)
Definition _is_environmental_extreme (env : EnvFeatures) : bool :=
  (Py.get (thresholds self) "pressure_stable" 2.0 * 2
   <? Qabs (pressure_trend env))
  || (90 <? rh env) || (rh env <? 10).

(** Check if condition has been sustained (the source's placeholder
    heuristic on the current state). *)
Definition _is_sustained_condition (env : EnvFeatures) (beast : Beast)
    (condition : string) : bool :=
  if String.eqb condition "sleepy" then energy beast <? 40
  else if String.eqb condition "bored" then
    ODict.get (needs beast) "social" 50 <? 40
  else false.

(** Check if temperature is in comfortable range: the chained
    comparison [cold + 5 <= temp_c <= hot - 5]. *)
Definition _is_comfortable_temperature (t : Q) : result bool :=
  let* cold := Py.subscript (thresholds self) "temp_cold" in
  if cold + 5 <=? t then
    let* hot := Py.subscript (thresholds self) "temp_hot" in
    Ok (t <=? hot - 5)
  else Ok false.

(** Detect environmental novelty. *)
Definition _detect_novelty (env : EnvFeatures) (beast : Beast) : bool :=
  if negb (String.eqb (ssid_fingerprint env)
             (match _last_fingerprint beast with Some f => f | None => "" end))
  then true
  else if (2 <? shake_events env)%Z then true
  else
    match _last_lux beast with
    | Some last =>
        let lux_change := Qabs (lux env - last) / Py.max last 1 in
        if 0.5 <? lux_change then true else false
    | None => false
    end.

(** Check for rapidly changing environmental conditions. *)
Definition _is_environment_unstable (env : EnvFeatures) : bool :=
  (Py.get (thresholds self) "pressure_stable" 2.0 <? Qabs (pressure_trend env))
  || (3 <? shake_events env)%Z.

(** Infer mood from environment and beast state using rule priority:
    first match wins. *)
Definition infer_mood (env : EnvFeatures) (beast : Beast) : result string :=
  (* 1. Hot rule *)
  let* temp_hot := Py.subscript (thresholds self) "temp_hot" in
  if temp_hot <=? temp_c env then Ok "hot" else
  (* 2. Cold rule *)
  let* temp_cold := Py.subscript (thresholds self) "temp_cold" in
  if temp_c env <=? temp_cold then Ok "cold" else
  (* 3. Sick rule *)
  let* low_voltage := Py.subscript (power self) "low_voltage" in
  if (vbat env <? low_voltage) || (energy beast <? 20)
     || _is_environmental_extreme env
  then Ok "sick" else
  (* 4. Sleepy rule *)
  let* lux_dark := Py.subscript (thresholds self) "lux_dark" in
  let* sleepy :=
    if lux env <? lux_dark then
      let* active := Py.subscript (thresholds self) "motion_active_g" in
      Ok ((motion_rms_g env <? active / 4)
          && _is_sustained_condition env beast "sleepy")
    else Ok false in
  if sleepy then Ok "sleepy" else
  (* 5. Playful rule *)
  let* playful :=
    if (0 <? shake_events env)%Z then Ok true
    else
      let* active := Py.subscript (thresholds self) "motion_active_g" in
      Ok (active <? motion_rms_g env) in
  if playful then Ok "playful" else
  (* 6. Happy rule *)
  let* lux_bright := Py.subscript (thresholds self) "lux_bright" in
  let* happy :=
    if lux_bright <? lux env then
      let* comfortable := _is_comfortable_temperature (temp_c env) in
      Ok (comfortable && (60 <? energy beast))
    else Ok false in
  if happy then Ok "happy" else
  (* 7. Curious rule *)
  if _detect_novelty env beast then Ok "curious" else
  (* 8. Bored rule *)
  let* active := Py.subscript (thresholds self) "motion_active_g" in
  if (motion_rms_g env <? active / 2)
     && _is_sustained_condition env beast "bored"
  then Ok "bored" else
  (* 9. Anxious rule *)
  if _is_environment_unstable env
     || existsb (fun need => need <? 30) (ODict.values (needs beast))
  then Ok "anxious" else
  (* 10. Default fallback *)
  Ok "calm".

(** Calculate adjusted drift rate based on conditions. *)
Definition _calculate_drift_rate (need : string) (base_rate : Q)
    (env : EnvFeatures) (beast : Beast) : result Q :=
  let rate := base_rate in
  if String.eqb need "hunger" then
    let* active := Py.subscript (thresholds self) "motion_active_g" in
    Ok (if active <? motion_rms_g env then rate * 1.5 else rate)
  else if String.eqb need "rest" then
    let* lux_bright := Py.subscript (thresholds self) "lux_bright" in
    let rate := if lux_bright <? lux env then rate * 1.2 else rate in
    let* active := Py.subscript (thresholds self) "motion_active_g" in
    Ok (if active <? motion_rms_g env then rate * 1.3 else rate)
  else if String.eqb need "social" then
    Ok (if _detect_novelty env beast then rate * 0.8 else rate)
  else if String.eqb need "hygiene" then
    let* comfortable := _is_comfortable_temperature (temp_c env) in
    Ok (if negb comfortable then rate * 1.2 else rate)
  else Ok rate.

(** Apply environmental satisfaction to needs. *)
Definition _apply_environmental_satisfaction (needs0 : ODict.t)
    (env : EnvFeatures) : result ODict.t :=
  let* lux_dark := Py.subscript (thresholds self) "lux_dark" in
  let* quiet :=
    if lux env <? lux_dark then
      let* active := Py.subscript (thresholds self) "motion_active_g" in
      Ok (motion_rms_g env <? active / 4)
    else Ok false in
  let* needs1 :=
    if quiet then
      let* r := ODict.subscript needs0 "rest" in
      Ok (ODict.store "rest" (Py.min 100 (r + 0.5)) needs0)
    else Ok needs0 in
  let* comfortable := _is_comfortable_temperature (temp_c env) in
  if comfortable && (40 <? rh env) && (rh env <? 70) then
    let* h := ODict.subscript needs1 "hygiene" in
    Ok (ODict.store "hygiene" (Py.min 100 (h + 0.2)) needs1)
  else Ok needs1.

(** The body of the drift loop of [update_needs], for one entry of
    [base_rates]. *)
Definition drift_step (env : EnvFeatures) (beast : Beast)
    (actions : gmap string Q) (hours_passed : Q)
    (needs0 : ODict.t) (entry : string * Q) : result ODict.t :=
  let '(need, base_rate) := entry in
  let* drift_rate := _calculate_drift_rate need base_rate env beast in
  let* old := ODict.subscript needs0 need in
  let* global := Py.subscript (needs_config self) "drift_rate" in
  let needs1 :=
    ODict.store need (old - drift_rate * hours_passed * global) needs0 in
  match actions !! need with
  | Some amount =>
      let* cur := ODict.subscript needs1 need in
      Ok (ODict.store need (cur + amount) needs1)
  | None => Ok needs1
  end.

Fixpoint drift_loop (env : EnvFeatures) (beast : Beast)
    (actions : gmap string Q) (hours_passed : Q)
    (base_rates : list (string * Q)) (needs0 : ODict.t) : result ODict.t :=
  match base_rates with
  | [] => Ok needs0
  | entry :: rest =>
      let* needs1 := drift_step env beast actions hours_passed needs0 entry in
      drift_loop env beast actions hours_passed rest needs1
  end.

(** Update beast needs based on time passage and actions. *)
Definition update_needs (now : Q) (beast : Beast) (env : EnvFeatures)
    (actions : gmap string Q) : result Beast :=
  let current_time := now in
  let time_delta := current_time - last_updated beast in
  let hours_passed := time_delta / 3600 in
  let* hunger_base := Py.subscript (needs_config self) "hunger_base" in
  let* rest_base := Py.subscript (needs_config self) "rest_base" in
  let* social_base := Py.subscript (needs_config self) "social_base" in
  let* hygiene_base := Py.subscript (needs_config self) "hygiene_base" in
  let base_rates :=
    [("hunger", hunger_base); ("rest", rest_base);
     ("social", social_base); ("hygiene", hygiene_base)] in
  let* drifted :=
    drift_loop env beast actions hours_passed base_rates (needs beast) in
  let* satisfied := _apply_environmental_satisfaction drifted env in
  let clamped := ODict.update_each (clamp 0 100) satisfied in
  Ok {| mood := mood beast;
        needs := clamped;
        traits := traits beast;
        evolution_path := evolution_path beast;
        evolution_stage := evolution_stage beast;
        evolution_prog := evolution_prog beast;
        energy := energy beast;
        last_updated := current_time;
        _last_fingerprint := _last_fingerprint beast;
        _last_lux := _last_lux beast |}.

(** [beast.traits[k] += delta] *)
Definition trait_add (k : string) (delta : Q) (traits0 : gmap string Q)
    : result (gmap string Q) :=
  let* v := Py.subscript traits0 k in
  Ok (<[k := v + delta]> traits0).

(** [sum(d.values()) / len(d)] *)
Definition average (d : ODict.t) : result Q :=
  let total := fold_left Qplus (ODict.values d) 0 in
  match d with
  | [] => Raise ZeroDivisionError
  | _ => Ok (total / inject_Z (Z.of_nat (length d)))
  end.

(** Update beast traits based on experiences and actions. *)
Definition tick_traits (env : EnvFeatures) (beast : Beast)
    (actions : gmap string Q) : result Beast :=
  let learning_rate := 0.01 in
  (* Playful trait *)
  let* active := Py.subscript (thresholds self) "motion_active_g" in
  let* traits1 :=
    if (active <? motion_rms_g env) || (0 <? shake_events env)%Z
       || Py.contains actions "play"
    then trait_add "playful" learning_rate (traits beast)
    else Ok (traits beast) in
  (* Needy trait *)
  let* avg_need := average (needs beast) in
  let* traits2 :=
    if avg_need <? 40 then trait_add "needy" learning_rate traits1
    else if 70 <? avg_need then
      trait_add "needy" (- (learning_rate / 2)) traits1
    else Ok traits1 in
  (* Rebellious trait *)
  let* traits3 :=
    if existsb (fun need => need <? 20) (ODict.values (needs beast))
    then trait_add "rebellious" learning_rate traits2
    else Ok traits2 in
  (* Social trait *)
  let* traits4 :=
    if Py.contains actions "social_interaction"
    then trait_add "social" learning_rate traits3
    else Ok traits3 in
  (* Explorer trait *)
  let* traits5 :=
    if _detect_novelty env beast
    then trait_add "explorer" learning_rate traits4
    else Ok traits4 in
  (* Clamp traits to valid range *)
  Ok {| mood := mood beast;
        needs := needs beast;
        traits := clamp 0 1 <$> traits5;
        evolution_path := evolution_path beast;
        evolution_stage := evolution_stage beast;
        evolution_prog := evolution_prog beast;
        energy := energy beast;
        last_updated := last_updated beast;
        _last_fingerprint := _last_fingerprint beast;
        _last_lux := _last_lux beast |}.

(** The exposure scores of one snapshot, in the key order of the
    dictionary literal of [update_evolution]. *)
Definition exposure_scores (env : EnvFeatures) : result ODict.t :=
  (* Sun path: bright + warm + active *)
  let* sun :=
    if (1000 <? lux env) && (20 <? temp_c env) then
      let* active := Py.subscript (thresholds self) "motion_active_g" in
      Ok (if active / 2 <? motion_rms_g env then 0 + 1 else 0)
    else Ok 0 in
  (* Shadow path: dark + quiet + low motion *)
  let* lux_dark := Py.subscript (thresholds self) "lux_dark" in
  let* shadow :=
    if lux env <? lux_dark then
      let* active := Py.subscript (thresholds self) "motion_active_g" in
      Ok (if motion_rms_g env <? active / 4 then 0 + 1 else 0)
    else Ok 0 in
  (* Ember path: hot temperatures *)
  let* temp_hot := Py.subscript (thresholds self) "temp_hot" in
  let ember := if temp_hot <? temp_c env then 0 + 1 else 0 in
  (* Frost path: cold temperatures *)
  let* temp_cold := Py.subscript (thresholds self) "temp_cold" in
  let frost := if temp_c env <? temp_cold then 0 + 1 else 0 in
  (* Social/lone paths *)
  let* active := Py.subscript (thresholds self) "motion_active_g" in
  let social := if active <? motion_rms_g env then 0 + 0.5 else 0 in
  let lone := if active <? motion_rms_g env then 0 else 0 + 0.5 in
  Ok [("sun", sun); ("shadow", shadow); ("ember", ember);
      ("frost", frost); ("social", social); ("lone", lone)].

(** Path switching with hysteresis: the new value of
    [beast.evolution_path] given this tick's scores. *)
Definition switch_path (scores : ODict.t) (path : string) : result string :=
  let current_score := ODict.get scores path 0 in
  let* max_path := ODict.max_item scores in
  if current_score + 0.2 <? snd max_path then Ok (fst max_path)
  else Ok path.

(** The value added to [evolution_prog] in one call. *)
Definition progress_gain (scores : ODict.t) : result Q :=
  let progression_rate := Py.get (evolution self) "progression_rate" 0.01 in
  let* best := ODict.max_value scores in
  Ok (progression_rate * Py.max best 0.1).

(** Update evolution path and progression. *)
Definition update_evolution (env : EnvFeatures) (beast : Beast)
    : result Beast :=
  let* scores := exposure_scores env in
  let* path := switch_path scores (evolution_path beast) in
  let* gain := progress_gain scores in
  let prog := evolution_prog beast + gain in
  let stage_goal := Py.get (evolution self) "stage_goal" 1.0 in
  let advance := (stage_goal <=? prog) && (evolution_stage beast <? 4)%Z in
  Ok {| mood := mood beast;
        needs := needs beast;
        traits := traits beast;
        evolution_path := path;
        evolution_stage :=
          if advance then (evolution_stage beast + 1)%Z
          else evolution_stage beast;
        evolution_prog := if advance then 0 else prog;
        energy := energy beast;
        last_updated := last_updated beast;
        _last_fingerprint := _last_fingerprint beast;
        _last_lux := _last_lux beast |}.

End MoodEngine.

(** A task descriptor: the dictionary with keys [type], [action],
    [description] and [reward] that [generate_tasks] appends. *)
Record Task : Type := {
  task_type : string;
  action : string;
  description : string;
  reward : gmap string Z
}.

Definition feed_task : Task :=
  {| task_type := "care"; action := "feed";
     description := "Feed your ByteBeast";
     reward := {[ "hunger" := 20%Z ]} |}.

Definition quiet_time_task : Task :=
  {| task_type := "environment"; action := "quiet_time";
     description := "Find a quiet spot for 15 minutes";
     reward := {[ "rest" := 15%Z ]} |}.

Definition meet_peer_task : Task :=
  {| task_type := "social"; action := "meet_peer";
     description := "Take your ByteBeast to meet others";
     reward := {[ "social" := 25%Z ]} |}.

Definition clean_task : Task :=
  {| task_type := "care"; action := "clean";
     description := "Keep your ByteBeast in comfortable conditions";
     reward := {[ "hygiene" := 20%Z ]} |}.

Definition new_location_task : Task :=
  {| task_type := "exploration"; action := "new_location";
     description := "Take your ByteBeast somewhere new";
     reward := {[ "explorer_xp" := 10%Z ]} |}.

Definition play_session_task : Task :=
  {| task_type := "activity"; action := "play_session";
     description := "Have an active play session (shake/move around)";
     reward := {[ "playful_xp" := 10%Z ]} |}.

Definition bright_spot_task : Task :=
  {| task_type := "environment"; action := "bright_spot";
     description := "Find a bright spot for 10 minutes";
     reward := {[ "energy" := 10%Z ]} |}.

(** The need-based loop of [generate_tasks]:
    [for need, value in beast.needs.items()]. *)
Fixpoint need_tasks (items : ODict.t) : list Task :=
  match items with
  | [] => []
  | (need, value) :: rest =>
      ((if value <? 40 then
          if String.eqb need "hunger" then [feed_task]
          else if String.eqb need "rest" then [quiet_time_task]
          else if String.eqb need "social" then [meet_peer_task]
          else if String.eqb need "hygiene" then [clean_task]
          else []
        else [])
       ++ need_tasks rest)%list
  end.

(** Generate daily tasks based on deficits and traits.  The method does
    not read the configuration. *)
Definition generate_tasks (beast : Beast) (env : EnvFeatures)
    : result (list Task) :=
  let tasks := need_tasks (needs beast) in
  let* explorer := Py.subscript (traits beast) "explorer" in
  let tasks :=
    if 0.7 <? explorer then (tasks ++ [new_location_task])%list else tasks in
  let* playful := Py.subscript (traits beast) "playful" in
  let tasks :=
    if 0.7 <? playful then (tasks ++ [play_session_task])%list else tasks in
  let tasks :=
    if lux env <? 100 then (tasks ++ [bright_spot_task])%list else tasks in
  Ok (firstn 3 tasks).

(** Create a new ByteBeast with default values. *)
Definition create_default_beast (now : Q) : Beast :=
  Beast_init "calm"
    [("hunger", 75); ("rest", 60); ("social", 50); ("hygiene", 80)]
    (<["playful" := 0.5]> (<["needy" := 0.3]> (<["rebellious" := 0.2]>
     (<["social" := 0.4]> (<["explorer" := 0.6]> ∅)))))
    "sun" 1 0 100 now.

(** The caller's assignment [beast.mood = ...]. *)
Definition set_mood (m : string) (b : Beast) : Beast :=
  {| mood := m; needs := needs b; traits := traits b;
     evolution_path := evolution_path b;
     evolution_stage := evolution_stage b;
     evolution_prog := evolution_prog b;
     energy := energy b; last_updated := last_updated b;
     _last_fingerprint := _last_fingerprint b; _last_lux := _last_lux b |}.

(** The three state updates, as data, so that a run of the engine is a
    list of them. *)
Inductive update : Type :=
| UpdateNeeds (now : Q) (env : EnvFeatures) (actions : gmap string Q)
| TickTraits (env : EnvFeatures) (actions : gmap string Q)
| UpdateEvolution (env : EnvFeatures).

Definition apply_update (cfg : Config) (u : update) (beast : Beast)
    : result Beast :=
  match u with
  | UpdateNeeds now env actions => update_needs cfg now beast env actions
  | TickTraits env actions => tick_traits cfg env beast actions
  | UpdateEvolution env => update_evolution cfg env beast
  end.

Fixpoint apply_updates (cfg : Config) (us : list update) (beast : Beast)
    : result Beast :=
  match us with
  | [] => Ok beast
  | u :: rest =>
      let* beast := apply_update cfg u beast in
      apply_updates cfg rest beast
  end.

(** One tick as the callers run it ([src/demo.py],
    [src/tests/simulate_day.py]): the caller assigns the inferred mood,
    then the three updates follow, without actions. *)
Definition tick (cfg : Config) (now : Q) (env : EnvFeatures) (beast : Beast)
    : result Beast :=
  let* m := infer_mood cfg env beast in
  let beast := set_mood m beast in
  let* beast := update_needs cfg now beast env ∅ in
  let* beast := tick_traits cfg env beast ∅ in
  update_evolution cfg env beast.

(** ** Sample inputs

    The repository's defaults file is outside the verified sources, so
    the engine is verified for an arbitrary configuration.  The
    configuration below is used for concrete runs only; its hot and
    cold thresholds are the ones the unit tests name (30 and 10 degrees).
    It leaves out [pressure_stable], [progression_rate] and
    [stage_goal], for which the engine carries its own defaults. *)

Definition sample_config : Config :=
  {| thresholds :=
       <["temp_hot" := 30]> (<["temp_cold" := 10]> (<["lux_dark" := 50]>
       (<["lux_bright" := 5000]> (<["motion_active_g" := 0.2]> ∅))));
     needs_config :=
       <["hunger_base" := 2]> (<["rest_base" := 1.5]> (<["social_base" := 1]>
       (<["hygiene_base" := 0.5]> (<["drift_rate" := 1]> ∅))));
     evolution := ∅;
     power := <["low_voltage" := 3.3]> ∅ |}.

(** The snapshot of [test_evolution_progression]: warm, bright, active. *)
Definition sun_env : EnvFeatures :=
  {| lux := 8000; cct_k := 5000; temp_c := 25; rh := 50;
     pressure_hpa := 1013; pressure_trend := 0; motion_rms_g := 0.3;
     shake_events := 0; heading_deg := 180; roll := 0; pitch := 0; yaw := 0;
     vbat := 4; ibat := 100; pwr_w := 0.4; charging := false;
     ssid_fingerprint := "test"; timestamp := 0 |}.

(** The snapshot of [test_hot_mood_rule]: hot and bright. *)
Definition hot_env : EnvFeatures :=
  {| lux := 5000; cct_k := 5000; temp_c := 35; rh := 50;
     pressure_hpa := 1013; pressure_trend := 0; motion_rms_g := 0.1;
     shake_events := 0; heading_deg := 180; roll := 0; pitch := 0; yaw := 0;
     vbat := 4; ibat := 100; pwr_w := 0.4; charging := false;
     ssid_fingerprint := "test"; timestamp := 0 |}.

(** The snapshots of the unit tests share every field but five. *)
Definition test_env (temp lux0 motion : Q) (shakes : Z) (volts : Q)
    : EnvFeatures :=
  {| lux := lux0; cct_k := 5000; temp_c := temp; rh := 50;
     pressure_hpa := 1013; pressure_trend := 0; motion_rms_g := motion;
     shake_events := shakes; heading_deg := 180; roll := 0; pitch := 0;
     yaw := 0; vbat := volts; ibat := 100; pwr_w := 0.4; charging := false;
     ssid_fingerprint := "test"; timestamp := 0 |}.

(** * Vocabulary of the properties *)

(** What an update leaves alone: the mood, the energy and the two
    attributes that novelty detection reads. *)
Definition same_frame (b b' : Beast) : Prop :=
  energy b' = energy b /\ mood b' = mood b /\
  _last_fingerprint b' = _last_fingerprint b /\ _last_lux b' = _last_lux b.

(** A beast as the dataclass constructor returns it. *)
Definition constructed (b : Beast) : Prop :=
  exists m n t p s pr e u, b = Beast_init m n t p s pr e u.

(** The condition novelty detection degenerates to. *)
Definition novel_now (env : EnvFeatures) : bool :=
  negb (String.eqb (ssid_fingerprint env) "") || (2 <? shake_events env)%Z.

(** The four thresholds [update_evolution] reads are configured. *)
Definition evolution_thresholds (cfg : Config) (hot cold dark active : Q)
    : Prop :=
  thresholds cfg !! "temp_hot" = Some hot /\
  thresholds cfg !! "temp_cold" = Some cold /\
  thresholds cfg !! "lux_dark" = Some dark /\
  thresholds cfg !! "motion_active_g" = Some active.

Definition EVOLUTION_PATHS : list string :=
  ["sun"; "shadow"; "ember"; "frost"; "social"; "lone"].

(** The score table as a function of the thresholds. *)
Definition score_table (hot cold dark active : Q) (env : EnvFeatures)
    : ODict.t :=
  [("sun", if (1000 <? lux env) && (20 <? temp_c env)
              && (active / 2 <? motion_rms_g env) then 0 + 1 else 0);
   ("shadow", if (lux env <? dark) && (motion_rms_g env <? active / 4)
              then 0 + 1 else 0);
   ("ember", if hot <? temp_c env then 0 + 1 else 0);
   ("frost", if temp_c env <? cold then 0 + 1 else 0);
   ("social", if active <? motion_rms_g env then 0 + 0.5 else 0);
   ("lone", if active <? motion_rms_g env then 0 else 0 + 0.5)].

(** The score table of the hysteresis example of the specification:
    the current path [sun] scores 0.9 and [ember] scores 1.0. *)
Definition near_tie_scores : ODict.t :=
  [("sun", 0.9); ("shadow", 0); ("ember", 1.0);
   ("frost", 0); ("social", 0); ("lone", 0.5)].

(** A beast whose path is none of the six names. *)
Definition moon_beast : Beast :=
  Beast_init "calm" default_needs default_traits "moon" 1 0 100 0.

(** The configured progression rate and stage goal, with the defaults
    [update_evolution] passes to [dict.get]. *)
Definition progression_rate (cfg : Config) : Q :=
  Py.get (evolution cfg) "progression_rate" 0.01.

Definition stage_goal (cfg : Config) : Q :=
  Py.get (evolution cfg) "stage_goal" 1.0.

(** A snapshot that favours the sun path: bright, warm and moderately
    active. *)
Definition sun_favoring (active : Q) (env : EnvFeatures) : Prop :=
  1000 < lux env /\ 20 < temp_c env /\ active / 2 < motion_rms_g env.

(** A run of [update_evolution] over a list of snapshots. *)
Definition evolve (cfg : Config) (envs : list EnvFeatures) (b : Beast)
    : result Beast :=
  apply_updates cfg (map UpdateEvolution envs) b.

(** The generation order in the words of the specification: one task
    per need below 40 in the order hunger, rest, social, hygiene, then
    the exploration task, then the activity task, then the brightness
    task. *)
Definition tasks_in_spec_order (hunger rest social hygiene : Q)
    (explorer playful : Q) (lux0 : Q) : list Task :=
  ((if hunger <? 40 then [feed_task] else []) ++
   (if rest <? 40 then [quiet_time_task] else []) ++
   (if social <? 40 then [meet_peer_task] else []) ++
   (if hygiene <? 40 then [clean_task] else []) ++
   (if 0.7 <? explorer then [new_location_task] else []) ++
   (if 0.7 <? playful then [play_session_task] else []) ++
   (if lux0 <? 100 then [bright_spot_task] else []))%list.

(** The needs mapping as the constructor's default, as
    [create_default_beast] and as every update leave it: the four
    needs, in this order. *)
Definition needs_of (hunger rest social hygiene : Q) : ODict.t :=
  [("hunger", hunger); ("rest", rest); ("social", social);
   ("hygiene", hygiene)].

(** The example of the specification: hunger 20, the other needs 80. *)
Definition hungry_beast : Beast :=
  Beast_init "calm" (needs_of 20 80 80 80) default_traits "sun" 1 0 100 0.

Definition set_thresholds (t : gmap string Q) (cfg : Config) : Config :=
  {| thresholds := t; needs_config := needs_config cfg;
     evolution := evolution cfg; power := power cfg |}.

Definition set_needs_config (n : gmap string Q) (cfg : Config) : Config :=
  {| thresholds := thresholds cfg; needs_config := n;
     evolution := evolution cfg; power := power cfg |}.

Definition set_evolution (e : gmap string Q) (cfg : Config) : Config :=
  {| thresholds := thresholds cfg; needs_config := needs_config cfg;
     evolution := e; power := power cfg |}.

(** The keys the engine reads by subscript are all configured. *)
Record config_complete (cfg : Config) : Prop := {
  has_temp_hot : is_Some (thresholds cfg !! "temp_hot");
  has_temp_cold : is_Some (thresholds cfg !! "temp_cold");
  has_lux_dark : is_Some (thresholds cfg !! "lux_dark");
  has_lux_bright : is_Some (thresholds cfg !! "lux_bright");
  has_motion_active_g : is_Some (thresholds cfg !! "motion_active_g");
  has_low_voltage : is_Some (power cfg !! "low_voltage");
  has_hunger_base : is_Some (needs_config cfg !! "hunger_base");
  has_rest_base : is_Some (needs_config cfg !! "rest_base");
  has_social_base : is_Some (needs_config cfg !! "social_base");
  has_hygiene_base : is_Some (needs_config cfg !! "hygiene_base");
  has_drift_rate : is_Some (needs_config cfg !! "drift_rate")
}.

Definition needs_in_range (b : Beast) : Prop :=
  Forall (fun v => 0 <= v <= 100) (ODict.values (needs b)).

Definition traits_in_range (b : Beast) : Prop :=
  map_Forall (fun _ v => 0 <= v <= 1) (traits b).

Definition stage_in_range (b : Beast) : Prop :=
  (1 <= evolution_stage b <= 4)%Z.

Record state_ok (b : Beast) : Prop := {
  ok_needs_dict : ODict.well_formed (needs b);
  ok_needs : needs_in_range b;
  ok_traits : traits_in_range b;
  ok_stage : stage_in_range b;
  ok_prog_lower : 0 <= evolution_prog b;
  ok_prog_upper : (evolution_stage b < 4)%Z -> evolution_prog b <= 1
}.

(** A beast built by the constructor with its needs in another
    insertion order, three of them below 40. *)
Definition reordered_beast : Beast :=
  Beast_init "calm"
    [("hygiene", 20); ("rest", 20); ("hunger", 20); ("social", 80)]
    default_traits "sun" 1 0 100 0.

(** A beast built by the constructor without the [explorer] trait. *)
Definition traitless_beast : Beast :=
  Beast_init "calm" default_needs (delete "explorer" default_traits)
    "sun" 1 0 100 0.

(** The sample configuration with a progression rate of 0.2, and with
    a progression rate of 0. *)
Definition fast_config : Config :=
  set_evolution (<["progression_rate" := 0.2]> ∅) sample_config.

Definition still_config : Config :=
  set_evolution (<["progression_rate" := 0]> ∅) sample_config.

(** The sample configuration with [pressure_stable] and [stage_goal]
    set and [progression_rate] left out. *)
Definition partial_config : Config :=
  set_evolution (<["stage_goal" := 0.5]> ∅)
    (set_thresholds (<["pressure_stable" := 3]> (thresholds sample_config))
       sample_config).

(** The conditions of the nine rules of [infer_mood], over the
    configured thresholds. *)
Definition hot_rule (hot : Q) (env : EnvFeatures) : Prop :=
  hot <= temp_c env.

Definition cold_rule (cold : Q) (env : EnvFeatures) : Prop :=
  temp_c env <= cold.

Definition sick_rule (cfg : Config) (low : Q) (env : EnvFeatures)
    (b : Beast) : Prop :=
  vbat env < low \/ energy b < 20 \/
  Py.get (thresholds cfg) "pressure_stable" 2.0 * 2
    < Qabs (pressure_trend env) \/
  90 < rh env \/ rh env < 10.

Definition sleepy_rule (dark active : Q) (env : EnvFeatures) (b : Beast)
    : Prop :=
  lux env < dark /\ motion_rms_g env < active / 4 /\ energy b < 40.

Definition playful_rule (active : Q) (env : EnvFeatures) : Prop :=
  (0 < shake_events env)%Z \/ active < motion_rms_g env.

Definition happy_rule (hot cold bright : Q) (env : EnvFeatures) (b : Beast)
    : Prop :=
  bright < lux env /\ cold + 5 <= temp_c env <= hot - 5 /\ 60 < energy b.

Definition curious_rule (env : EnvFeatures) (b : Beast) : Prop :=
  _detect_novelty env b = true.

Definition bored_rule (active : Q) (env : EnvFeatures) (b : Beast) : Prop :=
  motion_rms_g env < active / 2 /\ ODict.get (needs b) "social" 50 < 40.

Definition anxious_rule (cfg : Config) (env : EnvFeatures) (b : Beast)
    : Prop :=
  Py.get (thresholds cfg) "pressure_stable" 2.0 < Qabs (pressure_trend env) \/
  (3 < shake_events env)%Z \/
  List.Exists (fun need => need < 30) (ODict.values (needs b)).

(** A beast restored at the last stage with its progress complete. *)
Definition final_stage_beast : Beast :=
  Beast_init "calm" default_needs default_traits "sun" 4 1 100 0.

Definition NEED_NAMES : list string := ["hunger"; "rest"; "social"; "hygiene"].

Definition TRAIT_NAMES : list string :=
  ["playful"; "needy"; "rebellious"; "social"; "explorer"].

(** The state has the four needs, in the order of the constructor, and
    the five traits. *)
Definition beast_complete (b : Beast) : Prop :=
  ODict.keys (needs b) = NEED_NAMES /\
  forall k, In k TRAIT_NAMES -> is_Some (traits b !! k).

(** * Further code of the repository *)

(** ** Glyph tables ([src/core/models.py])

    The glyphs are the strings of the source file, byte for byte. *)

(** Mood emoji mappings. *)
Definition MOOD_EMOJIS : gmap string string :=
  list_to_map
    [("happy", "ğŸ˜ƒ");
     ("calm", "ğŸ˜Œ");
     ("sleepy", "ğŸ˜´");
     ("anxious", "ğŸ˜°");
     ("sick", "ğŸ¤’");
     ("playful", "ğŸ¤©");
     ("bored", "ğŸ˜");
     ("curious", "ğŸ§");
     ("hot", "ğŸ¥µ");
     ("cold", "ğŸ¥¶")].

(** The [stages] entry of each evolution path of the table
    [EVOLUTION_PATHS]; the [name] and [description] entries are not read
    by any code. *)
Definition EVOLUTION_STAGES : gmap string (list string) :=
  list_to_map
    [("sun", ["ğŸ£"; "ğŸ¥"; "ğŸ¦…"; "ğŸ¦„"]);
     ("shadow", ["ğŸ¦‡"; "ğŸ¦‰"; "ğŸº"; "ğŸ‰"]);
     ("ember", ["ğŸ¦"; "ğŸ”¥"; "ğŸ¯"; "ğŸ‰"]);
     ("frost", ["ğŸ§"; "â„ï¸"; "ğŸ»â€â„ï¸"; "ğŸ‰"]);
     ("social", ["ğŸ’"; "ğŸ¦"; "ğŸ¦„"; "ğŸ‘‘"]);
     ("lone", ["ğŸ­"; "ğŸ¦Š"; "ğŸº"; "ğŸ‰"])].

(** ** Vocabulary of the further properties *)

(** The number of [update_evolution] calls in a run. *)
Fixpoint evolution_updates (us : list update) : Z :=
  match us with
  | [] => 0
  | UpdateEvolution _ :: rest => 1 + evolution_updates rest
  | _ :: rest => evolution_updates rest
  end.

(** What [_apply_environmental_satisfaction] can add to a need in one
    call. *)
Definition satisfaction_bonus (need : string) : Q :=
  if String.eqb need "rest" then 0.5
  else if String.eqb need "hygiene" then 0.2
  else 0.

(** ** Display frames and power states ([src/core/models.py]) *)

Module EmojiFrame.

(** Display frame with emoji and UI elements. *)
Record t : Type := {
  emoji : string;
  badges : list string;
  bars : ODict.t;
  timestamp : Q
}.

(** [EmojiFrame.__post_init__]: limit badges to 3, clamp bars to 0-1. *)
Definition post_init (f : t) : t :=
  {| emoji := emoji f;
     badges := if (3 <? length (badges f))%nat then firstn 3 (badges f)
               else badges f;
     bars := ODict.update_each (clamp 0 1) (bars f);
     timestamp := timestamp f |}.

(** The dataclass constructor [EmojiFrame(emoji, badges, bars)]; [now]
    is the value of the [time.time] default factory. *)
Definition init (emoji0 : string) (badges0 : list string) (bars0 : ODict.t)
    (now : Q) : t :=
  post_init {| emoji := emoji0; badges := badges0; bars := bars0;
               timestamp := now |}.

End EmojiFrame.

Module PowerState.

(** Power and battery state information. *)
Record t : Type := {
  battery_percent : Q;
  voltage : Q;
  current_ma : Q;
  power_w : Q;
  charging : bool;
  low_battery : bool;
  critical_battery : bool;
  timestamp : Q
}.

End PowerState.

(** ** Frame creation ([src/display/manager.py]) *)

Module Display.

(** Exceptions frame creation can raise. *)
Inductive exn : Type :=
| IndexError
| ValueError.

Inductive result (A : Type) : Type :=
| Returns (a : A)
| Raises (e : exn).
Arguments Returns {A} a.
Arguments Raises {A} e.

(** [l[i]] on a list: a negative index counts from the end. *)
Definition index {A} (l : list A) (i : Z) : result A :=
  let n := Z.of_nat (length l) in
  let j := if (i <? 0)%Z then (i + n)%Z else i in
  if ((j <? 0) || (n <=? j))%Z then Raises IndexError
  else match nth_error l (Z.to_nat j) with
       | Some x => Returns x
       | None => Raises IndexError
       end.

(** The running minimum of [min(..., key=lambda x: x[1])]: a later item
    replaces the current best only when its value is strictly lower. *)
Definition lower (best kv : string * Q) : string * Q :=
  if snd kv <? snd best then kv else best.

(** [min(d.items(), key=lambda x: x[1])]: the first item whose value is
    minimal; [ValueError] on an empty dictionary. *)
Definition min_item (d : ODict.t) : result (string * Q) :=
  match d with
  | [] => Raises ValueError
  | kv :: r => Returns (fold_left lower r kv)
  end.

(** The warning badge of the most urgent need. *)
Definition need_badge (need : string) : list string :=
  if String.eqb need "hunger" then ["🍴"]
  else if String.eqb need "rest" then ["😴"]
  else if String.eqb need "social" then ["👥"]
  else if String.eqb need "hygiene" then ["🚿"]
  else [].

(** [{need: value / 100.0 for need, value in d.items()}] *)
Definition progress_bars (d : ODict.t) : ODict.t :=
  fold_left (fun acc kv => ODict.store (fst kv) (snd kv / 100) acc) d [].

(** Create emoji frame based on beast state and environment; the same
    method body in [DisplayManager] and [MockDisplayManager]. *)
Definition create_emoji_frame (now : Q) (beast : Beast)
    (env_features : EnvFeatures) : result EmojiFrame.t :=
  (* Get main emoji based on mood *)
  let main_emoji :=
    match MOOD_EMOJIS !! mood beast with
    | Some e => e
    | None => "😌"
    end in
  (* Show evolution badge *)
  match
    match EVOLUTION_STAGES !! evolution_path beast with
    | Some stages =>
        match index stages (evolution_stage beast - 1) with
        | Returns stage_emoji => Returns [stage_emoji]
        | Raises e => Raises e
        end
    | None => Returns []
    end
  with
  | Raises e => Raises e
  | Returns badges0 =>
      (* Show need status badge (most urgent need) *)
      match min_item (needs beast) with
      | Raises e => Raises e
      | Returns lowest_need =>
          let badges1 :=
            if snd lowest_need <? 40
            then (badges0 ++ need_badge (fst lowest_need))%list
            else badges0 in
          (* Create progress bars for needs *)
          let bars0 := progress_bars (needs beast) in
          Returns (EmojiFrame.init main_emoji badges1 bars0 now)
      end
  end.

End Display.

(** ** Power management ([src/power/manager.py]) *)

Module PowerManager.

(** Power policy configuration. *)
Record PowerPolicy : Type := {
  fps : Q;
  dim : bool;
  static_mode : bool;
  shutdown : bool;
  brightness : Q
}.

(** Calculate battery percentage from voltage using Li-ion curve. *)
Definition _calculate_battery_percent (voltage : Q) : Q :=
  if 4.1 <=? voltage then 100
  else if 3.9 <=? voltage then 75 + (voltage - 3.9) * 125
  else if 3.7 <=? voltage then 25 + (voltage - 3.7) * 250
  else if 3.4 <=? voltage then 5 + (voltage - 3.4) * 66.7
  else if 3.0 <=? voltage then (voltage - 3.0) * 12.5
  else 0.

(** Determine power policy based on battery state; [display_config] is
    the [display] section of the configuration. *)
Definition get_power_policy (display_config : gmap string Q)
    (power_state : PowerState.t) : Py.result PowerPolicy :=
  (* Critical battery - prepare for shutdown *)
  let* shutdown_pct := Py.subscript display_config "battery_shutdown_pct" in
  if (PowerState.battery_percent power_state <=? shutdown_pct)
     || PowerState.critical_battery power_state
  then Ok {| fps := 1; dim := true; static_mode := true; shutdown := true;
             brightness := 0.1 |} else
  (* Very low battery - static mode *)
  let* static_pct := Py.subscript display_config "battery_static_pct" in
  if PowerState.battery_percent power_state <=? static_pct
  then Ok {| fps := 1; dim := true; static_mode := true; shutdown := false;
             brightness := 0.2 |} else
  (* Low battery - dim and reduce frame rate *)
  let* dim_pct := Py.subscript display_config "battery_dim_pct" in
  if (PowerState.battery_percent power_state <=? dim_pct)
     || PowerState.low_battery power_state
  then
    let* fps_idle := Py.subscript display_config "fps_idle" in
    Ok {| fps := fps_idle; dim := true; static_mode := false;
          shutdown := false; brightness := 0.5 |}
  else
  (* Normal operation *)
  let* fps_active := Py.subscript display_config "fps_active" in
  Ok {| fps := fps_active; dim := false; static_mode := false;
        shutdown := false; brightness := 1.0 |}.

(** The state returned when a reading fails and no earlier reading
    succeeded. *)
Definition failed_reading (now : Q) : PowerState.t :=
  {| PowerState.battery_percent := 0;
     PowerState.voltage := 0;
     PowerState.current_ma := 0;
     PowerState.power_w := 0;
     PowerState.charging := false;
     PowerState.low_battery := true;
     PowerState.critical_battery := true;
     PowerState.timestamp := now |}.

(** Read current power state from sensor, with the sensor present and
    outside mock mode.  [reading] holds the bus voltage, the current
    and the power the sensor returns, or [None] when the sensor raises;
    [power_config] is the [power] section of the configuration.  Any
    exception inside the [try] block, a missing key included, is caught:
    the last good state is returned, or [failed_reading] when there is
    none.  The result is the new value of [_last_power_state] and the
    state returned. *)
Definition read_power_state (power_config : gmap string Q)
    (_last_power_state : option PowerState.t)
    (reading : option (Q * Q * Q)) (now : Q)
    : option PowerState.t * PowerState.t :=
  let attempt : Py.result PowerState.t :=
    match reading with
    | None => Raise ValueError
    | Some (voltage, current_ma, power_w) =>
        (* Determine charging status (negative current = charging) *)
        let charging := current_ma <? - (10) in
        let battery_pct := _calculate_battery_percent voltage in
        (* Determine warning states *)
        let* low_voltage := Py.subscript power_config "low_voltage" in
        let low_battery := voltage <? low_voltage in
        let* critical_voltage :=
          Py.subscript power_config "critical_voltage" in
        let critical_battery := voltage <? critical_voltage in
        Ok {| PowerState.battery_percent := battery_pct;
              PowerState.voltage := voltage;
              PowerState.current_ma := current_ma;
              PowerState.power_w := power_w;
              PowerState.charging := charging;
              PowerState.low_battery := low_battery;
              PowerState.critical_battery := critical_battery;
              PowerState.timestamp := now |}
    end in
  match attempt with
  | Ok power_state => (Some power_state, power_state)
  | Raise _ =>
      (* Return last known state or defaults *)
      (_last_power_state,
       match _last_power_state with
       | Some last => last
       | None => failed_reading now
       end)
  end.

End PowerManager.

Module MockPowerManager.

(** The state of [MockPowerManager]. *)
Record t : Type := {
  _mock_battery : Q;
  _mock_charging : bool
}.

(** [MockPowerManager.__init__]: start with 75% battery, not charging. *)
Definition init : t :=
  {| _mock_battery := 75; _mock_charging := false |}.

(** [MockPowerManager.read_power_state]: [step] is the value of the
    first [random.uniform] call (the charge or the drain of this
    reading), [load] the value of [random.uniform(100, 400)], drawn
    when the battery is not charging, and [now] the time of the call. *)
Definition read_power_state (self : t) (step load now : Q)
    : t * PowerState.t :=
  (* Simulate battery drain or charging *)
  let '(battery, charging) :=
    if _mock_charging self then
      let battery := _mock_battery self + step in
      (battery, if 95 <=? battery then false else true)
    else
      let battery := _mock_battery self - step in
      (battery, if battery <=? 10 then true else false) in
  let battery := Py.max 0 (Py.min 100 battery) in
  (* Convert to voltage *)
  let voltage :=
    if 75 <? battery then 3.9 + (battery - 75) * 0.008
    else 3.4 + (battery / 75) * 0.5 in
  let current := if charging then - (200) else load in
  let power := Qabs (voltage * current / 1000) in
  ({| _mock_battery := battery; _mock_charging := charging |},
   {| PowerState.battery_percent := battery;
      PowerState.voltage := voltage;
      PowerState.current_ma := current;
      PowerState.power_w := power;
      PowerState.charging := charging;
      PowerState.low_battery := battery <? 20;
      PowerState.critical_battery := battery <? 5;
      PowerState.timestamp := now |}).

(** Successive readings of the mock, one pair of draws per reading. *)
Fixpoint read_power_states (self : t)
    (draws : list (Q * Q)) (now : Q)
    : t * list PowerState.t :=
  match draws with
  | [] => (self, [])
  | (step, load) :: rest =>
      let '(self1, state) := read_power_state self step load now in
      let '(self2, states) := read_power_states self1 rest now in
      (self2, state :: states)
  end.

End MockPowerManager.

(** ** Pressure trend ([src/sensors/manager.py]) *)

Module Sensors.

(** [l[-n:]]: the last [n] items, all of them when there are fewer. *)
Definition last_items {A} (n : nat) (l : list A) : list A :=
  skipn (length l - n) l.

(** Float division. *)
Definition divide (x y : Q) : Py.result Q :=
  if Qeq_bool y 0 then Raise ZeroDivisionError else Ok (x / y).

(** Calculate pressure trend from history: the new value of
    [_pressure_history] and the value returned. *)
Definition calculate_pressure_trend (_pressure_history : list Q)
    (current_pressure : Q) : list Q * Py.result Q :=
  let history := (_pressure_history ++ [current_pressure])%list in
  (* Keep last hour of data (assuming 1Hz sampling) *)
  let history :=
    if (3600 <? length history)%nat then tl history else history in
  if (length history <? 2)%nat then (history, Ok 0) else
  (* Simple linear trend calculation *)
  let recent := last_items 300 history in
  if (length recent <? 2)%nat then (history, Ok 0) else
  let difference := List.last recent 0 - List.hd 0 recent in
  (history,
   let* minutes := divide (inject_Z (Z.of_nat (length recent))) 60 in
   divide difference minutes).

End Sensors.

(** The mock battery between its two turning points: it charges from
    at most 10 up to 95 and drains from there down to 10. *)
Definition mock_cycle (self : MockPowerManager.t) : Prop :=
  if MockPowerManager._mock_charging self
  then 9.5 <= MockPowerManager._mock_battery self < 95
  else 10 < MockPowerManager._mock_battery self <= 95.5.

(** ** Dot-notation access ([src/core/config.py])

    [Config.get] and [Config.set] walk the loaded YAML tree to any
    depth, so they are modelled on the tree itself. *)

Module Yaml.
Import Strings.Ascii.

(** The separator of the dot notation. *)
Definition dot : ascii := "."%char.

(** A loaded YAML value: a number, a string or a mapping (an
    insertion-ordered dictionary). *)
#[warnings="-register-all"] Inductive value : Type :=
| Scalar (q : Q)
| Text (s : string)
| Mapping (items : list (string * value)).

Fixpoint lookup (k : string) (items : list (string * value)) : option value :=
  match items with
  | [] => None
  | (k', v) :: r => if String.eqb k k' then Some v else lookup k r
  end.

(** [d[k] = v]: an existing key keeps its position, a new key goes to
    the end. *)
Fixpoint store (k : string) (v : value) (items : list (string * value))
    : list (string * value) :=
  match items with
  | [] => [(k, v)]
  | (k', v') :: r =>
      if String.eqb k k' then (k', v) :: r else (k', v') :: store k v r
  end.

(** [s.split(sep)] for a one-character separator. *)
Fixpoint split (sep : Ascii.ascii) (s : string) : list string :=
  match s with
  | EmptyString => [EmptyString]
  | String c rest =>
      if Ascii.eqb c sep then EmptyString :: split sep rest
      else match split sep rest with
           | [] => [String c EmptyString]
           | word :: words => String c word :: words
           end
  end.

(** The loop of [Config.get]: [None] when the walk leaves the tree. *)
Fixpoint get_path (keys : list string) (value0 : value) : option value :=
  match keys with
  | [] => Some value0
  | k :: rest =>
      match value0 with
      | Mapping items =>
          match lookup k items with
          | Some v => get_path rest v
          | None => None
          end
      | _ => None
      end
  end.

(** Get configuration value using dot notation. *)
Definition get (_config : value) (key : string) (default : value) : value :=
  match get_path (split dot key) _config with
  | Some v => v
  | None => default
  end.

(** The body of [Config.set] on the list of keys: the new tree, or
    [None] for the [TypeError] Python raises when the walk meets a
    value that is not a mapping (and for the [IndexError] of an empty
    list of keys). *)
Fixpoint set_path (keys : list string) (new : value) (config : value)
    : option value :=
  match keys with
  | [] => None
  | k :: rest =>
      match config with
      | Mapping items =>
          match rest with
          | [] => Some (Mapping (store k new items))
          | _ :: _ =>
              let child :=
                match lookup k items with
                | Some c => c
                | None => Mapping []
                end in
              match set_path rest new child with
              | Some child' => Some (Mapping (store k child' items))
              | None => None
              end
          end
      | _ => None
      end
  end.

(** Set configuration value using dot notation. *)
Definition set (_config : value) (key : string) (new : value)
    : option value :=
  set_path (split dot key) new _config.

(** Two paths that part at some key: neither leads through the
    other. *)
Definition diverge (p q : list string) : Prop :=
  exists common a b p' q',
    p = (common ++ a :: p')%list /\ q = (common ++ b :: q')%list /\ a <> b.

End Yaml.

(** * Properties *)

(** ** Comparisons *)

Lemma ltb_true (x y : Q) : (x <? y) = true <-> x < y.
Proof.
  unfold Py.ltb. rewrite negb_true_iff.
  split; intros H.
  - apply Qnot_le_lt. intros Hle. apply Qle_bool_iff in Hle. congruence.
  - destruct (Qle_bool y x) eqn:E; [|reflexivity].
    apply Qle_bool_iff in E. lra.
Qed.

Lemma ltb_false (x y : Q) : (x <? y) = false <-> y <= x.
Proof.
  unfold Py.ltb. rewrite negb_false_iff. apply Qle_bool_iff.
Qed.

Lemma leb_true (x y : Q) : (x <=? y) = true <-> x <= y.
Proof. apply Qle_bool_iff. Qed.

Lemma leb_false (x y : Q) : (x <=? y) = false <-> y < x.
Proof.
  unfold Py.leb. split; intros H.
  - apply Qnot_le_lt. intros Hle. apply Qle_bool_iff in Hle. congruence.
  - destruct (Qle_bool x y) eqn:E; [|reflexivity].
    apply Qle_bool_iff in E. lra.
Qed.

(** Case analysis on every float comparison in sight, turning each
    outcome into an order fact [lra] can use. *)
Ltac float_cases :=
  repeat match goal with
  | |- context [Py.ltb ?x ?y] =>
      let E := fresh "Hcmp" in
      destruct (Py.ltb x y) eqn:E;
      [apply ltb_true in E | apply ltb_false in E]
  | |- context [Py.leb ?x ?y] =>
      let E := fresh "Hcmp" in
      destruct (Py.leb x y) eqn:E;
      [apply leb_true in E | apply leb_false in E]
  end.

Lemma max_lower (a b : Q) : a <= Py.max a b.
Proof. unfold Py.max. float_cases; lra. Qed.

Lemma max_upper (a b : Q) : b <= Py.max a b.
Proof. unfold Py.max. float_cases; lra. Qed.

Lemma clamp_range (lo hi v : Q) : lo <= hi -> lo <= clamp lo hi v <= hi.
Proof.
  intros H. unfold clamp, Py.min. float_cases; unfold Py.max; float_cases; lra.
Qed.

Lemma clamp_id (lo hi v : Q) : lo <= v <= hi -> clamp lo hi v == v.
Proof.
  intros H. unfold clamp, Py.min. float_cases; unfold Py.max; float_cases; lra.
Qed.

Lemma subscript_some (m : gmap string Q) (k : string) (v : Q) :
  m !! k = Some v -> Py.subscript m k = Ok v.
Proof. intros H. unfold Py.subscript. now rewrite H. Qed.

Lemma subscript_none (m : gmap string Q) (k : string) :
  m !! k = None -> Py.subscript m k = Raise (KeyError k).
Proof. intros H. unfold Py.subscript. now rewrite H. Qed.

(** ** Rule priority of the mood classifier *)

(** C5.  Whenever the snapshot's temperature is at or above the
    configured hot threshold, [infer_mood] returns [hot], whatever the
    other fields of the snapshot and the state of the beast are. *)
Theorem infer_mood_hot_first (cfg : Config) (env : EnvFeatures)
    (beast : Beast) (hot : Q) :
  thresholds cfg !! "temp_hot" = Some hot ->
  hot <= temp_c env ->
  infer_mood cfg env beast = Ok "hot".
Proof.
  intros Hkey Hhot. unfold infer_mood.
  rewrite (subscript_some _ _ _ Hkey). cbn [Py.bind].
  apply leb_true in Hhot. now rewrite Hhot.
Qed.

Lemma infer_mood_hot_first_witness :
  infer_mood sample_config hot_env (create_default_beast 0) = Ok "hot".
Proof.
  apply (infer_mood_hot_first sample_config hot_env (create_default_beast 0) 30).
  - reflexivity.
  - vm_compute. discriminate.
Defined.

(** The other rule tests of [src/tests/test_mood_engine.py], replayed
    on the sample configuration. *)
Example test_cold_mood_rule :
  infer_mood sample_config (test_env 5 5000 0.1 0 4) (create_default_beast 0)
  = Ok "cold".
Proof. reflexivity. Qed.

Example test_sick_mood_low_battery :
  infer_mood sample_config (test_env 20 1000 0.1 0 3.2)
    (create_default_beast 0)
  = Ok "sick".
Proof. reflexivity. Qed.

Example test_playful_mood_shake :
  infer_mood sample_config (test_env 20 1000 0.3 2 4) (create_default_beast 0)
  = Ok "playful".
Proof. reflexivity. Qed.

Example test_happy_mood_bright_comfortable :
  infer_mood sample_config (test_env 22 10000 0.05 0 4)
    (create_default_beast 0)
  = Ok "happy".
Proof. reflexivity. Qed.

(** ** Reasoning about operations that can raise *)

Lemma bind_ok {A B} (m : result A) (k : A -> result B) (b : B) :
  Py.bind m k = Ok b -> exists a, m = Ok a /\ k a = Ok b.
Proof. destruct m as [a|e]; cbn; [eauto | discriminate]. Qed.

(** Peel the successful prefix of a computation off a hypothesis
    [H : (let* x := m in k) = Ok _]. *)
Ltac bind_inv H :=
  repeat match type of H with
  | Py.bind _ _ = Ok _ =>
      let a := fresh "v" in
      let Ha := fresh "Hv" in
      apply bind_ok in H as (a & Ha & H)
  end.

(** ** Frame properties of the three updates *)

Lemma same_frame_refl (b : Beast) : same_frame b b.
Proof. repeat split. Qed.

Lemma same_frame_trans (b1 b2 b3 : Beast) :
  same_frame b1 b2 -> same_frame b2 b3 -> same_frame b1 b3.
Proof.
  unfold same_frame. intros (?&?&?&?) (?&?&?&?). repeat split; congruence.
Qed.

Lemma update_needs_frame cfg now b env actions b' :
  update_needs cfg now b env actions = Ok b' ->
  same_frame b b' /\ traits b' = traits b /\
  evolution_path b' = evolution_path b /\
  evolution_stage b' = evolution_stage b /\
  evolution_prog b' = evolution_prog b.
Proof.
  unfold update_needs. intros H. bind_inv H.
  injection H as <-. repeat split.
Qed.

Lemma tick_traits_frame cfg env b actions b' :
  tick_traits cfg env b actions = Ok b' ->
  same_frame b b' /\ needs b' = needs b /\
  evolution_path b' = evolution_path b /\
  evolution_stage b' = evolution_stage b /\
  evolution_prog b' = evolution_prog b.
Proof.
  unfold tick_traits. intros H. bind_inv H.
  injection H as <-. repeat split.
Qed.

Lemma update_evolution_frame cfg env b b' :
  update_evolution cfg env b = Ok b' ->
  same_frame b b' /\ needs b' = needs b /\ traits b' = traits b.
Proof.
  unfold update_evolution. intros H. bind_inv H.
  injection H as <-. repeat split.
Qed.

Lemma apply_update_frame cfg u b b' :
  apply_update cfg u b = Ok b' -> same_frame b b'.
Proof.
  destruct u; cbn; intros H.
  - now apply update_needs_frame in H.
  - now apply tick_traits_frame in H.
  - now apply update_evolution_frame in H.
Qed.

Lemma apply_updates_frame cfg us : forall b b',
  apply_updates cfg us b = Ok b' -> same_frame b b'.
Proof.
  induction us as [|u us IH]; cbn; intros b b' H.
  - injection H as <-. apply same_frame_refl.
  - bind_inv H. apply apply_update_frame in Hv. apply IH in H.
    eapply same_frame_trans; eassumption.
Qed.

(** C10.  No engine operation writes the energy field, and none writes
    the mood: any interleaving of [update_needs], [tick_traits] and
    [update_evolution] returns a state with the energy and the mood it
    was given, and after a full tick the energy is the one the tick
    started with while the mood is the one [infer_mood] returned and
    the caller assigned.  ([infer_mood] and [generate_tasks] return a
    value and no state.)  The energy guards of the classifier therefore
    read the energy the beast was built or restored with. *)
Theorem energy_and_mood_frame (cfg : Config) (now : Q) (env : EnvFeatures)
    (us : list update) (b b1 b2 : Beast) :
  apply_updates cfg us b = Ok b1 ->
  tick cfg now env b = Ok b2 ->
  (energy b1 = energy b /\ mood b1 = mood b) /\
  (energy b2 = energy b /\ infer_mood cfg env b = Ok (mood b2)).
Proof.
  intros Hus Htick. split.
  - apply apply_updates_frame in Hus as (He & Hm & _). now split.
  - unfold tick in Htick. bind_inv Htick.
    apply update_needs_frame in Hv0 as ((He0 & Hm0 & _) & _).
    apply tick_traits_frame in Hv1 as ((He1 & Hm1 & _) & _).
    apply update_evolution_frame in Htick as ((He2 & Hm2 & _) & _).
    cbn [set_mood energy mood] in He0, Hm0.
    split; [congruence|]. rewrite Hv. f_equal. congruence.
Qed.

Lemma energy_and_mood_frame_witness :
  exists b1 b2,
    apply_updates sample_config
      [UpdateEvolution sun_env; TickTraits hot_env ∅; UpdateNeeds 3600 sun_env ∅]
      (create_default_beast 0) = Ok b1 /\
    tick sample_config 3600 sun_env (create_default_beast 0) = Ok b2 /\
    energy b1 = energy (create_default_beast 0) /\
    energy b2 = energy (create_default_beast 0).
Proof.
  destruct (apply_updates sample_config
      [UpdateEvolution sun_env; TickTraits hot_env ∅; UpdateNeeds 3600 sun_env ∅]
      (create_default_beast 0)) as [b1|e] eqn:E1;
    [|vm_compute in E1; discriminate E1].
  destruct (tick sample_config 3600 sun_env (create_default_beast 0))
    as [b2|e] eqn:E2; [|vm_compute in E2; discriminate E2].
  exists b1, b2. do 2 (split; [reflexivity|]).
  destruct (energy_and_mood_frame sample_config 3600 sun_env _
              (create_default_beast 0) b1 b2 E1 E2) as ((H1 & _) & (H2 & _)).
  now split.
Defined.

(** ** Novelty detection *)

Lemma create_default_beast_constructed (now : Q) :
  constructed (create_default_beast now).
Proof. unfold create_default_beast. repeat eexists. Qed.

Lemma Beast_default_constructed (m : string) (now : Q) :
  constructed (Beast_default m now).
Proof. unfold Beast_default. repeat eexists. Qed.

Lemma constructed_no_history (b : Beast) :
  constructed b -> _last_fingerprint b = None /\ _last_lux b = None.
Proof. intros (m & n & t & p & s & pr & e & u & ->). split; reflexivity. Qed.

Lemma novel_now_spec (env : EnvFeatures) :
  novel_now env = true <->
  ssid_fingerprint env <> "" \/ (2 < shake_events env)%Z.
Proof.
  unfold novel_now. rewrite orb_true_iff, negb_true_iff, Z.ltb_lt.
  destruct (String.eqb_spec (ssid_fingerprint env) "") as [E|E];
    split; intros [H|H]; auto; congruence.
Qed.

Lemma detect_novelty_no_history (env : EnvFeatures) (b : Beast) :
  _last_fingerprint b = None -> _last_lux b = None ->
  _detect_novelty env b = novel_now env.
Proof.
  intros Hf Hl. unfold _detect_novelty, novel_now. rewrite Hf, Hl.
  destruct (String.eqb (ssid_fingerprint env) ""); cbn; [|reflexivity].
  now destruct (2 <? shake_events env)%Z.
Qed.

Lemma trait_add_other (k k' : string) (d : Q) (t t' : gmap string Q) :
  k <> k' -> trait_add k d t = Ok t' -> t' !! k' = t !! k'.
Proof.
  intros Hne H. unfold trait_add in H. bind_inv H.
  injection H as <-. now apply lookup_insert_ne.
Qed.

Lemma trait_add_same (k : string) (d : Q) (t t' : gmap string Q) :
  trait_add k d t = Ok t' ->
  exists v, t !! k = Some v /\ t' !! k = Some (v + d).
Proof.
  intros H. unfold trait_add, Py.subscript in H.
  destruct (t !! k) as [v|] eqn:E; cbn in H; [|discriminate].
  injection H as <-. exists v. split; [reflexivity|].
  apply lookup_insert_eq.
Qed.

Lemma guarded_trait_add_other (c : bool) (k k' : string) (d : Q)
    (t t' : gmap string Q) :
  k <> k' -> (if c then trait_add k d t else Ok t) = Ok t' ->
  t' !! k' = t !! k'.
Proof.
  intros Hne H. destruct c.
  - eapply trait_add_other; eassumption.
  - now injection H as <-.
Qed.

(** The explorer trait after [tick_traits]: one learning-rate step when
    novelty is detected, none otherwise, then the clamp. *)
Lemma tick_traits_explorer cfg env b actions b' v :
  tick_traits cfg env b actions = Ok b' ->
  traits b !! "explorer" = Some v ->
  traits b' !! "explorer" =
    Some (clamp 0 1 (if _detect_novelty env b then v + 0.01 else v)).
Proof.
  unfold tick_traits. intros H Hv. bind_inv H.
  injection H as <-. cbn [traits].
  apply (guarded_trait_add_other _ "playful" "explorer") in Hv1; [|discriminate].
  assert (Hv3' : v3 !! "explorer" = v1 !! "explorer").
  { destruct (v2 <? 40).
    - eapply trait_add_other; [|eassumption]. discriminate.
    - eapply guarded_trait_add_other; [|eassumption]. discriminate. }
  apply (guarded_trait_add_other _ "rebellious" "explorer") in Hv4; [|discriminate].
  apply (guarded_trait_add_other _ "social" "explorer") in Hv5; [|discriminate].
  assert (Hbefore : v5 !! "explorer" = Some v) by congruence.
  rewrite lookup_fmap.
  destruct (_detect_novelty env b).
  - apply trait_add_same in Hv6 as (w & Hw & ->).
    rewrite Hbefore in Hw. injection Hw as <-. reflexivity.
  - injection Hv6 as <-. now rewrite Hbefore.
Qed.

(** [infer_mood] answers [curious] only through rule 7. *)
Lemma infer_mood_curious cfg env b :
  infer_mood cfg env b = Ok "curious" -> _detect_novelty env b = true.
Proof.
  unfold infer_mood. intros H.
  repeat match type of H with
  | Py.bind _ _ = Ok _ =>
      let a := fresh "v" in
      let Ha := fresh "Hv" in
      apply bind_ok in H as (a & Ha & H)
  | (if ?c then _ else _) = Ok _ => destruct c eqn:?; try discriminate H
  end.
  reflexivity.
Qed.

(** Once novelty is detected, the rules after rule 7 are never
    reached. *)
Lemma infer_mood_novel cfg env b m :
  _detect_novelty env b = true ->
  infer_mood cfg env b = Ok m ->
  m <> "bored" /\ m <> "anxious" /\ m <> "calm".
Proof.
  unfold infer_mood. intros Hnovel H. rewrite Hnovel in H.
  repeat match type of H with
  | Py.bind _ _ = Ok _ =>
      let a := fresh "v" in
      let Ha := fresh "Hv" in
      apply bind_ok in H as (a & Ha & H)
  | (if ?c then _ else _) = Ok _ => destruct c eqn:?
  end;
  injection H as <-; repeat split; discriminate.
Qed.

(** The snapshot of [test_calm_fallback] carries the fingerprint
    ["test"]: rule 7 answers before the fallback is reached, and by
    [infer_mood_novel] no configuration changes that. *)
Example test_calm_fallback_snapshot :
  infer_mood sample_config (test_env 20 1000 0.1 0 4) (create_default_beast 0)
  = Ok "curious".
Proof. reflexivity. Qed.

(** C9.  For a beast built by the constructor (hence also by
    [create_default_beast]) and carried through any number of engine
    updates, novelty is detected exactly when the snapshot's fingerprint
    is non-empty or it counts more than two shake events: the
    lux-change branch is never entered.  The social drift rate, the
    explorer increment and the [curious] mood follow that condition,
    and while it holds the classifier never answers [bored], [anxious]
    or [calm]. *)
Theorem novelty_reduces_to_current_snapshot (cfg : Config)
    (us : list update) (env : EnvFeatures) (b0 b : Beast) :
  constructed b0 ->
  apply_updates cfg us b0 = Ok b ->
  (_detect_novelty env b = true <->
     ssid_fingerprint env <> "" \/ (2 < shake_events env)%Z) /\
  _last_lux b = None /\
  (forall base,
     _calculate_drift_rate cfg "social" base env b =
       Ok (if novel_now env then base * 0.8 else base)) /\
  (forall actions b' v,
     tick_traits cfg env b actions = Ok b' ->
     traits b !! "explorer" = Some v ->
     traits b' !! "explorer" =
       Some (clamp 0 1 (if novel_now env then v + 0.01 else v))) /\
  (infer_mood cfg env b = Ok "curious" -> novel_now env = true) /\
  (forall m, novel_now env = true -> infer_mood cfg env b = Ok m ->
     m <> "bored" /\ m <> "anxious" /\ m <> "calm").
Proof.
  intros Hc Hus.
  apply constructed_no_history in Hc as (Hf0 & Hl0).
  apply apply_updates_frame in Hus as (_ & _ & Hf & Hl).
  rewrite Hf0 in Hf. rewrite Hl0 in Hl.
  pose proof (detect_novelty_no_history env b Hf Hl) as Hd.
  split; [rewrite Hd; apply novel_now_spec|].
  split; [exact Hl|].
  split; [|split; [|split]].
  - intros base. unfold _calculate_drift_rate. cbn. now rewrite Hd.
  - intros actions b' v Ht Hv. rewrite <- Hd.
    eapply tick_traits_explorer; eassumption.
  - intros Hm. rewrite <- Hd. eapply infer_mood_curious; eassumption.
  - intros m Hn Hm. rewrite <- Hd in Hn.
    eapply infer_mood_novel; eassumption.
Qed.

Lemma novelty_reduces_to_current_snapshot_witness :
  exists b,
    apply_updates sample_config
      [UpdateNeeds 3600 sun_env ∅; TickTraits sun_env ∅; UpdateEvolution sun_env]
      (create_default_beast 0) = Ok b /\
    (_detect_novelty sun_env b = true <->
     ssid_fingerprint sun_env <> "" \/ (2 < shake_events sun_env)%Z).
Proof.
  destruct (apply_updates sample_config
      [UpdateNeeds 3600 sun_env ∅; TickTraits sun_env ∅; UpdateEvolution sun_env]
      (create_default_beast 0)) as [b|e] eqn:E.
  - exists b. split; [reflexivity|].
    apply (novelty_reduces_to_current_snapshot sample_config
             [UpdateNeeds 3600 sun_env ∅; TickTraits sun_env ∅;
              UpdateEvolution sun_env]
             sun_env (create_default_beast 0) b).
    + unfold constructed, create_default_beast. repeat eexists.
    + exact E.
  - vm_compute in E. discriminate E.
Defined.

(** ** Insertion-ordered dictionaries: lookup and maximum *)

Module ODictFacts.
Import ODict.

Lemma lookup_not_in (k : string) (d : t) :
  ~ In k (keys d) -> lookup k d = None.
Proof.
  induction d as [|[k' v'] d IH]; cbn; intros Hn; [reflexivity|].
  destruct (String.eqb_spec k k') as [->|Hne].
  - exfalso. apply Hn. now left.
  - apply IH. intros Hin. apply Hn. now right.
Qed.

Lemma lookup_in (k : string) (v : Q) (d : t) :
  well_formed d -> In (k, v) d -> lookup k d = Some v.
Proof.
  unfold well_formed.
  induction d as [|[k' v'] d IH]; cbn; intros Hnd Hin; [contradiction|].
  apply List.NoDup_cons_iff in Hnd as [Hfresh Hnd].
  destruct Hin as [Heq|Hin].
  - injection Heq as -> ->. now rewrite String.eqb_refl.
  - destruct (String.eqb_spec k k') as [->|Hne].
    + exfalso. apply Hfresh. apply (in_map fst) in Hin. exact Hin.
    + now apply IH.
Qed.

Lemma lookup_some_in (k : string) (v : Q) (d : t) :
  lookup k d = Some v -> In v (values d).
Proof.
  induction d as [|[k' v'] d IH]; cbn; [discriminate|].
  destruct (String.eqb k k'); intros H.
  - injection H as ->. now left.
  - right. now apply IH.
Qed.

Lemma fold_better_in (r : t) : forall kv,
  In (fold_left better r kv) (kv :: r).
Proof.
  induction r as [|x r IH]; intros kv; cbn; [now left|].
  destruct (IH (better kv x)) as [H|H]; [|now right; right].
  rewrite <- H. unfold better. destruct (snd kv <? snd x).
  - right. now left.
  - now left.
Qed.

Lemma fold_better_ge (r : t) : forall kv x,
  In x (kv :: r) -> snd x <= snd (fold_left better r kv).
Proof.
  induction r as [|y r IH]; intros kv x Hin; cbn.
  - destruct Hin as [<-|[]]. lra.
  - assert (Hstep : snd kv <= snd (better kv y) /\ snd y <= snd (better kv y)).
    { unfold better. float_cases; cbn; lra. }
    destruct Hstep as [Hkv Hy].
    destruct Hin as [<-|[<-|Hin]].
    + eapply Qle_trans; [exact Hkv|]. apply IH. now left.
    + eapply Qle_trans; [exact Hy|]. apply IH. now left.
    + apply IH. now right.
Qed.

Lemma fold_better_values (r : t) : forall kv,
  snd (fold_left better r kv) =
  fold_left (fun best v' => if best <? v' then v' else best)
    (values r) (snd kv).
Proof.
  induction r as [|y r IH]; intros kv; cbn; [reflexivity|].
  rewrite IH. unfold better. now destruct (snd kv <? snd y).
Qed.

Lemma max_item_in (d : t) (kv : string * Q) :
  max_item d = Ok kv -> In kv d.
Proof.
  destruct d as [|x r]; cbn; [discriminate|].
  intros H. injection H as <-. apply (fold_better_in r x).
Qed.

Lemma max_item_ge (d : t) (kv x : string * Q) :
  max_item d = Ok kv -> In x d -> snd x <= snd kv.
Proof.
  destruct d as [|y r]; cbn; [discriminate|].
  intros H Hin. injection H as <-. now apply (fold_better_ge r y).
Qed.

Lemma max_item_lookup (d : t) (k : string) (v : Q) :
  well_formed d -> max_item d = Ok (k, v) -> lookup k d = Some v.
Proof. intros Hwf H. apply lookup_in; [exact Hwf|]. now apply max_item_in. Qed.

Lemma max_value_of_item (d : t) (kv : string * Q) :
  max_item d = Ok kv -> max_value d = Ok (snd kv).
Proof.
  destruct d as [|x r]; cbn; [discriminate|].
  intros H. injection H as <-. unfold max_value. cbn.
  f_equal. symmetry. apply (fold_better_values r x).
Qed.

Lemma max_item_total (d : t) :
  d <> [] -> exists kv, max_item d = Ok kv.
Proof. destruct d; [congruence|]. intros _. cbn. eauto. Qed.

End ODictFacts.

(** ** Evolution: scores, path switching, progress *)

Lemma exposure_scores_table cfg env hot cold dark active :
  evolution_thresholds cfg hot cold dark active ->
  exposure_scores cfg env = Ok (score_table hot cold dark active env).
Proof.
  intros (Hh & Hc & Hd & Ha). unfold exposure_scores, score_table.
  rewrite (subscript_some _ _ _ Hh), (subscript_some _ _ _ Hc),
    (subscript_some _ _ _ Hd), (subscript_some _ _ _ Ha).
  destruct (1000 <? lux env), (20 <? temp_c env); cbn [Py.bind andb];
    destruct (lux env <? dark); reflexivity.
Qed.

Lemma score_table_keys hot cold dark active env :
  ODict.keys (score_table hot cold dark active env) = EVOLUTION_PATHS.
Proof. reflexivity. Qed.

Lemma score_table_well_formed hot cold dark active env :
  ODict.well_formed (score_table hot cold dark active env).
Proof.
  unfold ODict.well_formed. rewrite score_table_keys.
  unfold EVOLUTION_PATHS.
  repeat (apply List.NoDup_cons; [cbn; intuition discriminate|]).
  apply List.NoDup_nil.
Qed.

Lemma score_table_range hot cold dark active env k v :
  In (k, v) (score_table hot cold dark active env) -> 0 <= v <= 1.
Proof.
  unfold score_table. cbn [In].
  intros H. repeat (destruct H as [H|H]; [injection H as <- <-|]);
    try contradiction;
    match goal with
    | |- context [if ?c then _ else _] => destruct c
    end; lra.
Qed.

(** Either [social] or [lone] scores one half in every snapshot. *)
Lemma score_table_floor hot cold dark active env :
  exists k v, In (k, v) (score_table hot cold dark active env) /\ v == 0.5.
Proof.
  destruct (active <? motion_rms_g env) eqn:E.
  - exists "social", (0 + 0.5). split; [|lra].
    unfold score_table. rewrite E. cbn. tauto.
  - exists "lone", (0 + 0.5). split; [|lra].
    unfold score_table. rewrite E. cbn. tauto.
Qed.

Lemma update_evolution_path cfg env b b' scores :
  exposure_scores cfg env = Ok scores ->
  update_evolution cfg env b = Ok b' ->
  switch_path scores (evolution_path b) = Ok (evolution_path b').
Proof.
  intros Hs H. unfold update_evolution in H. rewrite Hs in H. cbn [Py.bind] in H.
  bind_inv H. injection H as <-. exact Hv.
Qed.

(** [update_evolution] completes whenever the four thresholds are
    configured. *)
Lemma update_evolution_total cfg env b hot cold dark active :
  evolution_thresholds cfg hot cold dark active ->
  exists b', update_evolution cfg env b = Ok b'.
Proof.
  intros Ht.
  pose proof (exposure_scores_table cfg env _ _ _ _ Ht) as Hs.
  destruct (ODictFacts.max_item_total (score_table hot cold dark active env))
    as ([bp bs] & Hmax); [discriminate|].
  pose proof (ODictFacts.max_value_of_item _ _ Hmax) as Hmv.
  unfold update_evolution, switch_path, progress_gain.
  rewrite Hs. cbn [Py.bind]. rewrite Hmax, Hmv. cbn [Py.bind fst snd].
  match goal with
  | |- context [if ?c then _ else _] => destruct c
  end; cbn [Py.bind]; eauto.
Qed.

(** C2.  The path after [update_evolution] is the best-scoring path of
    this tick exactly when its score exceeds the current path's score
    by more than 0.2, and then it differs from the current path; with a
    margin of 0.2 or less the path is retained.  In the example table
    (current 0.9, best 1.0) the path stays. *)
Theorem path_switch_hysteresis (cfg : Config) (env : EnvFeatures)
    (b : Beast) (hot cold dark active : Q) :
  evolution_thresholds cfg hot cold dark active ->
  exists scores best_path best_score b',
    exposure_scores cfg env = Ok scores /\
    ODict.max_item scores = Ok (best_path, best_score) /\
    (forall k v, In (k, v) scores -> v <= best_score) /\
    update_evolution cfg env b = Ok b' /\
    (ODict.get scores (evolution_path b) 0 + 0.2 < best_score ->
       evolution_path b' = best_path /\ best_path <> evolution_path b) /\
    (best_score <= ODict.get scores (evolution_path b) 0 + 0.2 ->
       evolution_path b' = evolution_path b) /\
    switch_path near_tie_scores "sun" = Ok "sun".
Proof.
  intros Ht.
  pose proof (exposure_scores_table cfg env _ _ _ _ Ht) as Hs.
  set (scores := score_table hot cold dark active env) in *.
  destruct (ODictFacts.max_item_total scores) as ([bp bs] & Hmax);
    [discriminate|].
  destruct (update_evolution_total cfg env b _ _ _ _ Ht) as (b' & Hb').
  exists scores, bp, bs, b'.
  pose proof (update_evolution_path _ _ _ _ _ Hs Hb') as Hp.
  unfold switch_path in Hp. rewrite Hmax in Hp. cbn [Py.bind fst snd] in Hp.
  do 2 (split; [assumption|]).
  split; [|split; [exact Hb'|split; [|split; [|reflexivity]]]].
  - intros k v Hin. apply (ODictFacts.max_item_ge _ _ (k, v) Hmax Hin).
  - intros Hgt. split.
    + apply ltb_true in Hgt. rewrite Hgt in Hp. now injection Hp.
    + intros Heq. subst bp.
      apply ODictFacts.max_item_lookup in Hmax;
        [|apply score_table_well_formed].
      unfold ODict.get in Hgt. rewrite Hmax in Hgt. lra.
  - intros Hle. apply ltb_false in Hle. rewrite Hle in Hp. now injection Hp.
Qed.

Lemma path_switch_hysteresis_witness :
  exists b', update_evolution sample_config sun_env (create_default_beast 0)
             = Ok b'.
Proof.
  destruct (path_switch_hysteresis sample_config sun_env
              (create_default_beast 0) 30 10 50 0.2)
    as (scores & bp & bs & b' & _ & _ & _ & Hb' & _).
  - repeat split; reflexivity.
  - exists b'. exact Hb'.
Defined.

(** C4, as stated, fails: an unrecognised path is not kept. *)
Lemma unknown_path_not_kept :
  ~ In (evolution_path moon_beast) EVOLUTION_PATHS /\
  exists b', update_evolution sample_config sun_env moon_beast = Ok b' /\
             evolution_path b' <> evolution_path moon_beast.
Proof.
  split.
  - cbn. intuition discriminate.
  - eexists. split; [vm_compute; reflexivity|]. cbn. discriminate.
Qed.

(** C4, amended.  For a beast whose path is none of the six names,
    [update_evolution] does not raise; the unknown path scores 0.0, the
    best score of any snapshot is at least 0.5, so the path is always
    replaced by the best-scoring path of the tick, one of the six. *)
Theorem unknown_path_is_replaced (cfg : Config) (env : EnvFeatures)
    (b : Beast) (hot cold dark active : Q) :
  evolution_thresholds cfg hot cold dark active ->
  ~ In (evolution_path b) EVOLUTION_PATHS ->
  exists scores best_score b',
    exposure_scores cfg env = Ok scores /\
    update_evolution cfg env b = Ok b' /\
    ODict.get scores (evolution_path b) 0 = 0 /\
    ODict.max_item scores = Ok (evolution_path b', best_score) /\
    0.5 <= best_score /\
    In (evolution_path b') EVOLUTION_PATHS /\
    evolution_path b' <> evolution_path b.
Proof.
  intros Ht Hunknown.
  pose proof (exposure_scores_table cfg env _ _ _ _ Ht) as Hs.
  set (scores := score_table hot cold dark active env) in *.
  destruct (ODictFacts.max_item_total scores) as ([bp bs] & Hmax);
    [discriminate|].
  destruct (update_evolution_total cfg env b _ _ _ _ Ht) as (b' & Hb').
  pose proof (update_evolution_path _ _ _ _ _ Hs Hb') as Hp.
  assert (Hcur : ODict.get scores (evolution_path b) 0 = 0).
  { unfold ODict.get. rewrite ODictFacts.lookup_not_in; [reflexivity|].
    unfold scores. now rewrite score_table_keys. }
  assert (Hfloor : 0.5 <= bs).
  { destruct (score_table_floor hot cold dark active env) as (k & v & Hin & Hv).
    pose proof (ODictFacts.max_item_ge _ _ (k, v) Hmax Hin) as Hle.
    cbn in Hle. lra. }
  unfold switch_path in Hp. rewrite Hmax, Hcur in Hp. cbn [Py.bind fst snd] in Hp.
  assert (Hgt : (0 + 0.2 <? bs) = true) by (apply ltb_true; lra).
  rewrite Hgt in Hp. injection Hp as Hp.
  assert (Hin : In (evolution_path b') EVOLUTION_PATHS).
  { rewrite <- Hp, <- (score_table_keys hot cold dark active env).
    apply ODictFacts.max_item_in in Hmax.
    apply (in_map fst) in Hmax. exact Hmax. }
  exists scores, bs, b'. rewrite <- Hp at 1.
  repeat split; try assumption.
  intros Heq. apply Hunknown. now rewrite <- Heq.
Qed.

Lemma unknown_path_is_replaced_witness :
  exists b', update_evolution sample_config sun_env moon_beast = Ok b' /\
             In (evolution_path b') EVOLUTION_PATHS.
Proof.
  destruct (unknown_path_is_replaced sample_config sun_env moon_beast
              30 10 50 0.2)
    as (scores & bs & b' & _ & Hb' & _ & _ & _ & Hin & _).
  - repeat split; reflexivity.
  - cbn. intuition discriminate.
  - exists b'. split; assumption.
Defined.

(** What one call does to progress and stage, in terms of the best
    score of the tick. *)
Lemma update_evolution_progress cfg env b hot cold dark active :
  evolution_thresholds cfg hot cold dark active ->
  exists best b',
    ODict.max_value (score_table hot cold dark active env) = Ok best /\
    In best (ODict.values (score_table hot cold dark active env)) /\
    (forall k v, In (k, v) (score_table hot cold dark active env) -> v <= best) /\
    update_evolution cfg env b = Ok b' /\
    let raised := evolution_prog b + progression_rate cfg * Py.max best 0.1 in
    let advance := (stage_goal cfg <=? raised) && (evolution_stage b <? 4)%Z in
    evolution_prog b' = (if advance then 0 else raised) /\
    evolution_stage b' =
      (if advance then (evolution_stage b + 1)%Z else evolution_stage b).
Proof.
  intros Ht.
  pose proof (exposure_scores_table cfg env _ _ _ _ Ht) as Hs.
  set (scores := score_table hot cold dark active env) in *.
  destruct (ODictFacts.max_item_total scores) as ([bp bs] & Hmax);
    [discriminate|].
  pose proof (ODictFacts.max_value_of_item _ _ Hmax) as Hmv. cbn [snd] in Hmv.
  unfold update_evolution, switch_path, progress_gain.
  rewrite Hs. cbn [Py.bind]. rewrite Hmax, Hmv. cbn [Py.bind fst snd].
  exists bs.
  destruct (ODict.get scores (evolution_path b) 0 + 0.2 <? bs);
    cbn [Py.bind]; eexists; (split; [reflexivity|]);
    (split; [apply ODictFacts.max_item_in in Hmax;
             apply (in_map snd) in Hmax; exact Hmax|]);
    (split; [intros k v Hin;
             apply (ODictFacts.max_item_ge _ _ (k, v) Hmax Hin)|]);
    (split; [reflexivity|]); cbn; split; reflexivity.
Qed.

Lemma sun_favoring_best hot cold dark active env best :
  sun_favoring active env ->
  In best (ODict.values (score_table hot cold dark active env)) ->
  (forall k v, In (k, v) (score_table hot cold dark active env) -> v <= best) ->
  Py.max best 0.1 == 1.
Proof.
  intros (Hl & Ht & Hm) Hin Hge.
  apply ltb_true in Hl, Ht, Hm.
  assert (Hsun : In ("sun", 0 + 1) (score_table hot cold dark active env)).
  { unfold score_table. rewrite Hl, Ht, Hm. cbn. tauto. }
  apply Hge in Hsun.
  apply in_map_iff in Hin as ([k v] & <- & Hin).
  apply score_table_range in Hin. cbn [snd] in *.
  unfold Py.max. float_cases; lra.
Qed.

(** One call on a sun-favouring snapshot, away from the stage goal,
    adds the progression rate. *)
Lemma update_evolution_sun_step cfg env b hot cold dark active :
  evolution_thresholds cfg hot cold dark active ->
  sun_favoring active env ->
  evolution_prog b + progression_rate cfg < stage_goal cfg ->
  exists b', update_evolution cfg env b = Ok b' /\
             evolution_prog b' == evolution_prog b + progression_rate cfg.
Proof.
  intros Ht Hsun Hlt.
  destruct (update_evolution_progress cfg env b _ _ _ _ Ht)
    as (best & b' & _ & Hin & Hge & Hb' & Hprog & _).
  pose proof (sun_favoring_best _ _ _ _ _ _ Hsun Hin Hge) as Hbest.
  exists b'. split; [exact Hb'|].
  cbv zeta in Hprog.
  assert (Hraised : evolution_prog b + progression_rate cfg * Py.max best 0.1
                    == evolution_prog b + progression_rate cfg).
  { rewrite Hbest. ring. }
  assert (Hno : (stage_goal cfg <=?
                 evolution_prog b + progression_rate cfg * Py.max best 0.1)
                = false).
  { apply leb_false. rewrite Hraised. exact Hlt. }
  rewrite Hno in Hprog. cbn [andb] in Hprog. rewrite Hprog. exact Hraised.
Qed.

Lemma evolve_sun_run cfg hot cold dark active (envs : list EnvFeatures) :
  evolution_thresholds cfg hot cold dark active ->
  Forall (sun_favoring active) envs ->
  0 <= progression_rate cfg ->
  forall b,
    evolution_prog b
      + inject_Z (Z.of_nat (length envs)) * progression_rate cfg
      < stage_goal cfg ->
    exists b', evolve cfg envs b = Ok b' /\
      evolution_prog b' ==
        evolution_prog b
        + inject_Z (Z.of_nat (length envs)) * progression_rate cfg.
Proof.
  intros Ht Hall Hrate.
  induction Hall as [|env envs Hsun Hall IH]; intros b Hroom.
  - exists b. split; [reflexivity|]. cbn. ring.
  - cbn [length] in *. rewrite Nat2Z.inj_succ, <- Z.add_1_r in *.
    rewrite inject_Z_plus in *.
    assert (Hnn : 0 <= inject_Z (Z.of_nat (length envs)) * progression_rate cfg).
    { apply Qmult_le_0_compat; [|exact Hrate].
      change 0 with (inject_Z 0). rewrite <- Zle_Qle. lia. }
    destruct (update_evolution_sun_step cfg env b _ _ _ _ Ht Hsun)
      as (b1 & Hb1 & Hp1).
    { change (inject_Z 1) with 1 in Hroom. lra. }
    destruct (IH b1) as (b' & Hb' & Hp').
    { rewrite Hp1. change (inject_Z 1) with 1 in Hroom. lra. }
    exists b'. split.
    + unfold evolve. cbn [map apply_updates apply_update].
      rewrite Hb1. cbn [Py.bind]. exact Hb'.
    + rewrite Hp', Hp1. change (inject_Z 1) with 1. ring.
Qed.

Lemma sun_prefix (active : Q) (envs : list EnvFeatures) (n : nat) :
  Forall (sun_favoring active) envs ->
  Forall (sun_favoring active) (firstn n envs).
Proof.
  intros H. revert n. induction H as [|e envs He H IH]; intros [|n]; cbn;
    constructor; auto.
Qed.

(** C6, as stated, fails: the ten-tick consequence does not hold for
    every configuration.  With [progression_rate] 0.2 and the built-in
    stage goal 1.0, the progress of the default beast over sun-favouring
    snapshots is 0.8 after four ticks and 0 after the fifth, where the
    stage advances: it is not non-decreasing.  With a rate of 0 it never
    increases. *)
Lemma progress_falls_when_the_stage_advances :
  exists b4 b5 b10,
    evolve fast_config (repeat sun_env 4) (create_default_beast 0) = Ok b4 /\
    evolve fast_config (repeat sun_env 5) (create_default_beast 0) = Ok b5 /\
    evolution_prog b4 == 0.8 /\ evolution_prog b5 == 0 /\
    evolution_prog b5 < evolution_prog b4 /\
    evolution_stage b4 = 1%Z /\ evolution_stage b5 = 2%Z /\
    evolve still_config (repeat sun_env 10) (create_default_beast 0) = Ok b10 /\
    evolution_prog b10 == 0.
Proof.
  destruct (evolve fast_config (repeat sun_env 4) (create_default_beast 0))
    as [b4|e] eqn:E4; [|vm_compute in E4; discriminate E4].
  destruct (evolve fast_config (repeat sun_env 5) (create_default_beast 0))
    as [b5|e] eqn:E5; [|vm_compute in E5; discriminate E5].
  destruct (evolve still_config (repeat sun_env 10) (create_default_beast 0))
    as [b10|e] eqn:E10; [|vm_compute in E10; discriminate E10].
  exists b4, b5, b10.
  vm_compute in E4. injection E4 as <-.
  vm_compute in E5. injection E5 as <-.
  vm_compute in E10. injection E10 as <-.
  repeat split; reflexivity.
Qed.

(** C6, amended.  One call of [update_evolution] raises the progress by
    the progression rate times [max(best_score, 0.1)], [best_score]
    being the greatest of the six exposure scores of the tick; the
    raised value is kept unless it reaches the stage goal below stage 4,
    in which case the stage advances and the progress restarts from 0.
    Hence, starting from progress 0, over ten sun-favouring snapshots,
    when the progression rate is positive and ten times the rate stays
    below the stage goal (as with the built-in 0.01 and 1.0), the
    progress grows strictly at every tick; in exact arithmetic it is
    [n] times the rate after [n] ticks. *)
Theorem evolution_progress_accumulates (cfg : Config)
    (hot cold dark active : Q) (env : EnvFeatures)
    (envs : list EnvFeatures) (b : Beast) :
  evolution_thresholds cfg hot cold dark active ->
  (exists scores best b',
     exposure_scores cfg env = Ok scores /\
     ODict.max_value scores = Ok best /\
     In best (ODict.values scores) /\
     (forall k v, In (k, v) scores -> v <= best) /\
     update_evolution cfg env b = Ok b' /\
     let raised := evolution_prog b + progression_rate cfg * Py.max best 0.1 in
     (raised < stage_goal cfg \/ (4 <= evolution_stage b)%Z ->
        evolution_prog b' = raised /\
        evolution_stage b' = evolution_stage b) /\
     (stage_goal cfg <= raised -> (evolution_stage b < 4)%Z ->
        evolution_prog b' = 0 /\
        evolution_stage b' = (evolution_stage b + 1)%Z)) /\
  (Forall (sun_favoring active) envs ->
   length envs = 10%nat ->
   0 < progression_rate cfg ->
   10 * progression_rate cfg < stage_goal cfg ->
   evolution_prog b == 0 ->
   forall n, (n < 10)%nat ->
     exists bn bn',
       evolve cfg (firstn n envs) b = Ok bn /\
       evolve cfg (firstn (S n) envs) b = Ok bn' /\
       evolution_prog bn == inject_Z (Z.of_nat n) * progression_rate cfg /\
       evolution_prog bn' == evolution_prog bn + progression_rate cfg /\
       evolution_prog bn < evolution_prog bn').
Proof.
  intros Ht. split.
  - destruct (update_evolution_progress cfg env b _ _ _ _ Ht)
      as (best & b' & Hmv & Hin & Hge & Hb' & Hprog & Hstage).
    exists (score_table hot cold dark active env), best, b'.
    split; [now apply exposure_scores_table|].
    do 4 (split; [assumption|]).
    cbv zeta in *. split.
    + intros [Hlt|Hlast].
      * apply leb_false in Hlt. rewrite Hlt in Hprog, Hstage. now split.
      * assert (Hs : (evolution_stage b <? 4)%Z = false) by (apply Z.ltb_ge; lia).
        rewrite Hs, andb_false_r in Hprog, Hstage. now split.
    + intros Hge' Hlt. apply leb_true in Hge'. apply Z.ltb_lt in Hlt.
      rewrite Hge', Hlt in Hprog, Hstage. now split.
  - intros Hall Hlen Hrate Hroom Hzero n Hn.
    assert (Hbound : forall m, (m <= 10)%nat ->
              inject_Z (Z.of_nat m) * progression_rate cfg
              <= 10 * progression_rate cfg).
    { intros m Hm. apply Qmult_le_compat_r; [|lra].
      change 10 with (inject_Z 10). rewrite <- Zle_Qle. lia. }
    assert (Hrun : forall m, (m <= 10)%nat ->
              exists bm, evolve cfg (firstn m envs) b = Ok bm /\
                evolution_prog bm
                == inject_Z (Z.of_nat m) * progression_rate cfg).
    { intros m Hm.
      destruct (evolve_sun_run cfg _ _ _ _ (firstn m envs) Ht
                  (sun_prefix _ _ m Hall)) with (b := b) as (bm & Hbm & Hpm).
      - lra.
      - rewrite length_firstn, Hlen, Nat.min_l by exact Hm.
        specialize (Hbound m Hm). lra.
      - exists bm. split; [exact Hbm|].
        rewrite length_firstn, Hlen, Nat.min_l in Hpm by exact Hm.
        rewrite Hpm, Hzero. ring. }
    destruct (Hrun n) as (bn & Hbn & Hpn); [lia|].
    destruct (Hrun (S n)) as (bn' & Hbn' & Hpn'); [lia|].
    exists bn, bn'. do 3 (split; [assumption|]).
    assert (Hstep : evolution_prog bn'
                    == evolution_prog bn + progression_rate cfg).
    { rewrite Hpn', Hpn, Nat2Z.inj_succ, <- Z.add_1_r, inject_Z_plus.
      change (inject_Z 1) with 1. ring. }
    split; [exact Hstep|]. rewrite Hstep. lra.
Qed.

Lemma evolution_progress_accumulates_witness :
  exists b10,
    evolve sample_config (repeat sun_env 10) (create_default_beast 0) = Ok b10 /\
    evolution_prog b10 == 10 * 0.01.
Proof.
  destruct (evolution_progress_accumulates sample_config 30 10 50 0.2
              sun_env (repeat sun_env 10) (create_default_beast 0))
    as [_ Hten].
  - repeat split; reflexivity.
  - destruct (Hten) with (n := 9%nat) as (b9 & b10 & _ & H10 & H9 & Hstep & _).
    + repeat constructor.
    + reflexivity.
    + reflexivity.
    + reflexivity.
    + reflexivity.
    + lia.
    + exists b10. split; [exact H10|].
      rewrite Hstep, H9. vm_compute. reflexivity.
Defined.

(** ** Task generation *)

Lemma generate_tasks_length (b : Beast) (env : EnvFeatures) (ts : list Task) :
  generate_tasks b env = Ok ts -> (length ts <= 3)%nat.
Proof.
  unfold generate_tasks. intros H. bind_inv H. injection H as <-.
  rewrite length_firstn. lia.
Qed.

(** C7, as stated, fails: it does not hold for every state.  The loop
    over the needs follows the insertion order of the beast's own
    mapping, so a beast built by the constructor with its needs in
    another order gets its tasks in that order ([clean], [quiet_time],
    [feed] here, where the fixed order gives [feed], [quiet_time],
    [clean]); and a beast without the [explorer] trait gets no list at
    all: the subscript raises [KeyError]. *)
Lemma task_order_follows_the_needs_mapping :
  generate_tasks reordered_beast sun_env
    = Ok [clean_task; quiet_time_task; feed_task] /\
  firstn 3 (tasks_in_spec_order 20 20 80 20 0.5 0.5 (lux sun_env))
    = [feed_task; quiet_time_task; clean_task] /\
  ODict.lookup "hunger" (needs reordered_beast) = Some 20 /\
  ODict.lookup "rest" (needs reordered_beast) = Some 20 /\
  ODict.lookup "social" (needs reordered_beast) = Some 80 /\
  ODict.lookup "hygiene" (needs reordered_beast) = Some 20 /\
  traits reordered_beast !! "explorer" = Some 0.5 /\
  traits reordered_beast !! "playful" = Some 0.5 /\
  generate_tasks traitless_beast sun_env = Raise (KeyError "explorer").
Proof. repeat split; vm_compute; reflexivity. Qed.

(** C7, amended.  Whenever [generate_tasks] returns, it returns at most
    three descriptors; it raises [KeyError] for a beast without the
    [explorer] trait, or with it and without the [playful] trait.  For
    a beast whose needs mapping lists hunger, rest, social, hygiene in
    this order, and whose traits define [explorer] and [playful], it
    returns the first three of the list made of one task per need below
    40 in the order hunger (feed), rest (quiet_time), social
    (meet_peer), hygiene (clean), then the exploration task if the
    explorer trait exceeds 0.7, the activity task if the playful trait
    exceeds 0.7, and the brightness task if lux is below 100.  A hunger
    below 40 puts [feed] first. *)
Theorem generate_tasks_order (b : Beast) (env : EnvFeatures)
    (hunger rest social hygiene explorer playful : Q) :
  (forall ts, generate_tasks b env = Ok ts -> (length ts <= 3)%nat) /\
  (traits b !! "explorer" = None ->
     generate_tasks b env = Raise (KeyError "explorer")) /\
  (traits b !! "explorer" = Some explorer -> traits b !! "playful" = None ->
     generate_tasks b env = Raise (KeyError "playful")) /\
  (needs b = needs_of hunger rest social hygiene ->
   traits b !! "explorer" = Some explorer ->
   traits b !! "playful" = Some playful ->
   exists ts,
     generate_tasks b env = Ok ts /\
     ts = firstn 3 (tasks_in_spec_order hunger rest social hygiene
                      explorer playful (lux env)) /\
     (length ts <= 3)%nat /\
     (hunger < 40 -> exists rest_ts, ts = feed_task :: rest_ts)).
Proof.
  split; [|split; [|split]].
  - apply generate_tasks_length.
  - intros He. unfold generate_tasks. now rewrite (subscript_none _ _ He).
  - intros He Hp. unfold generate_tasks.
    rewrite (subscript_some _ _ _ He), (subscript_none _ _ Hp). reflexivity.
  - intros Hn He Hp. unfold generate_tasks.
    rewrite (subscript_some _ _ _ He), (subscript_some _ _ _ Hp).
    cbn [Py.bind]. eexists. split; [reflexivity|].
    rewrite Hn. unfold needs_of, tasks_in_spec_order. cbn [need_tasks].
    cbn [String.eqb Ascii.eqb Bool.eqb].
    split; [|split].
    + destruct (hunger <? 40), (rest <? 40), (social <? 40), (hygiene <? 40),
        (0.7 <? explorer), (0.7 <? playful), (lux env <? 100); reflexivity.
    + rewrite length_firstn. lia.
    + intros Hh. apply ltb_true in Hh. rewrite Hh.
      destruct (0.7 <? explorer), (0.7 <? playful), (lux env <? 100);
        cbn; eauto.
Qed.

Lemma generate_tasks_order_witness :
  exists ts, generate_tasks hungry_beast sun_env = Ok ts /\
             In "feed" (map action ts) /\ (length ts <= 3)%nat.
Proof.
  destruct (generate_tasks_order hungry_beast sun_env 20 80 80 80 0.5 0.5)
    as (_ & _ & _ & Horder).
  destruct Horder as (ts & Hts & _ & Hlen & Hfeed).
  - vm_compute. reflexivity.
  - vm_compute. reflexivity.
  - vm_compute. reflexivity.
  - destruct Hfeed as (rest_ts & ->); [vm_compute; reflexivity|].
    exists (feed_task :: rest_ts). split; [exact Hts|].
    split; [now left | exact Hlen].
Defined.

(** ** Loading the configuration *)

Lemma merge_section_union (base override : gmap string Q) :
  merge_section base override = override ∪ base.
Proof.
  unfold merge_section.
  apply (map_fold_weak_ind (fun r m => r = m ∪ base)).
  - now rewrite (left_id_L ∅ (∪)).
  - intros i x m r Hfresh ->. now rewrite insert_union_l.
Qed.

(** A section of the merged tree: the override's keys over the base's. *)
Lemma deep_merge_section (base override : gmap string (gmap string Q))
    (section : string) :
  get_section section (_deep_merge base override) =
  get_section section override ∪ get_section section base.
Proof.
  unfold get_section, _deep_merge.
  apply (map_fold_weak_ind (fun r m =>
    match r !! section with Some d => d | None => ∅ end =
    match m !! section with Some d => d | None => ∅ end
    ∪ match base !! section with Some d => d | None => ∅ end
    /\ forall k, m !! k = None -> r !! k = base !! k)).
  - split; [|reflexivity]. rewrite lookup_empty.
    now rewrite (left_id_L ∅ (∪)).
  - intros i x m r Hfresh [IH Hkeep]. split.
    + rewrite (Hkeep i Hfresh).
      destruct (decide (i = section)) as [->|Hne].
      * rewrite lookup_insert_eq.
        destruct (base !! section) as [d|] eqn:E.
        -- rewrite lookup_insert_eq. apply merge_section_union.
        -- rewrite lookup_insert_eq. now rewrite (right_id_L ∅ (∪)).
      * rewrite (lookup_insert_ne m) by exact Hne.
        destruct (base !! i); rewrite lookup_insert_ne by exact Hne; exact IH.
    + intros k Hk. apply lookup_insert_None in Hk as [Hk Hne].
      rewrite (Hkeep i Hfresh).
      destruct (base !! i); rewrite lookup_insert_ne by exact Hne;
        now apply Hkeep.
Qed.

(** A key that the custom file leaves out of a section keeps the value
    of the defaults file; a key it defines takes the custom value. *)
Lemma load_config_default_key
    (defaults custom : gmap string (gmap string Q)) (section key : string) :
  get_section section custom !! key = None ->
  get_section section (load_config (Some defaults) (Some custom)) !! key =
  get_section section defaults !! key.
Proof.
  intros H. unfold load_config. rewrite deep_merge_section.
  rewrite lookup_union_r; [reflexivity | exact H].
Qed.

Lemma load_config_custom_key
    (defaults custom : gmap string (gmap string Q)) (section key : string)
    (v : Q) :
  get_section section custom !! key = Some v ->
  get_section section (load_config (Some defaults) (Some custom)) !! key =
  Some v.
Proof.
  intros H. unfold load_config. rewrite deep_merge_section.
  now apply lookup_union_Some_l.
Qed.

(** Without a defaults file and without a custom file every section is
    empty. *)
Lemma load_config_nothing (section : string) :
  get_section section (load_config None None) = ∅.
Proof. reflexivity. Qed.

(** ** Missing configuration keys *)

(** C3, as stated, fails: without [temp_hot] the classifier raises,
    and without [hunger_base] so does [update_needs]; with the
    configuration loaded from no file at all, both raise and
    [update_evolution] does not complete either. *)
Lemma missing_key_raises :
  infer_mood
    (set_thresholds (delete "temp_hot" (thresholds sample_config))
       sample_config)
    sun_env (create_default_beast 0) = Raise (KeyError "temp_hot") /\
  update_needs
    (set_needs_config (delete "hunger_base" (needs_config sample_config))
       sample_config)
    3600 (create_default_beast 0) sun_env ∅ = Raise (KeyError "hunger_base") /\
  infer_mood (Config_of (load_config None None))
    sun_env (create_default_beast 0) = Raise (KeyError "temp_hot") /\
  update_needs (Config_of (load_config None None))
    3600 (create_default_beast 0) sun_env ∅ = Raise (KeyError "hunger_base") /\
  Py.is_ok (update_evolution (Config_of (load_config None None))
              sun_env (create_default_beast 0)) = false.
Proof. repeat split; vm_compute; reflexivity. Qed.

Lemma subscript_insert_other (m : gmap string Q) (k k' : string) (v : Q) :
  k <> k' -> Py.subscript (<[k := v]> m) k' = Py.subscript m k'.
Proof. intros H. unfold Py.subscript. now rewrite lookup_insert_ne. Qed.

Lemma get_insert_default (m : gmap string Q) (k : string) (v : Q) :
  m !! k = None -> Py.get (<[k := v]> m) k v = Py.get m k v.
Proof.
  intros H. unfold Py.get. now rewrite lookup_insert_eq, H.
Qed.

Lemma get_insert_other (m : gmap string Q) (k k' : string) (v d : Q) :
  k <> k' -> Py.get (<[k := v]> m) k' d = Py.get m k' d.
Proof. intros H. unfold Py.get. now rewrite lookup_insert_ne. Qed.

Lemma infer_mood_pressure_default cfg env b :
  thresholds cfg !! "pressure_stable" = None ->
  infer_mood cfg env b =
  infer_mood (set_thresholds (<["pressure_stable" := 2.0]> (thresholds cfg)) cfg)
    env b.
Proof.
  intros H.
  unfold infer_mood, _is_environmental_extreme, _is_environment_unstable,
    _is_comfortable_temperature, set_thresholds.
  cbn [thresholds power].
  rewrite !subscript_insert_other by discriminate.
  now rewrite (get_insert_default _ _ _ H).
Qed.

Lemma update_evolution_rate_default cfg env b :
  evolution cfg !! "progression_rate" = None ->
  update_evolution cfg env b =
  update_evolution
    (set_evolution (<["progression_rate" := 0.01]> (evolution cfg)) cfg) env b.
Proof.
  intros H.
  unfold update_evolution, progress_gain, set_evolution. cbn [evolution].
  rewrite (get_insert_default _ _ _ H).
  now rewrite get_insert_other by discriminate.
Qed.

Lemma update_evolution_goal_default cfg env b :
  evolution cfg !! "stage_goal" = None ->
  update_evolution cfg env b =
  update_evolution
    (set_evolution (<["stage_goal" := 1.0]> (evolution cfg)) cfg) env b.
Proof.
  intros H.
  unfold update_evolution, progress_gain, set_evolution. cbn [evolution].
  rewrite (get_insert_default _ _ _ H).
  now rewrite get_insert_other by discriminate.
Qed.

Lemma bind_raise {A B} (m : result A) (k : A -> result B) (e : exn) :
  m = Raise e -> Py.bind m k = Raise e.
Proof. now intros ->. Qed.

Lemma bind_not_ok {A B} (m : result A) (k : A -> result B) :
  Py.is_ok m = false -> Py.is_ok (Py.bind m k) = false.
Proof. now destruct m. Qed.

(** Run a computation whose lookups and guards are either known or
    split into their cases. *)
Ltac run_cases :=
  repeat (cbn [Py.bind Py.is_ok];
          match goal with
          | |- context [Py.subscript ?m ?k] => destruct (Py.subscript m k)
          | |- context [if ?c then _ else _] => destruct c
          end);
  cbn [Py.bind Py.is_ok].

Lemma update_evolution_needs_active cfg env b :
  thresholds cfg !! "motion_active_g" = None ->
  Py.is_ok (update_evolution cfg env b) = false.
Proof.
  intros H. unfold update_evolution. apply bind_not_ok.
  unfold exposure_scores. rewrite (subscript_none _ _ H).
  run_cases; reflexivity.
Qed.

Lemma update_evolution_needs_dark cfg env b :
  thresholds cfg !! "lux_dark" = None ->
  Py.is_ok (update_evolution cfg env b) = false.
Proof.
  intros H. unfold update_evolution. apply bind_not_ok.
  unfold exposure_scores. rewrite (subscript_none _ _ H).
  run_cases; reflexivity.
Qed.

Lemma subscript_is_some (m : gmap string Q) (k : string) :
  is_Some (m !! k) -> exists v, Py.subscript m k = Ok v.
Proof. intros [v Hv]. exists v. now apply subscript_some. Qed.

(** Replace every configured lookup by its value. *)
Ltac use_config Hc :=
  destruct Hc as [Hk1 Hk2 Hk3 Hk4 Hk5 Hk6 Hk7 Hk8 Hk9 Hk10 Hk11];
  apply subscript_is_some in Hk1 as (temp_hot & Hk1);
  apply subscript_is_some in Hk2 as (temp_cold & Hk2);
  apply subscript_is_some in Hk3 as (lux_dark & Hk3);
  apply subscript_is_some in Hk4 as (lux_bright & Hk4);
  apply subscript_is_some in Hk5 as (active & Hk5);
  apply subscript_is_some in Hk6 as (low_voltage & Hk6);
  apply subscript_is_some in Hk7 as (hunger_base & Hk7);
  apply subscript_is_some in Hk8 as (rest_base & Hk8);
  apply subscript_is_some in Hk9 as (social_base & Hk9);
  apply subscript_is_some in Hk10 as (hygiene_base & Hk10);
  apply subscript_is_some in Hk11 as (drift_rate & Hk11).

Ltac rewrite_config :=
  repeat match goal with
  | H : Py.subscript _ _ = Ok _ |- _ => rewrite !H
  end.

Lemma comfortable_total cfg t :
  config_complete cfg -> exists c, _is_comfortable_temperature cfg t = Ok c.
Proof.
  intros Hc. use_config Hc. unfold _is_comfortable_temperature.
  rewrite Hk1, Hk2. cbn [Py.bind].
  destruct (temp_cold + 5 <=? t); eauto.
Qed.

(** The classifier completes on a complete configuration. *)
Lemma infer_mood_total cfg env b :
  config_complete cfg -> exists m, infer_mood cfg env b = Ok m.
Proof.
  intros Hc. destruct (comfortable_total cfg (temp_c env) Hc) as (c & Hcomf).
  use_config Hc. unfold infer_mood.
  rewrite Hcomf, Hk1, Hk2, Hk3, Hk4, Hk5, Hk6.
  repeat (cbn [Py.bind];
          match goal with
          | |- context [if ?c then _ else _] => destruct c
          end); cbn [Py.bind]; eauto.
Qed.

Lemma config_complete_evolution cfg :
  config_complete cfg ->
  exists hot cold dark active, evolution_thresholds cfg hot cold dark active.
Proof.
  intros [[hot Hh] [cold Hc] [dark Hd] _ [active Ha] _ _ _ _ _ _].
  exists hot, cold, dark, active. repeat split; assumption.
Qed.

Lemma sample_config_complete : config_complete sample_config.
Proof. split; eexists; reflexivity. Qed.

(** C3, amended.  The engine carries a built-in default for three keys
    only: [pressure_stable] (2.0), [progression_rate] (0.01) and
    [stage_goal] (1.0).  For each of them, in any configuration where
    the key is absent, the operation that reads it returns what it
    returns when the key is configured with the default, whatever else
    is or is not configured; and when the eleven other keys are
    configured, [infer_mood] and [update_evolution] complete, with or
    without the three.  Every other key is read by subscript: in any
    configuration where [temp_hot] is absent [infer_mood] raises
    [KeyError], where [hunger_base] is absent [update_needs] does,
    where [lux_dark] or [motion_active_g] is absent [update_evolution]
    does not complete.  These keys get a default at load time only: a
    key that the custom file leaves out keeps the value the defaults
    file gives it. *)
Theorem builtin_defaults_for_three_keys (cfg : Config) (now : Q)
    (env : EnvFeatures) (b : Beast) (actions : gmap string Q) :
  (thresholds cfg !! "pressure_stable" = None ->
     infer_mood cfg env b =
       infer_mood
         (set_thresholds (<["pressure_stable" := 2.0]> (thresholds cfg)) cfg)
         env b) /\
  (evolution cfg !! "progression_rate" = None ->
     update_evolution cfg env b =
       update_evolution
         (set_evolution (<["progression_rate" := 0.01]> (evolution cfg)) cfg)
         env b) /\
  (evolution cfg !! "stage_goal" = None ->
     update_evolution cfg env b =
       update_evolution
         (set_evolution (<["stage_goal" := 1.0]> (evolution cfg)) cfg)
         env b) /\
  (evolution cfg !! "progression_rate" = None ->
   evolution cfg !! "stage_goal" = None ->
     update_evolution cfg env b =
       update_evolution
         (set_evolution
            (<["stage_goal" := 1.0]>
               (<["progression_rate" := 0.01]> (evolution cfg))) cfg)
         env b) /\
  (config_complete cfg ->
     exists m b',
       infer_mood cfg env b = Ok m /\ update_evolution cfg env b = Ok b') /\
  (thresholds cfg !! "temp_hot" = None ->
     infer_mood cfg env b = Raise (KeyError "temp_hot")) /\
  (needs_config cfg !! "hunger_base" = None ->
     update_needs cfg now b env actions = Raise (KeyError "hunger_base")) /\
  (thresholds cfg !! "lux_dark" = None ->
     Py.is_ok (update_evolution cfg env b) = false) /\
  (thresholds cfg !! "motion_active_g" = None ->
     Py.is_ok (update_evolution cfg env b) = false) /\
  (forall defaults custom section key,
     get_section section custom !! key = None ->
     get_section section (load_config (Some defaults) (Some custom)) !! key
     = get_section section defaults !! key).
Proof.
  repeat apply conj.
  - apply infer_mood_pressure_default.
  - apply update_evolution_rate_default.
  - apply update_evolution_goal_default.
  - intros Hrate Hgoal.
    rewrite (update_evolution_rate_default cfg env b Hrate).
    rewrite update_evolution_goal_default; [reflexivity|].
    cbn. now rewrite lookup_insert_ne.
  - intros Hc. destruct (infer_mood_total cfg env b Hc) as (m & Hm).
    destruct (config_complete_evolution cfg Hc) as (h & c & d & a & Ht).
    destruct (update_evolution_total cfg env b _ _ _ _ Ht) as (b' & Hb').
    eauto.
  - intros H. unfold infer_mood. now rewrite (subscript_none _ _ H).
  - intros H. unfold update_needs. now rewrite (subscript_none _ _ H).
  - apply update_evolution_needs_dark.
  - apply update_evolution_needs_active.
  - apply load_config_default_key.
Qed.

Lemma builtin_defaults_for_three_keys_witness :
  (exists m b',
     infer_mood partial_config sun_env (create_default_beast 0) = Ok m /\
     update_evolution partial_config sun_env (create_default_beast 0)
       = Ok b') /\
  update_evolution partial_config sun_env (create_default_beast 0) =
    update_evolution
      (set_evolution
         (<["progression_rate" := 0.01]> (evolution partial_config))
         partial_config)
      sun_env (create_default_beast 0).
Proof.
  destruct (builtin_defaults_for_three_keys partial_config 0 sun_env
              (create_default_beast 0) ∅)
    as (_ & Hrate & _ & _ & Hok & _).
  split.
  - apply Hok. split; eexists; reflexivity.
  - apply Hrate. reflexivity.
Defined.

(** ** Insertion-ordered dictionaries: stores and the clamping loop *)

Module ODictStore.
Import ODict.

Lemma keys_app (p d : t) : keys (p ++ d)%list = (keys p ++ keys d)%list.
Proof. apply map_app. Qed.

Lemma lookup_app_fresh (k : string) (p d : t) :
  ~ In k (keys p) -> lookup k (p ++ d)%list = lookup k d.
Proof.
  induction p as [|[k' v'] p IH]; cbn; intros Hn; [reflexivity|].
  destruct (String.eqb_spec k k') as [->|Hne].
  - exfalso. apply Hn. now left.
  - apply IH. intros Hin. apply Hn. now right.
Qed.

Lemma store_app_fresh (k : string) (x : Q) (p d : t) :
  ~ In k (keys p) -> store k x (p ++ d)%list = (p ++ store k x d)%list.
Proof.
  induction p as [|[k' v'] p IH]; cbn; intros Hn; [reflexivity|].
  destruct (String.eqb_spec k k') as [->|Hne].
  - exfalso. apply Hn. now left.
  - f_equal. apply IH. intros Hin. apply Hn. now right.
Qed.

(** Storing under a key that is present keeps the keys and their
    order. *)
Lemma store_keys (k : string) (x v : Q) (d : t) :
  lookup k d = Some v -> keys (store k x d) = keys d.
Proof.
  induction d as [|[k' v'] d IH]; cbn; [discriminate|].
  destruct (String.eqb k k'); cbn; intros H; [reflexivity|].
  f_equal. now apply IH.
Qed.

Lemma lookup_store_same (k : string) (x : Q) (d : t) :
  lookup k (store k x d) = Some x.
Proof.
  induction d as [|[k' v'] d IH]; cbn.
  - now rewrite String.eqb_refl.
  - destruct (String.eqb k k') eqn:E; cbn; rewrite E; [reflexivity|exact IH].
Qed.

Lemma lookup_store_other (k k' : string) (x : Q) (d : t) :
  k <> k' -> lookup k' (store k x d) = lookup k' d.
Proof.
  intros Hne. induction d as [|[k0 v0] d IH]; cbn.
  - destruct (String.eqb_spec k' k); [congruence|reflexivity].
  - destruct (String.eqb_spec k k0) as [->|Hk]; cbn.
    + destruct (String.eqb_spec k' k0); [congruence|reflexivity].
    + now rewrite IH.
Qed.

Lemma keys_on_values (f : Q -> Q) (d : t) : keys (on_values f d) = keys d.
Proof. unfold keys, on_values. rewrite map_map. reflexivity. Qed.

Lemma values_on_values (f : Q -> Q) (d : t) :
  values (on_values f d) = map f (values d).
Proof. unfold values, on_values. now rewrite !map_map. Qed.

(** The loop has rewritten the entries it has passed and is about to
    visit the rest. *)
Lemma update_each_from (f : Q -> Q) (rest : t) : forall done : t,
  List.NoDup (keys (done ++ rest)%list) ->
  fold_left (each_step f) (keys rest) (done ++ rest)%list
  = (done ++ on_values f rest)%list.
Proof.
  induction rest as [|[k v] rest IH]; intros done Hnd; cbn.
  - reflexivity.
  - assert (Hfresh : ~ In k (keys done)).
    { rewrite keys_app in Hnd. cbn in Hnd.
      apply List.NoDup_remove_2 in Hnd. intros Hin. apply Hnd.
      apply in_or_app. now left. }
    unfold each_step at 2.
    rewrite (lookup_app_fresh _ _ _ Hfresh). cbn.
    rewrite String.eqb_refl, (store_app_fresh _ _ _ _ Hfresh). cbn.
    rewrite String.eqb_refl.
    change (done ++ (k, f v) :: rest)%list
      with (done ++ [(k, f v)] ++ rest)%list.
    rewrite app_assoc, IH.
    + now rewrite <- app_assoc.
    + rewrite <- app_assoc. cbn.
      rewrite keys_app in *. exact Hnd.
Qed.

(** On a dictionary, the loop applies [f] to every value and keeps
    the keys in place. *)
Lemma update_each_on_values (f : Q -> Q) (d : t) :
  well_formed d -> update_each f d = on_values f d.
Proof.
  intros Hwf. apply (update_each_from f d []). exact Hwf.
Qed.

End ODictStore.

Lemma lookup_on_values (f : Q -> Q) (k : string) (d : ODict.t) :
  ODict.lookup k (ODict.on_values f d) = f <$> ODict.lookup k d.
Proof.
  induction d as [|[k' v] d IH]; cbn; [reflexivity|].
  now destruct (String.eqb k k').
Qed.

(** ** Range invariants of the state *)

(** [test_needs_drift]: one hour later the hunger need is lower. *)
Example test_needs_drift :
  exists b',
    update_needs sample_config 3600 (create_default_beast 0)
      (test_env 20 1000 0.1 0 4) ∅ = Ok b' /\
    ODict.get (needs b') "hunger" 0
    < ODict.get (needs (create_default_beast 0)) "hunger" 0.
Proof. eexists. split; [vm_compute; reflexivity|]. vm_compute. reflexivity. Qed.

Lemma odict_subscript_ok (d : ODict.t) (k : string) (v : Q) :
  ODict.subscript d k = Ok v -> ODict.lookup k d = Some v.
Proof.
  unfold ODict.subscript. destruct (ODict.lookup k d); [|discriminate].
  now intros [= ->].
Qed.

Lemma clamped_values_in_range (lo hi : Q) (d : ODict.t) :
  lo <= hi -> ODict.well_formed d ->
  Forall (fun v => lo <= v <= hi)
    (ODict.values (ODict.update_each (clamp lo hi) d)).
Proof.
  intros Hle Hwf. rewrite ODictStore.update_each_on_values by exact Hwf.
  rewrite ODictStore.values_on_values. apply List.Forall_forall.
  intros v Hin. apply in_map_iff in Hin as (x & <- & _).
  now apply clamp_range.
Qed.

Lemma clamped_keys (lo hi : Q) (d : ODict.t) :
  ODict.well_formed d ->
  ODict.keys (ODict.update_each (clamp lo hi) d) = ODict.keys d.
Proof.
  intros Hwf. rewrite ODictStore.update_each_on_values by exact Hwf.
  apply ODictStore.keys_on_values.
Qed.

Lemma clamped_traits_in_range (t : gmap string Q) :
  map_Forall (fun _ v => 0 <= v <= 1) (clamp 0 1 <$> t).
Proof.
  intros k v Hkv. rewrite lookup_fmap in Hkv.
  destruct (t !! k) as [x|]; cbn in Hkv; [|discriminate].
  injection Hkv as <-. apply clamp_range. lra.
Qed.

Lemma drift_step_keys cfg env b actions hours d entry d' :
  drift_step cfg env b actions hours d entry = Ok d' ->
  ODict.keys d' = ODict.keys d.
Proof.
  unfold drift_step. destruct entry as [need base]. intros H. bind_inv H.
  apply odict_subscript_ok in Hv0.
  destruct (actions !! need) as [amount|].
  - bind_inv H. injection H as <-. apply odict_subscript_ok in Hv2.
    rewrite (ODictStore.store_keys _ _ _ _ Hv2).
    now rewrite (ODictStore.store_keys _ _ _ _ Hv0).
  - injection H as <-. now rewrite (ODictStore.store_keys _ _ _ _ Hv0).
Qed.

Lemma drift_loop_keys cfg env b actions hours rates : forall d d',
  drift_loop cfg env b actions hours rates d = Ok d' ->
  ODict.keys d' = ODict.keys d.
Proof.
  induction rates as [|entry rates IH]; cbn; intros d d' H.
  - now injection H as <-.
  - bind_inv H. apply IH in H. apply drift_step_keys in Hv. congruence.
Qed.

Lemma satisfaction_keys cfg d env d' :
  _apply_environmental_satisfaction cfg d env = Ok d' ->
  ODict.keys d' = ODict.keys d.
Proof.
  unfold _apply_environmental_satisfaction. intros H. bind_inv H.
  assert (H1 : ODict.keys v1 = ODict.keys d).
  { destruct v0.
    - bind_inv Hv1. injection Hv1 as <-. apply odict_subscript_ok in Hv3.
      now rewrite (ODictStore.store_keys _ _ _ _ Hv3).
    - now injection Hv1 as <-. }
  destruct (v2 && (40 <? rh env) && (rh env <? 70)).
  - bind_inv H. injection H as <-. apply odict_subscript_ok in Hv3.
    now rewrite (ODictStore.store_keys _ _ _ _ Hv3).
  - now injection H as <-.
Qed.

(** [update_needs] leaves every need in [0,100] and the keys of the
    needs mapping in place. *)
Lemma update_needs_range cfg now b env actions b' :
  ODict.well_formed (needs b) ->
  update_needs cfg now b env actions = Ok b' ->
  ODict.keys (needs b') = ODict.keys (needs b) /\ needs_in_range b'.
Proof.
  intros Hwf H. unfold update_needs in H. bind_inv H.
  apply drift_loop_keys in Hv3. apply satisfaction_keys in Hv4.
  assert (Hwf' : ODict.well_formed v4).
  { unfold ODict.well_formed in *. congruence. }
  injection H as <-. unfold needs_in_range. cbn [needs]. split.
  - rewrite clamped_keys by exact Hwf'. congruence.
  - apply clamped_values_in_range; [lra | exact Hwf'].
Qed.

(** [tick_traits] leaves every trait in [0,1]. *)
Lemma tick_traits_range cfg env b actions b' :
  tick_traits cfg env b actions = Ok b' -> traits_in_range b'.
Proof.
  unfold tick_traits. intros H. bind_inv H. injection H as <-.
  apply clamped_traits_in_range.
Qed.

Lemma clamp_stage_range (n : Z) : (1 <= clamp_stage n <= 4)%Z.
Proof.
  unfold clamp_stage.
  destruct (n <? 4)%Z eqn:E1; [apply Z.ltb_lt in E1 | apply Z.ltb_ge in E1].
  - destruct (1 <? n)%Z eqn:E2; [apply Z.ltb_lt in E2 | apply Z.ltb_ge in E2]; lia.
  - cbn. lia.
Qed.

(** The constructor establishes the ranges, [evolution_prog <= 1]
    included. *)
Lemma Beast_init_ok m n t p s pr e u :
  ODict.well_formed n ->
  state_ok (Beast_init m n t p s pr e u) /\
  evolution_prog (Beast_init m n t p s pr e u) <= 1.
Proof.
  intros Hwf. unfold Beast_init, Beast_post_init.
  cbn [needs traits evolution_stage evolution_prog].
  assert (Hp : 0 <= clamp 0 1 pr <= 1) by (apply clamp_range; lra).
  split; [split|]; unfold needs_in_range, traits_in_range, stage_in_range;
    cbn [needs traits evolution_stage evolution_prog]; try tauto.
  - unfold ODict.well_formed. now rewrite clamped_keys.
  - apply clamped_values_in_range; [lra | exact Hwf].
  - apply clamped_traits_in_range.
  - apply clamp_stage_range.
Qed.

Lemma progress_gain_nonneg cfg scores gain :
  0 <= progression_rate cfg ->
  progress_gain cfg scores = Ok gain -> 0 <= gain.
Proof.
  intros Hr H. unfold progress_gain in H. bind_inv H. injection H as <-.
  apply Qmult_le_0_compat; [exact Hr|].
  pose proof (max_upper v 0.1). lra.
Qed.

(** [update_evolution] keeps the stage in [1,4] and the progress
    non-negative; below stage 4 it keeps the progress at most 1. *)
Lemma update_evolution_ok cfg env b b' :
  0 <= progression_rate cfg -> stage_goal cfg <= 1 ->
  state_ok b -> update_evolution cfg env b = Ok b' -> state_ok b'.
Proof.
  intros Hr Hg [Hd Hn Ht Hs Hlo Hup] H.
  unfold update_evolution in H. bind_inv H.
  apply (progress_gain_nonneg _ _ _ Hr) in Hv1.
  injection H as <-. unfold stage_in_range in *.
  fold (stage_goal cfg).
  destruct (stage_goal cfg <=? evolution_prog b + v1) eqn:E1;
    [apply leb_true in E1 | apply leb_false in E1];
    (destruct (evolution_stage b <? 4)%Z eqn:E2;
     [apply Z.ltb_lt in E2 | apply Z.ltb_ge in E2]);
    split; unfold stage_in_range;
    cbn [needs traits evolution_stage evolution_prog andb];
    try assumption; try lia; try lra; intros; try lia; lra.
Qed.

Lemma apply_update_ok cfg u b b' :
  0 <= progression_rate cfg -> stage_goal cfg <= 1 ->
  state_ok b -> apply_update cfg u b = Ok b' -> state_ok b'.
Proof.
  intros Hr Hg Hok H. destruct u as [now env actions|env actions|env];
    cbn [apply_update] in H.
  - destruct Hok as [Hd Hn Ht Hs Hlo Hup].
    destruct (update_needs_range _ _ _ _ _ _ Hd H) as (Hk & Hrange).
    apply update_needs_frame in H as (_ & Htr & _ & Hst & Hpr).
    split; unfold traits_in_range, stage_in_range, ODict.well_formed in *;
      try congruence.
    + rewrite Htr. exact Ht.
    + rewrite Hst, Hpr. exact Hup.
  - destruct Hok as [Hd Hn Ht Hs Hlo Hup].
    pose proof (tick_traits_range _ _ _ _ _ H) as Hrange.
    apply tick_traits_frame in H as (_ & Hnd & _ & Hst & Hpr).
    split; unfold needs_in_range, stage_in_range in *; try congruence.
    + exact Hrange.
    + rewrite Hst, Hpr. exact Hup.
  - eapply update_evolution_ok; eassumption.
Qed.

(** The part of the range invariant that the engine maintains over
    every interleaving of its three updates: needs in [0,100], traits
    in [0,1], stage in [1,4], progress non-negative, and progress at
    most 1 as long as the stage is below 4. *)
Lemma engine_invariant cfg us : forall b b',
  0 <= progression_rate cfg -> stage_goal cfg <= 1 ->
  state_ok b -> apply_updates cfg us b = Ok b' -> state_ok b'.
Proof.
  induction us as [|u us IH]; cbn; intros b b' Hr Hg Hok H.
  - now injection H as <-.
  - bind_inv H. eapply IH; [exact Hr | exact Hg | | exact H].
    eapply apply_update_ok; eassumption.
Qed.

(** At stage 4 nothing resets or caps the progress: over sun-favouring
    snapshots it grows by the progression rate at every call. *)
Lemma final_stage_progress_grows cfg hot cold dark active
    (envs : list EnvFeatures) :
  evolution_thresholds cfg hot cold dark active ->
  Forall (sun_favoring active) envs ->
  forall b,
    evolution_stage b = 4%Z ->
    exists b', evolve cfg envs b = Ok b' /\
      evolution_stage b' = 4%Z /\
      evolution_prog b' ==
        evolution_prog b
        + inject_Z (Z.of_nat (length envs)) * progression_rate cfg.
Proof.
  intros Ht Hall.
  induction Hall as [|env envs Hsun Hall IH]; intros b Hstage.
  - exists b. split; [reflexivity|]. split; [exact Hstage|]. cbn. ring.
  - destruct (update_evolution_progress cfg env b _ _ _ _ Ht)
      as (best & b1 & _ & Hin & Hge & Hb1 & Hprog & Hst).
    pose proof (sun_favoring_best _ _ _ _ _ _ Hsun Hin Hge) as Hbest.
    cbv zeta in Hprog, Hst. rewrite Hstage in Hprog, Hst.
    rewrite andb_false_r in Hprog, Hst.
    destruct (IH b1 Hst) as (b' & Hb' & Hst' & Hp').
    exists b'. split; [|split; [exact Hst'|]].
    + unfold evolve. cbn [map apply_updates apply_update].
      rewrite Hb1. cbn [Py.bind]. exact Hb'.
    + rewrite Hp', Hprog, Hbest. cbn [length].
      rewrite Nat2Z.inj_succ, <- Z.add_1_r, inject_Z_plus.
      change (inject_Z 1) with 1. ring.
Qed.

(** C1.  The range invariant of [evolution_prog] is broken by the code
    at stage 4: [update_evolution] adds the gain and clamps nothing, and
    the reset to 0 is guarded by [evolution_stage < 4].  From the
    default beast, 401 calls on the sun-favouring snapshot reach stage 4
    with a progress above 1; one call on a beast restored at stage 4
    with progress 1 does the same.  Both start from states that satisfy
    the invariant. *)
Theorem evolution_prog_exceeds_one_at_stage_4 :
  (state_ok (create_default_beast 0) /\
   exists b,
     evolve sample_config (repeat sun_env 401) (create_default_beast 0) = Ok b /\
     evolution_stage b = 4%Z /\ 1 < evolution_prog b) /\
  (state_ok final_stage_beast /\
   evolution_prog final_stage_beast <= 1 /\
   exists b,
     update_evolution sample_config sun_env final_stage_beast = Ok b /\
     evolution_stage b = 4%Z /\ evolution_prog b == 1.01).
Proof.
  assert (Hwf : forall h r s y, ODict.well_formed
            [("hunger", h); ("rest", r); ("social", s); ("hygiene", y)]).
  { intros. unfold ODict.well_formed. cbn.
    repeat (apply List.NoDup_cons; [cbn; intuition discriminate|]).
    apply List.NoDup_nil. }
  split; [split|split; [|split]].
  - apply Beast_init_ok, Hwf.
  - eexists. split; [vm_compute; reflexivity|].
    split; vm_compute; reflexivity.
  - apply Beast_init_ok, Hwf.
  - apply Beast_init_ok, Hwf.
  - eexists. split; [vm_compute; reflexivity|].
    split; vm_compute; reflexivity.
Qed.

(** ** The engine completes on well-formed inputs *)

Lemma need_names_needs_of (d : ODict.t) :
  ODict.keys d = NEED_NAMES <->
  exists h r s y, d = needs_of h r s y.
Proof.
  split.
  - destruct d as [|[k1 h] [|[k2 r] [|[k3 s] [|[k4 y] [|? ?]]]]];
      cbn; intros H; try discriminate.
    injection H as -> -> -> ->. now exists h, r, s, y.
  - intros (h & r & s & y & ->). reflexivity.
Qed.

Lemma need_names_well_formed (d : ODict.t) :
  ODict.keys d = NEED_NAMES -> ODict.well_formed d.
Proof.
  intros H. unfold ODict.well_formed. rewrite H. unfold NEED_NAMES.
  repeat (apply List.NoDup_cons; [cbn; intuition discriminate|]).
  apply List.NoDup_nil.
Qed.

Lemma lookup_in_keys (k : string) (d : ODict.t) :
  In k (ODict.keys d) -> exists v, ODict.lookup k d = Some v.
Proof.
  induction d as [|[k' v'] d IH]; cbn; [contradiction|].
  intros Hin. destruct (String.eqb_spec k k') as [->|Hne]; [eauto|].
  apply IH. destruct Hin as [Heq|Hin]; [congruence | exact Hin].
Qed.

Lemma odict_subscript_present (k : string) (d : ODict.t) :
  In k (ODict.keys d) -> exists v, ODict.subscript d k = Ok v.
Proof.
  intros Hin. apply lookup_in_keys in Hin as (v & Hv).
  exists v. unfold ODict.subscript. now rewrite Hv.
Qed.

Lemma calculate_drift_rate_total cfg need base env b :
  config_complete cfg ->
  exists rate, _calculate_drift_rate cfg need base env b = Ok rate.
Proof.
  intros Hc. destruct (comfortable_total cfg (temp_c env) Hc) as (c & Hcomf).
  use_config Hc. unfold _calculate_drift_rate.
  rewrite Hcomf, Hk4, Hk5. cbn [Py.bind].
  repeat match goal with
  | |- context [if ?c then _ else _] => destruct c
  end; eauto.
Qed.

Lemma drift_step_total cfg env b actions hours d need base :
  config_complete cfg -> In need (ODict.keys d) ->
  exists d', drift_step cfg env b actions hours d (need, base) = Ok d'.
Proof.
  intros Hc Hin.
  destruct (calculate_drift_rate_total cfg need base env b Hc) as (rate & Hr).
  destruct (odict_subscript_present _ _ Hin) as (old & Hold).
  destruct (has_drift_rate cfg Hc) as (g & Hg).
  unfold drift_step. rewrite Hr, Hold, (subscript_some _ _ _ Hg).
  cbn [Py.bind]. destruct (actions !! need) as [amount|]; [|eauto].
  unfold ODict.subscript. rewrite ODictStore.lookup_store_same.
  cbn [Py.bind]. eauto.
Qed.

Lemma drift_loop_total cfg env b actions hours rates : forall d,
  config_complete cfg ->
  (forall e, In e rates -> In (fst e) (ODict.keys d)) ->
  exists d', drift_loop cfg env b actions hours rates d = Ok d'.
Proof.
  induction rates as [|[need base] rates IH]; intros d Hc Hall;
    cbn [drift_loop].
  - eauto.
  - destruct (drift_step_total cfg env b actions hours d need base Hc)
      as (d1 & Hd1).
    { apply (Hall (need, base)). now left. }
    rewrite Hd1. cbn [Py.bind]. apply IH; [exact Hc|].
    intros e He. rewrite (drift_step_keys _ _ _ _ _ _ _ _ Hd1).
    apply Hall. now right.
Qed.

Lemma satisfaction_total cfg d env :
  config_complete cfg ->
  In "rest" (ODict.keys d) -> In "hygiene" (ODict.keys d) ->
  exists d', _apply_environmental_satisfaction cfg d env = Ok d'.
Proof.
  intros Hc Hrest Hhyg.
  destruct (comfortable_total cfg (temp_c env) Hc) as (c & Hcomf).
  destruct (odict_subscript_present _ _ Hrest) as (r & Hr).
  pose proof (odict_subscript_ok _ _ _ Hr) as Hr'.
  use_config Hc. unfold _apply_environmental_satisfaction.
  rewrite Hk3, Hk5, Hcomf, Hr. cbn [Py.bind].
  destruct (lux env <? lux_dark); cbn [Py.bind];
    [destruct (motion_rms_g env <? active / 4); cbn [Py.bind]|];
    (destruct (c && (40 <? rh env) && (rh env <? 70)); [|eauto]).
  - destruct (odict_subscript_present "hygiene"
                (ODict.store "rest" (Py.min 100 (r + 0.5)) d)) as (h & Hh).
    { now rewrite (ODictStore.store_keys _ _ _ _ Hr'). }
    rewrite Hh. cbn [Py.bind]. eauto.
  - destruct (odict_subscript_present _ _ Hhyg) as (h & Hh).
    rewrite Hh. cbn [Py.bind]. eauto.
  - destruct (odict_subscript_present _ _ Hhyg) as (h & Hh).
    rewrite Hh. cbn [Py.bind]. eauto.
Qed.

Lemma update_needs_total cfg now b env actions :
  config_complete cfg -> ODict.keys (needs b) = NEED_NAMES ->
  exists b', update_needs cfg now b env actions = Ok b'.
Proof.
  intros Hc Hkeys. unfold update_needs.
  destruct (has_hunger_base cfg Hc) as (hb & Hhb).
  destruct (has_rest_base cfg Hc) as (rb & Hrb).
  destruct (has_social_base cfg Hc) as (sb & Hsb).
  destruct (has_hygiene_base cfg Hc) as (yb & Hyb).
  rewrite (subscript_some _ _ _ Hhb), (subscript_some _ _ _ Hrb),
    (subscript_some _ _ _ Hsb), (subscript_some _ _ _ Hyb).
  cbn [Py.bind].
  match goal with
  | |- context [drift_loop cfg env b actions ?h ?rates (needs b)] =>
      destruct (drift_loop_total cfg env b actions h rates (needs b) Hc)
        as (d1 & Hd1)
  end.
  { rewrite Hkeys. cbn. intros e [<-|[<-|[<-|[<-|[]]]]]; cbn; tauto. }
  rewrite Hd1. cbn [Py.bind].
  pose proof (drift_loop_keys _ _ _ _ _ _ _ _ Hd1) as Hk1.
  destruct (satisfaction_total cfg d1 env Hc) as (d2 & Hd2).
  { rewrite Hk1, Hkeys. cbn. tauto. }
  { rewrite Hk1, Hkeys. cbn. tauto. }
  rewrite Hd2. cbn [Py.bind]. eauto.
Qed.

Lemma guarded_trait_add_total (c : bool) (k : string) (d : Q)
    (t : gmap string Q) :
  is_Some (t !! k) ->
  exists t', (if c then trait_add k d t else Ok t) = Ok t' /\
             forall k', is_Some (t !! k') -> is_Some (t' !! k').
Proof.
  intros [v Hv]. destruct c; [|eauto].
  unfold trait_add. rewrite (subscript_some _ _ _ Hv). cbn [Py.bind].
  eexists. split; [reflexivity|].
  intros k' Hk'. apply lookup_insert_is_Some.
  destruct (decide (k = k')); auto.
Qed.

Lemma average_total (d : ODict.t) :
  d <> [] -> exists a, average d = Ok a.
Proof. unfold average. destruct d; [congruence|eauto]. Qed.

Lemma tick_traits_total cfg env b actions :
  config_complete cfg -> beast_complete b ->
  exists b', tick_traits cfg env b actions = Ok b' /\ beast_complete b'.
Proof.
  intros Hc [Hkeys Htraits].
  destruct (has_motion_active_g cfg Hc) as (active & Ha).
  destruct (average_total (needs b)) as (avg & Havg).
  { intros E. rewrite E in Hkeys. discriminate. }
  unfold tick_traits. rewrite (subscript_some _ _ _ Ha), Havg.
  cbn [Py.bind].
  assert (Hin : forall k, In k TRAIT_NAMES -> In k TRAIT_NAMES) by auto.
  unfold TRAIT_NAMES in Hin at 2. cbn [In] in Hin.
  edestruct (guarded_trait_add_total) with (k := "playful") (t := traits b)
    as (t1 & -> & H1); [apply Htraits; cbn; tauto|].
  cbn [Py.bind].
  assert (Hneedy : exists t2,
    (if avg <? 40 then trait_add "needy" 0.01 t1
     else if 70 <? avg then trait_add "needy" (- (0.01 / 2)) t1
     else Ok t1) = Ok t2 /\
    forall k', is_Some (t1 !! k') -> is_Some (t2 !! k')).
  { destruct (avg <? 40).
    - apply (guarded_trait_add_total true). apply H1, Htraits. cbn. tauto.
    - apply (guarded_trait_add_total (70 <? avg)).
      apply H1, Htraits. cbn. tauto. }
  destruct Hneedy as (t2 & -> & H2). cbn [Py.bind].
  edestruct (guarded_trait_add_total) with (k := "rebellious") (t := t2)
    as (t3 & -> & H3); [apply H2, H1, Htraits; cbn; tauto|].
  cbn [Py.bind].
  edestruct (guarded_trait_add_total) with (k := "social") (t := t3)
    as (t4 & -> & H4); [apply H3, H2, H1, Htraits; cbn; tauto|].
  cbn [Py.bind].
  edestruct (guarded_trait_add_total) with (k := "explorer") (t := t4)
    as (t5 & -> & H5); [apply H4, H3, H2, H1, Htraits; cbn; tauto|].
  cbn [Py.bind].
  eexists. split; [reflexivity|]. split; cbn [needs traits]; [exact Hkeys|].
  intros k Hk. rewrite lookup_fmap. apply fmap_is_Some.
  apply H5, H4, H3, H2, H1, Htraits, Hk.
Qed.

Lemma apply_update_total cfg u b :
  config_complete cfg -> beast_complete b ->
  exists b', apply_update cfg u b = Ok b' /\ beast_complete b'.
Proof.
  intros Hc Hb. destruct u as [now env actions|env actions|env];
    cbn [apply_update].
  - destruct Hb as [Hkeys Htraits].
    destruct (update_needs_total cfg now b env actions Hc Hkeys) as (b' & Hb').
    exists b'. split; [exact Hb'|].
    destruct (update_needs_range _ _ _ _ _ _
                (need_names_well_formed _ Hkeys) Hb') as (Hk & _).
    apply update_needs_frame in Hb' as (_ & Htr & _).
    split; [congruence|]. now rewrite Htr.
  - now apply tick_traits_total.
  - destruct (config_complete_evolution cfg Hc) as (h & c & d & a & Ht).
    destruct (update_evolution_total cfg env b _ _ _ _ Ht) as (b' & Hb').
    exists b'. split; [exact Hb'|].
    apply update_evolution_frame in Hb' as (_ & Hn & Htr).
    destruct Hb as [Hkeys Htraits]. split; [congruence|]. now rewrite Htr.
Qed.

(** Every run of updates completes on a complete configuration and a
    complete state, and leaves the state complete. *)
Lemma apply_updates_total cfg us : forall b,
  config_complete cfg -> beast_complete b ->
  exists b', apply_updates cfg us b = Ok b' /\ beast_complete b'.
Proof.
  induction us as [|u us IH]; intros b Hc Hb; cbn [apply_updates].
  - eauto.
  - destruct (apply_update_total cfg u b Hc Hb) as (b1 & -> & Hb1).
    cbn [Py.bind]. now apply IH.
Qed.

Lemma set_mood_complete (m : string) (b : Beast) :
  beast_complete b -> beast_complete (set_mood m b).
Proof. intros H. exact H. Qed.

(** A whole tick completes as well. *)
Lemma tick_total cfg now env b :
  config_complete cfg -> beast_complete b ->
  exists b', tick cfg now env b = Ok b' /\ beast_complete b'.
Proof.
  intros Hc Hb. unfold tick.
  destruct (infer_mood_total cfg env b Hc) as (m & ->). cbn [Py.bind].
  destruct (apply_updates_total cfg
              [UpdateNeeds now env ∅; TickTraits env ∅; UpdateEvolution env]
              (set_mood m b) Hc (set_mood_complete m b Hb))
    as (b' & Hrun & Hb').
  exists b'. split; [|exact Hb'].
  cbn [apply_updates apply_update] in Hrun.
  destruct (update_needs cfg now (set_mood m b) env ∅) as [b1|];
    cbn [Py.bind] in *; [|discriminate].
  destruct (tick_traits cfg env b1 ∅) as [b2|];
    cbn [Py.bind] in *; [|discriminate].
  destruct (update_evolution cfg env b2) as [b3|];
    cbn [Py.bind] in *; [exact Hrun|discriminate].
Qed.

Lemma create_default_beast_complete (now : Q) :
  beast_complete (create_default_beast now).
Proof.
  split.
  - reflexivity.
  - unfold TRAIT_NAMES. cbn [In].
    intros k [<-|[<-|[<-|[<-|[<-|[]]]]]]; eexists; vm_compute; reflexivity.
Qed.

Lemma Beast_default_complete (m : string) (now : Q) :
  beast_complete (Beast_default m now).
Proof.
  split.
  - reflexivity.
  - unfold TRAIT_NAMES. cbn [In].
    intros k [<-|[<-|[<-|[<-|[<-|[]]]]]]; eexists; vm_compute; reflexivity.
Qed.

(** [generate_tasks] completes on a complete state. *)
Lemma generate_tasks_total (b : Beast) (env : EnvFeatures) :
  beast_complete b ->
  exists hunger rest social hygiene explorer playful,
    needs b = needs_of hunger rest social hygiene /\
    traits b !! "explorer" = Some explorer /\
    traits b !! "playful" = Some playful /\
    is_ok (generate_tasks b env) = true.
Proof.
  intros [Hkeys Htraits].
  apply need_names_needs_of in Hkeys as (h & r & s & y & Hn).
  destruct (Htraits "explorer") as (e & He); [cbn; tauto|].
  destruct (Htraits "playful") as (p & Hp); [cbn; tauto|].
  exists h, r, s, y, e, p. do 3 (split; [assumption|]).
  unfold generate_tasks.
  now rewrite (subscript_some _ _ _ He), (subscript_some _ _ _ Hp).
Qed.

(** ** Drift of the rest need *)

(** An entry of the drift loop leaves the needs of the other entries
    alone. *)
Lemma drift_step_other_lookup cfg env b actions hours d need base d' k :
  need <> k ->
  drift_step cfg env b actions hours d (need, base) = Ok d' ->
  ODict.lookup k d' = ODict.lookup k d.
Proof.
  intros Hne H. unfold drift_step in H. bind_inv H.
  destruct (actions !! need) as [amount|].
  - bind_inv H. injection H as <-.
    now rewrite !ODictStore.lookup_store_other by exact Hne.
  - injection H as <-. now rewrite ODictStore.lookup_store_other by exact Hne.
Qed.

(** The entry of a need lowers it by rate x hours x global drift, then
    adds the amount of the need's action, if any. *)
Lemma drift_step_same_lookup cfg env b actions hours d need base d' rate
    old global :
  _calculate_drift_rate cfg need base env b = Ok rate ->
  ODict.lookup need d = Some old ->
  needs_config cfg !! "drift_rate" = Some global ->
  drift_step cfg env b actions hours d (need, base) = Ok d' ->
  ODict.lookup need d' =
    Some (match actions !! need with
          | Some amount => old - rate * hours * global + amount
          | None => old - rate * hours * global
          end).
Proof.
  intros Hrate Hold Hglobal H. unfold drift_step in H.
  rewrite Hrate in H. unfold ODict.subscript in H. rewrite Hold in H.
  rewrite (subscript_some _ _ _ Hglobal) in H. cbn [Py.bind] in H.
  destruct (actions !! need) as [amount|].
  - rewrite ODictStore.lookup_store_same in H. cbn [Py.bind] in H.
    injection H as <-. now rewrite ODictStore.lookup_store_same.
  - injection H as <-. now rewrite ODictStore.lookup_store_same.
Qed.

(** The satisfaction step on the rest need: half a point, capped at
    100, in a dark and quiet place. *)
Lemma satisfaction_rest_lookup cfg d env d' dark active old :
  thresholds cfg !! "lux_dark" = Some dark ->
  thresholds cfg !! "motion_active_g" = Some active ->
  _apply_environmental_satisfaction cfg d env = Ok d' ->
  ODict.lookup "rest" d = Some old ->
  ODict.lookup "rest" d' =
    Some (if (lux env <? dark) && (motion_rms_g env <? active / 4)
          then Py.min 100 (old + 0.5) else old).
Proof.
  intros Hd Ha H Hold. unfold _apply_environmental_satisfaction in H.
  rewrite (subscript_some _ _ _ Hd), (subscript_some _ _ _ Ha) in H.
  cbn [Py.bind] in H.
  assert (Hquiet : (if lux env <? dark
                    then Ok (motion_rms_g env <? active / 4) else Ok false)
                   = Ok ((lux env <? dark) && (motion_rms_g env <? active / 4)))
    by now destruct (lux env <? dark).
  rewrite Hquiet in H. cbn [Py.bind] in H.
  destruct ((lux env <? dark) && (motion_rms_g env <? active / 4)).
  - unfold ODict.subscript at 1 in H. rewrite Hold in H. cbn [Py.bind] in H.
    bind_inv H.
    assert (Hrest : ODict.lookup "rest"
                      (ODict.store "rest" (Py.min 100 (old + 0.5)) d)
                    = Some (Py.min 100 (old + 0.5)))
      by apply ODictStore.lookup_store_same.
    destruct (v && (40 <? rh env) && (rh env <? 70)).
    + bind_inv H. injection H as <-.
      now rewrite ODictStore.lookup_store_other by discriminate.
    + now injection H as <-.
  - cbn [Py.bind] in H. bind_inv H.
    destruct (v && (40 <? rh env) && (rh env <? 70)).
    + bind_inv H. injection H as <-.
      now rewrite ODictStore.lookup_store_other by discriminate.
    + now injection H as <-.
Qed.

(** C8.  The drift rate [update_needs] applies to the rest need is the
    configured base rate [rest_base] times 1.2 when the light exceeds
    the bright threshold and times 1.3 when the motion exceeds the
    active threshold; the two factors compose: 1.56 when both hold, 1
    when neither does, and (for a non-zero base rate) 1.56 only when
    both hold.  [update_needs] completes and lowers the rest need by
    this rate times the hours passed times the global drift rate: the
    rest need it returns is the old one minus that drop, plus the amount
    of a rest action if there is one, plus the half point of a dark and
    quiet place capped at 100, clamped to [0,100]. *)
Theorem rest_drift_rate_multipliers (cfg : Config) (base : Q)
    (env : EnvFeatures) (beast : Beast) (bright active : Q) :
  thresholds cfg !! "lux_bright" = Some bright ->
  thresholds cfg !! "motion_active_g" = Some active ->
  exists rate,
    _calculate_drift_rate cfg "rest" base env beast = Ok rate /\
    rate == base * (if bright <? lux env then 1.2 else 1)
                 * (if active <? motion_rms_g env then 1.3 else 1) /\
    (bright < lux env -> active < motion_rms_g env -> rate == base * 1.56) /\
    (bright < lux env -> motion_rms_g env <= active -> rate == base * 1.2) /\
    (lux env <= bright -> active < motion_rms_g env -> rate == base * 1.3) /\
    (lux env <= bright -> motion_rms_g env <= active -> rate == base) /\
    (~ base == 0 ->
     (rate == base * 1.56 <-> bright < lux env /\ active < motion_rms_g env)) /\
    (forall hours_passed needs0 old global,
       ODict.lookup "rest" needs0 = Some old ->
       needs_config cfg !! "drift_rate" = Some global ->
       drift_step cfg env beast ∅ hours_passed needs0 ("rest", base) =
         Ok (ODict.store "rest" (old - rate * hours_passed * global) needs0)) /\
    (forall now actions dark global,
       config_complete cfg ->
       ODict.keys (needs beast) = NEED_NAMES ->
       needs_config cfg !! "rest_base" = Some base ->
       needs_config cfg !! "drift_rate" = Some global ->
       thresholds cfg !! "lux_dark" = Some dark ->
       exists b' old,
         update_needs cfg now beast env actions = Ok b' /\
         ODict.lookup "rest" (needs beast) = Some old /\
         let hours_passed := (now - last_updated beast) / 3600 in
         let drifted := old - rate * hours_passed * global in
         let served :=
           match actions !! "rest" with
           | Some amount => drifted + amount
           | None => drifted
           end in
         let rested :=
           if (lux env <? dark) && (motion_rms_g env <? active / 4)
           then Py.min 100 (served + 0.5) else served in
         ODict.lookup "rest" (needs b') = Some (clamp 0 100 rested)).
Proof.
  intros Hb Ha.
  assert (Hrate : exists rate,
    _calculate_drift_rate cfg "rest" base env beast = Ok rate /\
    rate = (if active <? motion_rms_g env
            then (if bright <? lux env then base * 1.2 else base) * 1.3
            else (if bright <? lux env then base * 1.2 else base))).
  { unfold _calculate_drift_rate. cbn [String.eqb Ascii.eqb Bool.eqb]. cbn.
    rewrite (subscript_some _ _ _ Hb), (subscript_some _ _ _ Ha).
    cbn [Py.bind]. eauto. }
  destruct Hrate as (rate & Hrate & Hval). exists rate.
  split; [exact Hrate|].
  do 5 (split; [rewrite Hval; float_cases; intros; lra|]).
  split; [|split].
  - rewrite Hval. float_cases; intros Hbase; split; intros; lra.
  - intros hours_passed needs0 old global Hold Hglobal.
    unfold drift_step. rewrite Hrate. cbn [Py.bind].
    unfold ODict.subscript. rewrite Hold. cbn [Py.bind].
    rewrite (subscript_some _ _ _ Hglobal). cbn [Py.bind].
    now rewrite lookup_empty.
  - intros now actions dark global Hc Hkeys Hbase Hglobal Hdark.
    destruct (update_needs_total cfg now beast env actions Hc Hkeys)
      as (b' & Hb').
    destruct (lookup_in_keys "rest" (needs beast)) as (old & Hold).
    { rewrite Hkeys. cbn. tauto. }
    exists b', old. split; [exact Hb'|]. split; [exact Hold|]. cbn zeta.
    unfold update_needs in Hb'. bind_inv Hb'.
    assert (Hv0' : v0 = base).
    { rewrite (subscript_some _ _ _ Hbase) in Hv0. now injection Hv0. }
    subst v0.
    pose proof (drift_loop_keys _ _ _ _ _ _ _ _ Hv3) as Hkeys3.
    cbn [drift_loop] in Hv3.
    apply bind_ok in Hv3 as (d1 & Hs1 & Hv3).
    apply bind_ok in Hv3 as (d2 & Hs2 & Hv3).
    apply bind_ok in Hv3 as (d3 & Hs3 & Hv3).
    apply bind_ok in Hv3 as (d4 & Hs4 & Hv3).
    injection Hv3 as Hlast. subst d4.
    apply (drift_step_other_lookup _ _ _ _ _ _ _ _ _ "rest") in Hs1;
      [|discriminate].
    apply (drift_step_same_lookup _ _ _ _ _ _ _ _ _ rate old global) in Hs2;
      [|exact Hrate | congruence | exact Hglobal].
    apply (drift_step_other_lookup _ _ _ _ _ _ _ _ _ "rest") in Hs3;
      [|discriminate].
    apply (drift_step_other_lookup _ _ _ _ _ _ _ _ _ "rest") in Hs4;
      [|discriminate].
    assert (Hdrifted : ODict.lookup "rest" v3 =
              Some (match actions !! "rest" with
                    | Some amount =>
                        old - rate * ((now - last_updated beast) / 3600)
                              * global + amount
                    | None =>
                        old - rate * ((now - last_updated beast) / 3600)
                              * global
                    end)) by congruence.
    pose proof (satisfaction_rest_lookup _ _ _ _ _ _ _ Hdark Ha Hv4 Hdrifted)
      as Hsat.
    assert (Hwf : ODict.well_formed v4).
    { pose proof (need_names_well_formed _ Hkeys) as Hwf0.
      apply satisfaction_keys in Hv4.
      unfold ODict.well_formed in *. now rewrite Hv4, Hkeys3. }
    injection Hb' as <-. cbn [needs].
    rewrite ODictStore.update_each_on_values by exact Hwf.
    rewrite lookup_on_values, Hsat. cbn [fmap option_fmap option_map].
    now destruct (actions !! "rest").
Qed.

Lemma rest_drift_rate_multipliers_witness :
  exists rate b' rest',
    _calculate_drift_rate sample_config "rest" 1.5 sun_env
      (create_default_beast 0) = Ok rate /\
    rate == 1.5 * 1.56 /\
    update_needs sample_config 3600 (create_default_beast 0) sun_env ∅
      = Ok b' /\
    ODict.lookup "rest" (needs b') = Some rest' /\
    rest' == 60 - 1.5 * 1.56.
Proof.
  destruct (rest_drift_rate_multipliers sample_config 1.5 sun_env
              (create_default_beast 0) 5000 0.2)
    as (rate & Hr & _ & Hboth & _ & _ & _ & _ & _ & Hneeds).
  - reflexivity.
  - reflexivity.
  - assert (Hrate : rate == 1.5 * 1.56)
      by (apply Hboth; vm_compute; reflexivity).
    destruct (Hneeds 3600 ∅ 50 1) as (b' & old & Hb' & Hold & Hrest).
    + exact sample_config_complete.
    + reflexivity.
    + reflexivity.
    + reflexivity.
    + reflexivity.
    + cbn zeta in Hrest. exists rate, b'. eexists.
      split; [exact Hr|]. split; [exact Hrate|]. split; [exact Hb'|].
      split; [exact Hrest|].
      assert (Hold' : old = 60) by (vm_compute in Hold; congruence).
      subst old. rewrite lookup_empty.
      assert (Hq : ((lux sun_env <? 50) && (motion_rms_g sun_env <? 0.2 / 4))
                   = false) by reflexivity.
      rewrite Hq.
      match goal with
      | |- context [(?n - last_updated ?b) / ?d] =>
          let hours := eval vm_compute in ((n - last_updated b) / d) in
          change ((n - last_updated b) / d) with hours
      end.
      etransitivity; [apply clamp_id; lra | lra].
Defined.

(** * Further properties of the engine *)

(** X1.  On a configuration that defines the eleven keys read by
    subscript, and a state with the four needs and the five traits,
    nothing raises: [infer_mood] and [generate_tasks] return, every
    interleaving of the three updates completes, so does a whole tick,
    and the state they return still has its needs and traits. *)
Theorem engine_never_raises (cfg : Config) (now : Q) (env : EnvFeatures)
    (us : list update) (b : Beast) :
  config_complete cfg ->
  beast_complete b ->
  Py.is_ok (infer_mood cfg env b) = true /\
  Py.is_ok (generate_tasks b env) = true /\
  (exists b', apply_updates cfg us b = Ok b' /\ beast_complete b') /\
  (exists b', tick cfg now env b = Ok b' /\ beast_complete b').
Proof.
  intros Hc Hb.
  destruct (infer_mood_total cfg env b Hc) as (m & Hm).
  destruct (generate_tasks_total b env Hb) as (? & ? & ? & ? & ? & ? & _ & _ & _ & Hg).
  split; [now rewrite Hm|]. split; [exact Hg|]. split.
  - now apply apply_updates_total.
  - now apply tick_total.
Qed.

Lemma engine_never_raises_witness :
  exists b',
    tick sample_config 3600 sun_env (create_default_beast 0) = Ok b' /\
    beast_complete b'.
Proof.
  destruct (engine_never_raises sample_config 3600 sun_env []
              (create_default_beast 0)) as (_ & _ & _ & Htick).
  - split; eexists; reflexivity.
  - split; [reflexivity|].
    intros k Hk. cbn in Hk.
    destruct Hk as [<-|[<-|[<-|[<-|[<-|[]]]]]]; eexists; vm_compute; reflexivity.
  - exact Htick.
Defined.

(** X2.  Over every interleaving of the three updates the engine keeps
    each need in [0,100], each trait in [0,1], the stage in [1,4] and
    the progress non-negative, and below stage 4 the progress stays at
    most 1; this needs a non-negative progression rate and a stage goal
    of at most 1, which the built-in defaults are. *)
Theorem ranges_kept_by_every_run (cfg : Config) (us : list update)
    (b b' : Beast) :
  0 <= progression_rate cfg ->
  stage_goal cfg <= 1 ->
  state_ok b ->
  apply_updates cfg us b = Ok b' ->
  needs_in_range b' /\ traits_in_range b' /\ stage_in_range b' /\
  0 <= evolution_prog b' /\
  ((evolution_stage b' < 4)%Z -> evolution_prog b' <= 1).
Proof.
  intros Hr Hg Hok Hrun.
  destruct (engine_invariant cfg us b b' Hr Hg Hok Hrun) as [_ Hn Ht Hs Hlo Hup].
  auto.
Qed.

Lemma ranges_kept_by_every_run_witness :
  exists b',
    apply_updates sample_config
      [UpdateEvolution sun_env; UpdateNeeds 7200 hot_env ∅; TickTraits sun_env ∅]
      (create_default_beast 0) = Ok b' /\
    needs_in_range b' /\ traits_in_range b'.
Proof.
  destruct (apply_updates sample_config
      [UpdateEvolution sun_env; UpdateNeeds 7200 hot_env ∅; TickTraits sun_env ∅]
      (create_default_beast 0)) as [b'|e] eqn:E;
    [|vm_compute in E; discriminate E].
  exists b'. split; [reflexivity|].
  destruct (ranges_kept_by_every_run sample_config
      [UpdateEvolution sun_env; UpdateNeeds 7200 hot_env ∅; TickTraits sun_env ∅]
      (create_default_beast 0) b') as (Hn & Ht & _).
  - vm_compute. discriminate.
  - vm_compute. discriminate.
  - apply Beast_init_ok. now apply need_names_well_formed.
  - exact E.
  - now split.
Defined.

(** Split a completed run of the classifier into its cases: every
    lookup that succeeded and every guard, with its outcome. *)
Ltac mood_cases H :=
  repeat match type of H with
  | Py.bind _ _ = Ok _ =>
      let a := fresh "v" in
      let Ha := fresh "Hv" in
      apply bind_ok in H as (a & Ha & H)
  | (if ?c then _ else _) = Ok _ =>
      let E := fresh "Hguard" in destruct c eqn:E
  end.

(** X3.  Whatever [infer_mood] returns is one of the ten moods of the
    table [MOOD_EMOJIS], so the display's lookup
    [MOOD_EMOJIS.get(beast.mood, default)] never falls back to its
    default for an inferred mood. *)
Theorem infer_mood_returns_a_table_mood (cfg : Config) (env : EnvFeatures)
    (b : Beast) (m : string) :
  infer_mood cfg env b = Ok m ->
  is_Some (MOOD_EMOJIS !! m) /\
  In m ["happy"; "calm"; "sleepy"; "anxious"; "sick"; "playful"; "bored";
        "curious"; "hot"; "cold"].
Proof.
  unfold infer_mood. intros H. mood_cases H;
    injection H as <-; (split; [eexists; reflexivity | cbn; tauto]).
Qed.

Lemma infer_mood_returns_a_table_mood_witness :
  is_Some (MOOD_EMOJIS !! "playful").
Proof.
  apply (infer_mood_returns_a_table_mood sample_config sun_env
           (create_default_beast 0) "playful").
  reflexivity.
Defined.

(** X4.  Below the hot threshold, rule 2 and rule 3 come next: a
    temperature at or below the cold threshold gives [cold] whatever
    else holds; above it, a battery voltage under [low_voltage], an
    energy under 20, a humidity above 90 or below 10, or a pressure
    trend beyond twice the stable threshold gives [sick]. *)
Theorem infer_mood_cold_then_sick (cfg : Config) (env : EnvFeatures)
    (b : Beast) (hot cold low : Q) :
  thresholds cfg !! "temp_hot" = Some hot ->
  thresholds cfg !! "temp_cold" = Some cold ->
  power cfg !! "low_voltage" = Some low ->
  temp_c env < hot ->
  (temp_c env <= cold -> infer_mood cfg env b = Ok "cold") /\
  (cold < temp_c env ->
   vbat env < low \/ energy b < 20 \/ 90 < rh env \/ rh env < 10 \/
   Py.get (thresholds cfg) "pressure_stable" 2.0 * 2 < Qabs (pressure_trend env) ->
   infer_mood cfg env b = Ok "sick").
Proof.
  intros Hh Hc Hl Hnot.
  apply leb_false in Hnot. split.
  - intros Hcold. apply leb_true in Hcold. unfold infer_mood.
    rewrite (subscript_some _ _ _ Hh), (subscript_some _ _ _ Hc).
    cbn [Py.bind]. now rewrite Hnot, Hcold.
  - intros Hwarm Hsick. apply leb_false in Hwarm.
    assert (Hs : (vbat env <? low) || (energy b <? 20)
                 || _is_environmental_extreme cfg env = true).
    { unfold _is_environmental_extreme. rewrite !orb_true_iff, !ltb_true.
      tauto. }
    unfold infer_mood.
    rewrite (subscript_some _ _ _ Hh), (subscript_some _ _ _ Hc),
      (subscript_some _ _ _ Hl).
    cbn [Py.bind]. now rewrite Hnot, Hwarm, Hs.
Qed.

Lemma infer_mood_cold_then_sick_witness :
  infer_mood sample_config (test_env 5 5000 0.1 0 4) (create_default_beast 0)
  = Ok "cold".
Proof.
  apply (infer_mood_cold_then_sick sample_config (test_env 5 5000 0.1 0 4)
           (create_default_beast 0) 30 10 3.3).
  - reflexivity.
  - reflexivity.
  - reflexivity.
  - vm_compute. reflexivity.
  - vm_compute. discriminate.
Defined.

Lemma some_need_below (bound : Q) (l : list Q) :
  existsb (fun need => need <? bound) l = true <->
  List.Exists (fun need => need < bound) l.
Proof.
  induction l as [|x l IH]; cbn.
  - split; [discriminate | intros H; inversion H].
  - rewrite orb_true_iff, IH, List.Exists_cons, ltb_true. reflexivity.
Qed.

(** The classifier as a decision list: nine guards, each equivalent to
    the condition of its rule, tried in the order of the source. *)
Lemma infer_mood_decision_list cfg env b hot cold low dark bright active :
  thresholds cfg !! "temp_hot" = Some hot ->
  thresholds cfg !! "temp_cold" = Some cold ->
  power cfg !! "low_voltage" = Some low ->
  thresholds cfg !! "lux_dark" = Some dark ->
  thresholds cfg !! "lux_bright" = Some bright ->
  thresholds cfg !! "motion_active_g" = Some active ->
  exists g1 g2 g3 g4 g5 g6 g7 g8 g9 : bool,
    infer_mood cfg env b =
      Ok (if g1 then "hot" else if g2 then "cold" else if g3 then "sick"
          else if g4 then "sleepy" else if g5 then "playful"
          else if g6 then "happy" else if g7 then "curious"
          else if g8 then "bored" else if g9 then "anxious" else "calm") /\
    (g1 = true <-> hot_rule hot env) /\
    (g2 = true <-> cold_rule cold env) /\
    (g3 = true <-> sick_rule cfg low env b) /\
    (g4 = true <-> sleepy_rule dark active env b) /\
    (g5 = true <-> playful_rule active env) /\
    (g6 = true <-> happy_rule hot cold bright env b) /\
    (g7 = true <-> curious_rule env b) /\
    (g8 = true <-> bored_rule active env b) /\
    (g9 = true <-> anxious_rule cfg env b).
Proof.
  intros Hh Hc Hl Hd Hb Ha.
  exists (hot <=? temp_c env), (temp_c env <=? cold),
    ((vbat env <? low) || (energy b <? 20) || _is_environmental_extreme cfg env),
    ((lux env <? dark) && ((motion_rms_g env <? active / 4) && (energy b <? 40))),
    ((0 <? shake_events env)%Z || (active <? motion_rms_g env)),
    ((bright <? lux env)
     && (((cold + 5 <=? temp_c env) && (temp_c env <=? hot - 5))
         && (60 <? energy b))),
    (_detect_novelty env b),
    ((motion_rms_g env <? active / 2)
     && (ODict.get (needs b) "social" 50 <? 40)),
    (_is_environment_unstable cfg env
     || existsb (fun need => need <? 30) (ODict.values (needs b))).
  split.
  - unfold infer_mood, _is_comfortable_temperature.
    rewrite (subscript_some _ _ _ Hh), (subscript_some _ _ _ Hc),
      (subscript_some _ _ _ Hl), (subscript_some _ _ _ Hd),
      (subscript_some _ _ _ Hb), (subscript_some _ _ _ Ha).
    cbn [Py.bind]. unfold _is_sustained_condition.
    cbn [String.eqb Ascii.eqb Bool.eqb].
    destruct (hot <=? temp_c env); [reflexivity|].
    destruct (temp_c env <=? cold); [reflexivity|].
    destruct ((vbat env <? low) || (energy b <? 20)
              || _is_environmental_extreme cfg env); [reflexivity|].
    assert (Hsleepy :
      (if lux env <? dark
       then Ok ((motion_rms_g env <? active / 4) && (energy b <? 40))
       else Ok false)
      = Ok ((lux env <? dark)
            && ((motion_rms_g env <? active / 4) && (energy b <? 40))))
      by now destruct (lux env <? dark).
    rewrite Hsleepy. cbn [Py.bind].
    destruct ((lux env <? dark)
              && ((motion_rms_g env <? active / 4) && (energy b <? 40)));
      [reflexivity|].
    assert (Hplayful :
      (if (0 <? shake_events env)%Z then Ok true
       else Ok (active <? motion_rms_g env))
      = Ok ((0 <? shake_events env)%Z || (active <? motion_rms_g env)))
      by now destruct (0 <? shake_events env)%Z.
    rewrite Hplayful. cbn [Py.bind].
    destruct ((0 <? shake_events env)%Z || (active <? motion_rms_g env));
      [reflexivity|].
    assert (Hhappy :
      (if bright <? lux env
       then
         let* comfortable :=
           (if cold + 5 <=? temp_c env then Ok (temp_c env <=? hot - 5)
            else Ok false) in
         Ok (comfortable && (60 <? energy b))
       else Ok false)
      = Ok ((bright <? lux env)
            && (((cold + 5 <=? temp_c env) && (temp_c env <=? hot - 5))
                && (60 <? energy b)))).
    { destruct (bright <? lux env); [|reflexivity].
      now destruct (cold + 5 <=? temp_c env). }
    rewrite Hhappy. cbn [Py.bind].
    destruct ((bright <? lux env)
              && (((cold + 5 <=? temp_c env) && (temp_c env <=? hot - 5))
                  && (60 <? energy b))); [reflexivity|].
    destruct (_detect_novelty env b); [reflexivity|].
    destruct ((motion_rms_g env <? active / 2)
              && (ODict.get (needs b) "social" 50 <? 40)); [reflexivity|].
    now destruct (_is_environment_unstable cfg env
                  || existsb (fun need => need <? 30) (ODict.values (needs b))).
  - unfold hot_rule, cold_rule, sick_rule, sleepy_rule, playful_rule,
      happy_rule, curious_rule, bored_rule, anxious_rule,
      _is_environmental_extreme, _is_environment_unstable.
    rewrite ?andb_true_iff, ?orb_true_iff, ?ltb_true, ?leb_true,
      ?Z.ltb_lt, ?some_need_below.
    repeat split; tauto.
Qed.

Ltac settle_rule R :=
  match type of R with
  | true = true <-> ?P =>
      let H := fresh "Hrule" in
      assert (H : P) by (apply R; reflexivity); clear R
  | false = true <-> ?P =>
      let H := fresh "Hrule" in
      assert (H : ~ P) by (let HP := fresh in
                           intros HP; apply R in HP; discriminate HP);
      clear R
  end.

(** X5.  The classifier is a decision list.  With its six thresholds
    configured it always answers, and each of the ten answers is given
    exactly when the condition of its rule holds and the condition of
    every rule before it fails; [calm] is given exactly when all nine
    conditions fail. *)
Theorem infer_mood_guards (cfg : Config) (env : EnvFeatures) (b : Beast)
    (hot cold low dark bright active : Q) :
  thresholds cfg !! "temp_hot" = Some hot ->
  thresholds cfg !! "temp_cold" = Some cold ->
  power cfg !! "low_voltage" = Some low ->
  thresholds cfg !! "lux_dark" = Some dark ->
  thresholds cfg !! "lux_bright" = Some bright ->
  thresholds cfg !! "motion_active_g" = Some active ->
  let r1 := hot_rule hot env in
  let r2 := cold_rule cold env in
  let r3 := sick_rule cfg low env b in
  let r4 := sleepy_rule dark active env b in
  let r5 := playful_rule active env in
  let r6 := happy_rule hot cold bright env b in
  let r7 := curious_rule env b in
  let r8 := bored_rule active env b in
  let r9 := anxious_rule cfg env b in
  exists m,
    infer_mood cfg env b = Ok m /\
    (m = "hot" <-> r1) /\
    (m = "cold" <-> ~ r1 /\ r2) /\
    (m = "sick" <-> ~ r1 /\ ~ r2 /\ r3) /\
    (m = "sleepy" <-> ~ r1 /\ ~ r2 /\ ~ r3 /\ r4) /\
    (m = "playful" <-> ~ r1 /\ ~ r2 /\ ~ r3 /\ ~ r4 /\ r5) /\
    (m = "happy" <-> ~ r1 /\ ~ r2 /\ ~ r3 /\ ~ r4 /\ ~ r5 /\ r6) /\
    (m = "curious" <->
       ~ r1 /\ ~ r2 /\ ~ r3 /\ ~ r4 /\ ~ r5 /\ ~ r6 /\ r7) /\
    (m = "bored" <->
       ~ r1 /\ ~ r2 /\ ~ r3 /\ ~ r4 /\ ~ r5 /\ ~ r6 /\ ~ r7 /\ r8) /\
    (m = "anxious" <->
       ~ r1 /\ ~ r2 /\ ~ r3 /\ ~ r4 /\ ~ r5 /\ ~ r6 /\ ~ r7 /\ ~ r8 /\ r9) /\
    (m = "calm" <->
       ~ r1 /\ ~ r2 /\ ~ r3 /\ ~ r4 /\ ~ r5 /\ ~ r6 /\ ~ r7 /\ ~ r8 /\ ~ r9).
Proof.
  intros Hh Hc Hl Hd Hb Ha r1 r2 r3 r4 r5 r6 r7 r8 r9.
  destruct (infer_mood_decision_list cfg env b _ _ _ _ _ _ Hh Hc Hl Hd Hb Ha)
    as (g1 & g2 & g3 & g4 & g5 & g6 & g7 & g8 & g9 & Heq
        & R1 & R2 & R3 & R4 & R5 & R6 & R7 & R8 & R9).
  fold r1 in R1. fold r2 in R2. fold r3 in R3. fold r4 in R4. fold r5 in R5.
  fold r6 in R6. fold r7 in R7. fold r8 in R8. fold r9 in R9.
  clearbody r1 r2 r3 r4 r5 r6 r7 r8 r9.
  eexists. split; [exact Heq|]. clear Heq.
  destruct g1; settle_rule R1;
    [|destruct g2; settle_rule R2;
      [|destruct g3; settle_rule R3;
        [|destruct g4; settle_rule R4;
          [|destruct g5; settle_rule R5;
            [|destruct g6; settle_rule R6;
              [|destruct g7; settle_rule R7;
                [|destruct g8; settle_rule R8;
                  [|destruct g9; settle_rule R9]]]]]]]].
  all: cbv iota.
  all: repeat match goal with |- _ /\ _ => split end.
  all: split; [intros Hm; try discriminate Hm; tauto
              | intros Hr; try reflexivity; exfalso; tauto].
Qed.

Lemma infer_mood_guards_witness :
  infer_mood sample_config (test_env 22 10000 0.05 0 4)
    (create_default_beast 0) = Ok "happy" /\
  happy_rule 30 10 5000 (test_env 22 10000 0.05 0 4) (create_default_beast 0).
Proof.
  destruct (infer_mood_guards sample_config (test_env 22 10000 0.05 0 4)
              (create_default_beast 0) 30 10 3.3 50 5000 0.2)
    as (m & Hm & _ & _ & _ & _ & _ & Hhappy & _); try reflexivity.
  assert (Heq : m = "happy") by (vm_compute in Hm; congruence).
  subst m. split; [exact Hm|]. now apply Hhappy.
Defined.

(** ** Further properties of the evolution update *)

Lemma score_table_values hot cold dark active env v :
  In v (ODict.values (score_table hot cold dark active env)) ->
  v = 0 \/ v = 0 + 0.5 \/ v = 0 + 1.
Proof.
  unfold score_table. cbn [ODict.values map snd In].
  intros H. repeat (destruct H as [<-|H]);
    try contradiction;
    match goal with
    | |- context [if ?c then _ else _] => destruct c
    end; tauto.
Qed.

Lemma score_table_best hot cold dark active env best :
  In best (ODict.values (score_table hot cold dark active env)) ->
  (forall k v, In (k, v) (score_table hot cold dark active env) -> v <= best) ->
  best = 0 + 0.5 \/ best = 0 + 1.
Proof.
  intros Hin Hge.
  destruct (score_table_floor hot cold dark active env) as (k & v & Hkv & Hv).
  apply Hge in Hkv.
  destruct (score_table_values _ _ _ _ _ _ Hin) as [-> | [-> | ->]]; [lra|tauto..].
Qed.

(** X6.  The floor in [max(best_score, 0.1)] never applies: one of
    [social] and [lone] scores 0.5 in every snapshot, so the best score
    is 0.5 or 1 and a call adds half the progression rate or the whole
    of it. *)
Theorem progress_floor_never_applies (cfg : Config) (env : EnvFeatures)
    (hot cold dark active : Q) :
  evolution_thresholds cfg hot cold dark active ->
  exists scores best gain,
    exposure_scores cfg env = Ok scores /\
    ODict.max_value scores = Ok best /\
    (best == 0.5 \/ best == 1) /\
    Py.max best 0.1 = best /\
    progress_gain cfg scores = Ok gain /\
    (gain == progression_rate cfg * 0.5 \/ gain == progression_rate cfg).
Proof.
  intros Ht.
  destruct (update_evolution_progress cfg env (create_default_beast 0)
              _ _ _ _ Ht) as (best & _ & Hmv & Hin & Hge & _).
  pose proof (exposure_scores_table cfg env _ _ _ _ Ht) as Hs.
  destruct (score_table_best _ _ _ _ _ _ Hin Hge) as [-> | ->].
  - exists (score_table hot cold dark active env), (0 + 0.5),
      (progression_rate cfg * (0 + 0.5)).
    split; [exact Hs|]. split; [exact Hmv|]. split; [left; lra|].
    split; [reflexivity|]. unfold progress_gain. rewrite Hmv. cbn [Py.bind].
    split; [reflexivity|]. left. ring.
  - exists (score_table hot cold dark active env), (0 + 1),
      (progression_rate cfg * (0 + 1)).
    split; [exact Hs|]. split; [exact Hmv|]. split; [right; lra|].
    split; [reflexivity|]. unfold progress_gain. rewrite Hmv. cbn [Py.bind].
    split; [reflexivity|]. right. ring.
Qed.

Lemma progress_floor_never_applies_witness :
  exists scores gain,
    exposure_scores sample_config sun_env = Ok scores /\
    progress_gain sample_config scores = Ok gain /\
    (gain == progression_rate sample_config * 0.5
     \/ gain == progression_rate sample_config).
Proof.
  destruct (progress_floor_never_applies sample_config sun_env 30 10 50 0.2)
    as (scores & best & gain & Hs & _ & _ & _ & Hg & Hval).
  - repeat split; reflexivity.
  - exists scores, gain. auto.
Defined.

(** X7.  The 0.2 margin of the path switch never holds a path back:
    scores are 0, 0.5 or 1, so any strictly better score beats the
    current one by at least 0.5.  The path changes exactly when the
    current path's score is below the best score of the tick, and is
    kept on a tie. *)
Theorem any_better_score_switches (cfg : Config) (env : EnvFeatures)
    (b : Beast) (hot cold dark active : Q) :
  evolution_thresholds cfg hot cold dark active ->
  exists scores best_path best_score b',
    exposure_scores cfg env = Ok scores /\
    ODict.max_item scores = Ok (best_path, best_score) /\
    update_evolution cfg env b = Ok b' /\
    (ODict.get scores (evolution_path b) 0 < best_score ->
       evolution_path b' = best_path /\ best_path <> evolution_path b) /\
    (best_score <= ODict.get scores (evolution_path b) 0 ->
       evolution_path b' = evolution_path b).
Proof.
  intros Ht.
  pose proof (exposure_scores_table cfg env _ _ _ _ Ht) as Hs.
  set (scores := score_table hot cold dark active env) in *.
  destruct (ODictFacts.max_item_total scores) as ([bp bs] & Hmax);
    [discriminate|].
  destruct (update_evolution_total cfg env b _ _ _ _ Ht) as (b' & Hb').
  pose proof (update_evolution_path _ _ _ _ _ Hs Hb') as Hp.
  unfold switch_path in Hp. rewrite Hmax in Hp. cbn [Py.bind fst snd] in Hp.
  assert (Hbest : bs = 0 + 0.5 \/ bs = 0 + 1).
  { apply (score_table_best hot cold dark active env).
    - apply ODictFacts.max_item_in in Hmax.
      apply (in_map snd) in Hmax. exact Hmax.
    - intros k v Hin. apply (ODictFacts.max_item_ge _ _ (k, v) Hmax Hin). }
  assert (Hcur : ODict.get scores (evolution_path b) 0 = 0 \/
                 ODict.get scores (evolution_path b) 0 = 0 + 0.5 \/
                 ODict.get scores (evolution_path b) 0 = 0 + 1).
  { unfold ODict.get.
    destruct (ODict.lookup (evolution_path b) scores) as [v|] eqn:E;
      [|now left].
    apply ODictFacts.lookup_some_in in E.
    now apply (score_table_values hot cold dark active env). }
  exists scores, bp, bs, b'. do 3 (split; [assumption|]). split.
  - intros Hlt.
    assert (Hgt : (ODict.get scores (evolution_path b) 0 + 0.2 <? bs) = true).
    { apply ltb_true.
      destruct Hbest as [-> | ->], Hcur as [E|[E|E]]; rewrite E in *; lra. }
    rewrite Hgt in Hp. injection Hp as Hp. split; [now symmetry|].
    intros Heq.
    pose proof (ODictFacts.max_item_lookup scores bp bs
                  (score_table_well_formed _ _ _ _ _) Hmax) as Hlook.
    rewrite Heq in Hlook. unfold ODict.get in Hlt. rewrite Hlook in Hlt. lra.
  - intros Hle.
    assert (Hno : (ODict.get scores (evolution_path b) 0 + 0.2 <? bs) = false).
    { apply ltb_false. lra. }
    rewrite Hno in Hp. now injection Hp.
Qed.

Lemma any_better_score_switches_witness :
  exists b', update_evolution sample_config hot_env (create_default_beast 0)
             = Ok b'.
Proof.
  destruct (any_better_score_switches sample_config hot_env
              (create_default_beast 0) 30 10 50 0.2)
    as (scores & bp & bs & b' & _ & _ & Hb' & _).
  - repeat split; reflexivity.
  - exists b'. exact Hb'.
Defined.

(** ** The stage along a run *)

Lemma update_evolution_stage_step cfg env b b' :
  update_evolution cfg env b = Ok b' ->
  evolution_stage b' = evolution_stage b \/
  (evolution_stage b' = (evolution_stage b + 1)%Z /\
   (evolution_stage b < 4)%Z /\ evolution_prog b' = 0).
Proof.
  unfold update_evolution. intros H. bind_inv H. injection H as <-.
  cbn [evolution_stage evolution_prog].
  destruct (Py.get (evolution cfg) "stage_goal" 1.0 <=? evolution_prog b + v1);
    cbn [andb]; [|now left].
  destruct (evolution_stage b <? 4)%Z eqn:E; [|now left].
  apply Z.ltb_lt in E. right. auto.
Qed.

Lemma apply_update_stage_step cfg u b b' :
  apply_update cfg u b = Ok b' ->
  (evolution_stage b <= evolution_stage b')%Z /\
  (evolution_stage b' <= evolution_stage b + evolution_updates [u])%Z /\
  (evolution_stage b' <= Z.max 4 (evolution_stage b))%Z.
Proof.
  destruct u as [now env actions|env actions|env]; cbn; intros H.
  - apply update_needs_frame in H as (_ & _ & _ & -> & _). lia.
  - apply tick_traits_frame in H as (_ & _ & _ & -> & _). lia.
  - apply update_evolution_stage_step in H as [-> | (-> & Hlt & _)]; lia.
Qed.

(** X8.  Along every run of the engine the stage only moves forward:
    it never decreases, it rises by at most one per [update_evolution]
    call of the run, it never passes 4 when it starts at 4 or below,
    and a stage above 4 is left where it is. *)
Theorem stage_only_moves_forward (cfg : Config) (us : list update)
    (b b' : Beast) :
  apply_updates cfg us b = Ok b' ->
  (evolution_stage b <= evolution_stage b')%Z /\
  (evolution_stage b' <= evolution_stage b + evolution_updates us)%Z /\
  (evolution_stage b' <= Z.max 4 (evolution_stage b))%Z.
Proof.
  revert b. induction us as [|u us IH]; intros b H.
  - cbn in H. injection H as <-. cbn. lia.
  - cbn [apply_updates] in H. bind_inv H.
    apply apply_update_stage_step in Hv as (H1 & H2 & H3).
    apply IH in H as (H4 & H5 & H6).
    assert (Hcount : (evolution_updates (u :: us)
                      = evolution_updates [u] + evolution_updates us)%Z).
    { destruct u; cbn; lia. }
    rewrite Hcount. lia.
Qed.

Lemma stage_only_moves_forward_witness :
  exists b',
    apply_updates sample_config
      [UpdateEvolution sun_env; UpdateNeeds 3600 sun_env ∅;
       UpdateEvolution hot_env]
      (create_default_beast 0) = Ok b' /\
    (1 <= evolution_stage b' <= 3)%Z.
Proof.
  destruct (apply_updates sample_config
      [UpdateEvolution sun_env; UpdateNeeds 3600 sun_env ∅;
       UpdateEvolution hot_env]
      (create_default_beast 0)) as [b'|e] eqn:E;
    [|vm_compute in E; discriminate E].
  exists b'. split; [reflexivity|].
  destruct (stage_only_moves_forward _ _ _ _ E) as (H1 & H2 & _).
  cbn in H1, H2. lia.
Defined.

(** ** One learning step of the traits *)

Lemma guarded_trait_add_lookup (c : bool) (kk k : string) (d v : Q)
    (t t' : gmap string Q) :
  (if c then trait_add kk d t else Ok t) = Ok t' ->
  t !! k = Some v ->
  t' !! k = Some (if c && String.eqb k kk then v + d else v).
Proof.
  intros H Hv. destruct c; cbn [andb].
  - destruct (String.eqb_spec k kk) as [->|Hne].
    + apply trait_add_same in H as (w & Hw & ->). congruence.
    + rewrite (trait_add_other kk k d t t'); [exact Hv | congruence | exact H].
  - now injection H as <-.
Qed.

Lemma clamp_step_up (v d : Q) :
  0 <= v <= 1 -> 0 <= d -> v <= clamp 0 1 (v + d) <= v + d.
Proof.
  intros Hv Hd. unfold clamp. unfold Py.min. float_cases;
    unfold Py.max; float_cases; lra.
Qed.

Lemma clamp_step_down (v d : Q) :
  0 <= v <= 1 -> d <= 0 -> v + d <= clamp 0 1 (v + d) <= v.
Proof.
  intros Hv Hd. unfold clamp. unfold Py.min. float_cases;
    unfold Py.max; float_cases; lra.
Qed.

(** X9.  One call of [tick_traits] moves a trait that is in [0,1] by at
    most the learning rate 0.01: no trait but [needy] is ever lowered,
    [needy] is lowered by at most 0.005, and a trait outside the five
    the engine knows keeps its value. *)
Theorem traits_move_one_learning_step (cfg : Config) (env : EnvFeatures)
    (b b' : Beast) (actions : gmap string Q) (k : string) (v : Q) :
  tick_traits cfg env b actions = Ok b' ->
  traits b !! k = Some v ->
  0 <= v <= 1 ->
  exists v',
    traits b' !! k = Some v' /\
    v - 0.005 <= v' <= v + 0.01 /\
    (k <> "needy" -> v <= v') /\
    (~ In k TRAIT_NAMES -> v' == v).
Proof.
  unfold tick_traits. intros H Hk Hv. bind_inv H. injection H as <-.
  cbn [traits]. rewrite lookup_fmap.
  apply (guarded_trait_add_lookup _ _ k _ v) in Hv1; [|exact Hk].
  set (half := - (0.01 / 2)) in *.
  assert (Hhalf : half == - 0.005) by reflexivity.
  clearbody half.
  assert (Hv3' : exists (c : bool) (d : Q), (d = 0.01 \/ d = half) /\
            (if c then trait_add "needy" d v1 else Ok v1) = Ok v3).
  { destruct (v2 <? 40); [exists true, 0.01; tauto|].
    destruct (70 <? v2); [exists true, half; tauto|].
    exists false, 0.01; tauto. }
  destruct Hv3' as (c & d & Hd & Hv3').
  apply (guarded_trait_add_lookup _ _ k _ _ _ _ Hv3') in Hv1.
  apply (guarded_trait_add_lookup _ _ k _ _ _ _ Hv4) in Hv1.
  apply (guarded_trait_add_lookup _ _ k _ _ _ _ Hv5) in Hv1.
  apply (guarded_trait_add_lookup _ _ k _ _ _ _ Hv6) in Hv1.
  rename Hv1 into Hfinal.
  rewrite Hfinal. cbn [fmap option_fmap option_map]. eexists. split; [reflexivity|].
  assert (H1 : v <= clamp 0 1 (v + 0.01) <= v + 0.01)
    by (apply clamp_step_up; [exact Hv | lra]).
  assert (H2 : v + half <= clamp 0 1 (v + half) <= v)
    by (apply clamp_step_down; [exact Hv | lra]).
  pose proof (clamp_id 0 1 v Hv) as H3.
  destruct (String.eqb_spec k "playful") as [->|Hn1];
    [|destruct (String.eqb_spec k "needy") as [->|Hn2];
      [|destruct (String.eqb_spec k "rebellious") as [->|Hn3];
        [|destruct (String.eqb_spec k "social") as [->|Hn4];
          [|destruct (String.eqb_spec k "explorer") as [->|Hn5]]]]];
    cbn [String.eqb Ascii.eqb Bool.eqb andb];
    rewrite ?andb_true_r, ?andb_false_r.
  all: repeat match goal with
       | |- context [if ?c then _ else _] => destruct c
       end.
  all: repeat split; intros;
    try (exfalso; cbn in *; tauto);
    destruct Hd as [-> | ->];
    try lra.
Qed.

Lemma traits_move_one_learning_step_witness :
  exists b' v',
    tick_traits sample_config sun_env (create_default_beast 0) ∅ = Ok b' /\
    traits b' !! "playful" = Some v' /\ 0.5 <= v' <= 0.5 + 0.01.
Proof.
  destruct (tick_traits sample_config sun_env (create_default_beast 0) ∅)
    as [b'|e] eqn:E; [|vm_compute in E; discriminate E].
  destruct (traits_move_one_learning_step sample_config sun_env
              (create_default_beast 0) b' ∅ "playful" 0.5 E)
    as (v' & Hv' & Hrange & Hup & _).
  - vm_compute. reflexivity.
  - lra.
  - exists b', v'. split; [reflexivity|]. split; [exact Hv'|].
    split; [apply Hup; discriminate | lra].
Defined.

(** ** Drift of the needs *)

Lemma calculate_drift_rate_range cfg need base env b rate :
  0 <= base ->
  _calculate_drift_rate cfg need base env b = Ok rate ->
  base * 0.8 <= rate <= base * 1.56 /\ (need <> "social" -> base <= rate).
Proof.
  intros Hb H. unfold _calculate_drift_rate in H.
  destruct (String.eqb_spec need "hunger") as [->|Hn1].
  { bind_inv H. injection H as <-.
    destruct (v <? motion_rms_g env); split; intros; lra. }
  destruct (String.eqb_spec need "rest") as [->|Hn2].
  { bind_inv H. injection H as <-.
    destruct (v <? lux env), (v0 <? motion_rms_g env); split; intros; lra. }
  destruct (String.eqb_spec need "social") as [->|Hn3].
  { injection H as <-.
    destruct (_detect_novelty env b); split; intros; try lra; congruence. }
  destruct (String.eqb_spec need "hygiene") as [->|Hn4].
  { bind_inv H. injection H as <-. destruct v; cbn [negb]; split; intros; lra. }
  injection H as <-. split; intros; lra.
Qed.

(** X10.  For a non-negative base rate the adjusted drift rate of any
    need lies between 0.8 and 1.56 times the base rate; only the social
    need is ever slowed down, hunger is sped up by at most 1.5 and
    hygiene by at most 1.2; a name that is none of the four needs gets
    the base rate itself, and the social rate and the rate of such a
    name are computed without reading the configuration. *)
Theorem drift_rate_bounds (cfg : Config) (need : string) (base : Q)
    (env : EnvFeatures) (b : Beast) :
  0 <= base ->
  (forall rate,
     _calculate_drift_rate cfg need base env b = Ok rate ->
     base * 0.8 <= rate <= base * 1.56 /\
     (need <> "social" -> base <= rate) /\
     (need = "hunger" -> rate <= base * 1.5) /\
     (need = "hygiene" -> rate <= base * 1.2) /\
     (need = "social" -> rate <= base)) /\
  (~ In need NEED_NAMES ->
     _calculate_drift_rate cfg need base env b = Ok base) /\
  (need = "social" ->
     exists rate, _calculate_drift_rate cfg need base env b = Ok rate).
Proof.
  intros Hb. split; [|split].
  - intros rate H.
    destruct (calculate_drift_rate_range _ _ _ _ _ _ Hb H) as (Hr & Hs).
    split; [exact Hr|]. split; [exact Hs|].
    unfold _calculate_drift_rate in H.
    split; [|split]; intros ->; cbn [String.eqb Ascii.eqb Bool.eqb] in H.
    + bind_inv H. injection H as <-. destruct (v <? motion_rms_g env); lra.
    + bind_inv H. injection H as <-. destruct v; cbn [negb]; lra.
    + injection H as <-. destruct (_detect_novelty env b); lra.
  - intros Hn. unfold _calculate_drift_rate.
    destruct (String.eqb_spec need "hunger") as [->|_];
      [exfalso; apply Hn; cbn; tauto|].
    destruct (String.eqb_spec need "rest") as [->|_];
      [exfalso; apply Hn; cbn; tauto|].
    destruct (String.eqb_spec need "social") as [->|_];
      [exfalso; apply Hn; cbn; tauto|].
    destruct (String.eqb_spec need "hygiene") as [->|_];
      [exfalso; apply Hn; cbn; tauto|].
    reflexivity.
  - intros ->. unfold _calculate_drift_rate.
    cbn [String.eqb Ascii.eqb Bool.eqb]. eauto.
Qed.

Lemma drift_rate_bounds_witness :
  exists rate,
    _calculate_drift_rate sample_config "hunger" 2 sun_env
      (create_default_beast 0) = Ok rate /\
    2 <= rate <= 2 * 1.5.
Proof.
  destruct (_calculate_drift_rate sample_config "hunger" 2 sun_env
              (create_default_beast 0)) as [rate|e] eqn:E;
    [|vm_compute in E; discriminate E].
  exists rate. split; [reflexivity|].
  destruct (drift_rate_bounds sample_config "hunger" 2 sun_env
              (create_default_beast 0)) as (Hb & _); [lra|].
  destruct (Hb rate E) as (_ & Hlo & Hhi & _).
  split; [apply Hlo; discriminate | now apply Hhi].
Defined.

(** One entry of the drift loop lowers its own need, when no action is
    given for it, and leaves every other need alone. *)
Lemma drift_step_lookup cfg env b actions hours d need base d' k old :
  0 <= base -> 0 <= hours ->
  (forall g, needs_config cfg !! "drift_rate" = Some g -> 0 <= g) ->
  drift_step cfg env b actions hours d (need, base) = Ok d' ->
  actions !! k = None ->
  ODict.lookup k d = Some old ->
  exists new, ODict.lookup k d' = Some new /\ new <= old.
Proof.
  intros Hb Hh Hg H Ha Hold. unfold drift_step in H. bind_inv H.
  apply calculate_drift_rate_range in Hv as ((Hlo & _) & _); [|exact Hb].
  apply odict_subscript_ok in Hv0.
  assert (Hglobal : 0 <= v1).
  { apply Hg. unfold Py.subscript in Hv1.
    destruct (needs_config cfg !! "drift_rate"); [|discriminate].
    now injection Hv1 as ->. }
  assert (Hdrop : 0 <= v * hours * v1).
  { apply Qmult_le_0_compat; [|exact Hglobal].
    apply Qmult_le_0_compat; [lra | exact Hh]. }
  destruct (String.eqb_spec need k) as [->|Hne].
  - rewrite Ha in H. injection H as <-.
    rewrite ODictStore.lookup_store_same. eexists. split; [reflexivity|].
    rewrite Hold in Hv0. injection Hv0 as <-. lra.
  - exists old. split; [|lra].
    destruct (actions !! need) as [amount|].
    + bind_inv H. injection H as <-.
      now rewrite !ODictStore.lookup_store_other by exact Hne.
    + injection H as <-.
      now rewrite ODictStore.lookup_store_other by exact Hne.
Qed.

Lemma drift_loop_lookup cfg env b actions hours rates k :
  0 <= hours ->
  (forall g, needs_config cfg !! "drift_rate" = Some g -> 0 <= g) ->
  actions !! k = None ->
  Forall (fun entry => 0 <= snd entry) rates ->
  forall d d' old,
    drift_loop cfg env b actions hours rates d = Ok d' ->
    ODict.lookup k d = Some old ->
    exists new, ODict.lookup k d' = Some new /\ new <= old.
Proof.
  intros Hh Hg Ha Hrates. induction Hrates as [|[need base] rates Hb _ IH];
    intros d d' old H Hold; cbn [drift_loop] in H.
  - injection H as <-. exists old. split; [exact Hold | lra].
  - bind_inv H.
    destruct (drift_step_lookup _ _ _ _ _ _ _ _ _ k old Hb Hh Hg Hv Ha Hold)
      as (mid & Hmid & Hle).
    destruct (IH _ _ _ H Hmid) as (new & Hnew & Hle').
    exists new. split; [exact Hnew | lra].
Qed.

(** The satisfaction step adds at most its bonus to a need. *)
Lemma satisfaction_lookup cfg d env d' k old :
  _apply_environmental_satisfaction cfg d env = Ok d' ->
  ODict.lookup k d = Some old ->
  exists new, ODict.lookup k d' = Some new /\
              new <= old + satisfaction_bonus k.
Proof.
  unfold _apply_environmental_satisfaction. intros H Hold. bind_inv H.
  assert (H1 : exists mid, ODict.lookup k v1 = Some mid /\
                 mid <= old + (if String.eqb k "rest" then 0.5 else 0)).
  { destruct v0.
    - bind_inv Hv1. injection Hv1 as <-. apply odict_subscript_ok in Hv3.
      destruct (String.eqb_spec k "rest") as [->|Hne].
      + rewrite ODictStore.lookup_store_same. eexists. split; [reflexivity|].
        rewrite Hold in Hv3. injection Hv3 as <-.
        unfold Py.min. float_cases; lra.
      + rewrite ODictStore.lookup_store_other by congruence.
        exists old. split; [exact Hold | lra].
    - injection Hv1 as <-. exists old. split; [exact Hold|].
      destruct (String.eqb k "rest"); lra. }
  destruct H1 as (mid & Hmid & Hle). unfold satisfaction_bonus.
  destruct (v2 && (40 <? rh env) && (rh env <? 70)).
  - bind_inv H. injection H as <-. apply odict_subscript_ok in Hv3.
    destruct (String.eqb_spec k "hygiene") as [->|Hne].
    + rewrite ODictStore.lookup_store_same. eexists. split; [reflexivity|].
      rewrite Hmid in Hv3. injection Hv3 as <-.
      cbn [String.eqb Ascii.eqb Bool.eqb] in *.
      unfold Py.min. float_cases; lra.
    + rewrite ODictStore.lookup_store_other by congruence.
      exists mid. split; [exact Hmid|].
      destruct (String.eqb k "rest"); lra.
  - injection H as <-. exists mid. split; [exact Hmid|].
    destruct (String.eqb k "rest"); [lra|].
    destruct (String.eqb k "hygiene"); lra.
Qed.

(** X11.  A need that gets no action never rises through
    [update_needs] by more than the environmental bonus: with
    non-negative configured rates and a clock that has not gone back,
    hunger and social do not rise at all, rest rises by at most 0.5 and
    hygiene by at most 0.2. *)
Theorem unserved_needs_do_not_rise (cfg : Config) (now : Q) (b b' : Beast)
    (env : EnvFeatures) (actions : gmap string Q) (k : string) (old : Q) :
  state_ok b ->
  (forall key v, needs_config cfg !! key = Some v -> 0 <= v) ->
  last_updated b <= now ->
  update_needs cfg now b env actions = Ok b' ->
  actions !! k = None ->
  ODict.lookup k (needs b) = Some old ->
  exists new,
    ODict.lookup k (needs b') = Some new /\
    new <= old + satisfaction_bonus k /\
    (k = "hunger" \/ k = "social" -> new <= old).
Proof.
  intros Hok Hcfg Hclock H Ha Hold. unfold update_needs in H. bind_inv H.
  injection H as <-. cbn [needs].
  assert (Hh : 0 <= (now - last_updated b) / 3600).
  { apply Qle_shift_div_l; lra. }
  assert (Hrates : Forall (fun entry : string * Q => 0 <= snd entry)
            [("hunger", v); ("rest", v0); ("social", v1); ("hygiene", v2)]).
  { repeat constructor; cbn [snd];
      match goal with
      | Hs : Py.subscript _ ?key = Ok ?x |- 0 <= ?x =>
          apply (Hcfg key); unfold Py.subscript in Hs;
          destruct (needs_config cfg !! key); [|discriminate];
          now injection Hs as ->
      end. }
  destruct (drift_loop_lookup _ _ _ _ _ _ k Hh
              (fun g => Hcfg "drift_rate" g) Ha Hrates _ _ _ Hv3 Hold)
    as (mid & Hmid & Hle).
  destruct (satisfaction_lookup _ _ _ _ _ _ Hv4 Hmid) as (new & Hnew & Hle').
  assert (Hwf : ODict.well_formed v4).
  { apply drift_loop_keys in Hv3. apply satisfaction_keys in Hv4.
    destruct Hok as [Hd _ _ _ _ _]. unfold ODict.well_formed in *. congruence. }
  rewrite ODictStore.update_each_on_values by exact Hwf.
  rewrite lookup_on_values, Hnew. cbn [fmap option_fmap option_map].
  eexists. split; [reflexivity|].
  assert (Hrange : 0 <= old <= 100).
  { destruct Hok as [_ Hn _ _ _ _]. unfold needs_in_range in Hn.
    rewrite List.Forall_forall in Hn. apply Hn.
    now apply ODictFacts.lookup_some_in in Hold. }
  assert (Hbonus : 0 <= satisfaction_bonus k).
  { unfold satisfaction_bonus.
    destruct (String.eqb k "rest"); [lra|].
    destruct (String.eqb k "hygiene"); lra. }
  assert (Hclamp : clamp 0 100 new <= old + satisfaction_bonus k).
  { unfold clamp. unfold Py.min. float_cases; unfold Py.max; float_cases; lra. }
  split; [exact Hclamp|].
  intros [-> | ->]; unfold satisfaction_bonus in Hclamp;
    cbn [String.eqb Ascii.eqb Bool.eqb] in Hclamp; lra.
Qed.

Lemma unserved_needs_do_not_rise_witness :
  exists b' new,
    update_needs sample_config 3600 (create_default_beast 0) sun_env ∅
      = Ok b' /\
    ODict.lookup "hunger" (needs b') = Some new /\ new <= 75.
Proof.
  destruct (update_needs sample_config 3600 (create_default_beast 0) sun_env ∅)
    as [b'|e] eqn:E; [|vm_compute in E; discriminate E].
  destruct (unserved_needs_do_not_rise sample_config 3600
              (create_default_beast 0) b' sun_env ∅ "hunger" 75)
    as (new & Hnew & _ & Hle).
  - apply Beast_init_ok. now apply need_names_well_formed.
  - intros key v Hv. unfold sample_config in Hv. cbn [needs_config] in Hv.
    repeat (apply lookup_insert_Some in Hv as [[_ <-]|[_ Hv]]; [lra|]).
    now rewrite lookup_empty in Hv.
  - vm_compute. discriminate.
  - exact E.
  - apply lookup_empty.
  - vm_compute. reflexivity.
  - exists b', new. split; [reflexivity|]. split; [exact Hnew|].
    apply Hle. now left.
Defined.

(** ** Merging the configuration files *)

(** X12.  A custom configuration file overrides the defaults key by
    key: a key the custom file defines in a section takes the custom
    value, every other key keeps the value of the defaults file, also
    in a section the custom file mentions; without a defaults file the
    custom sections are read as they are, and loading the custom file
    over an already merged configuration changes nothing. *)
Theorem custom_file_overrides_key_by_key
    (defaults custom : gmap string (gmap string Q)) (section key : string) :
  get_section section (load_config (Some defaults) (Some custom)) !! key =
    match get_section section custom !! key with
    | Some v => Some v
    | None => get_section section defaults !! key
    end /\
  get_section section (load_config None (Some custom)) =
    get_section section custom /\
  get_section section
    (load_config (Some (load_config (Some defaults) (Some custom)))
       (Some custom)) =
    get_section section (load_config (Some defaults) (Some custom)).
Proof.
  split; [|split].
  - destruct (get_section section custom !! key) as [v|] eqn:E.
    + now apply load_config_custom_key.
    + now apply load_config_default_key.
  - unfold load_config. rewrite deep_merge_section.
    unfold get_section at 2. rewrite lookup_empty.
    apply (right_id_L ∅ (∪)).
  - unfold load_config. rewrite !deep_merge_section.
    rewrite (assoc_L (∪)). now rewrite (idemp_L (∪)).
Qed.

(** ** The validating constructors *)

Lemma clamp_idempotent (lo hi v : Q) :
  lo < hi -> clamp lo hi (clamp lo hi v) = clamp lo hi v.
Proof.
  intros Hlt. unfold clamp, Py.max, Py.min.
  destruct (v <? hi) eqn:E1.
  - destruct (lo <? v) eqn:E2.
    + now rewrite E1, E2.
    + assert (E3 : (lo <? hi) = true) by now apply ltb_true.
      rewrite E3. destruct (lo <? lo) eqn:E4; reflexivity.
  - assert (E3 : (lo <? hi) = true) by now apply ltb_true.
    rewrite E3.
    assert (E4 : (hi <? hi) = false) by (apply ltb_false; lra).
    now rewrite E4, E3.
Qed.

Lemma clamp_stage_idempotent (n : Z) :
  clamp_stage (clamp_stage n) = clamp_stage n.
Proof.
  pose proof (clamp_stage_range n) as Hr. revert Hr.
  generalize (clamp_stage n). intros m Hm. unfold clamp_stage.
  destruct (m <? 4)%Z eqn:E1; [apply Z.ltb_lt in E1 | apply Z.ltb_ge in E1].
  - destruct (1 <? m)%Z eqn:E2; [reflexivity | apply Z.ltb_ge in E2; lia].
  - cbn. lia.
Qed.

Lemma on_values_idempotent (f : Q -> Q) (d : ODict.t) :
  (forall v, f (f v) = f v) ->
  ODict.on_values f (ODict.on_values f d) = ODict.on_values f d.
Proof.
  intros Hf. unfold ODict.on_values. rewrite map_map.
  apply map_ext. intros [k v]. cbn. now rewrite Hf.
Qed.

Lemma update_each_idempotent (f : Q -> Q) (d : ODict.t) :
  ODict.well_formed d -> (forall v, f (f v) = f v) ->
  ODict.update_each f (ODict.update_each f d) = ODict.update_each f d.
Proof.
  intros Hwf Hf. rewrite (ODictStore.update_each_on_values f d Hwf).
  rewrite ODictStore.update_each_on_values.
  - now apply on_values_idempotent.
  - unfold ODict.well_formed. now rewrite ODictStore.keys_on_values.
Qed.

(** X13.  Validation is idempotent: running [Beast.__post_init__] on a
    beast it has already validated changes no field, so a state that
    came out of the constructor is rebuilt unchanged from its eight
    fields, except that the rebuilt object has no novelty history. *)
Theorem validation_is_idempotent (b : Beast) :
  ODict.well_formed (needs b) ->
  Beast_post_init (Beast_post_init b) = Beast_post_init b /\
  let v := Beast_post_init b in
  Beast_init (mood v) (needs v) (traits v) (evolution_path v)
    (evolution_stage v) (evolution_prog v) (energy v) (last_updated v) =
  Beast_post_init
    {| mood := mood b; needs := needs b; traits := traits b;
       evolution_path := evolution_path b;
       evolution_stage := evolution_stage b;
       evolution_prog := evolution_prog b;
       energy := energy b; last_updated := last_updated b;
       _last_fingerprint := None; _last_lux := None |}.
Proof.
  intros Hwf.
  assert (H100 : forall v, clamp 0 100 (clamp 0 100 v) = clamp 0 100 v)
    by (intros v; apply clamp_idempotent; lra).
  assert (H1 : forall v, clamp 0 1 (clamp 0 1 v) = clamp 0 1 v)
    by (intros v; apply clamp_idempotent; lra).
  assert (Hneeds : ODict.update_each (clamp 0 100)
                     (ODict.update_each (clamp 0 100) (needs b))
                   = ODict.update_each (clamp 0 100) (needs b))
    by now apply update_each_idempotent.
  assert (Htraits : clamp 0 1 <$> (clamp 0 1 <$> traits b)
                    = clamp 0 1 <$> traits b).
  { rewrite <- map_fmap_compose. apply map_fmap_ext.
    intros k v _. cbn. apply H1. }
  split.
  - unfold Beast_post_init. cbn [mood needs traits evolution_path
      evolution_stage evolution_prog energy last_updated
      _last_fingerprint _last_lux].
    now rewrite Hneeds, Htraits, clamp_stage_idempotent, H1, H100.
  - cbn zeta. unfold Beast_init, Beast_post_init.
    cbn [mood needs traits evolution_path
      evolution_stage evolution_prog energy last_updated
      _last_fingerprint _last_lux].
    now rewrite Hneeds, Htraits, clamp_stage_idempotent, H1, H100.
Qed.

Lemma validation_is_idempotent_witness :
  Beast_post_init (Beast_post_init moon_beast) = Beast_post_init moon_beast.
Proof.
  apply (validation_is_idempotent moon_beast).
  unfold moon_beast, Beast_init. cbn [needs Beast_post_init].
  unfold ODict.well_formed. rewrite clamped_keys.
  - now apply need_names_well_formed.
  - now apply need_names_well_formed.
Defined.

(** X14.  [EmojiFrame.__post_init__] leaves at most three badges, the
    first three it was given in their order, keeps the keys of the bars
    and puts every bar in [0,1]; validating a second time changes
    nothing. *)
Theorem frame_validation (f : EmojiFrame.t) :
  ODict.well_formed (EmojiFrame.bars f) ->
  let f' := EmojiFrame.post_init f in
  (length (EmojiFrame.badges f') <= 3)%nat /\
  EmojiFrame.badges f' = firstn 3 (EmojiFrame.badges f) /\
  ODict.keys (EmojiFrame.bars f') = ODict.keys (EmojiFrame.bars f) /\
  Forall (fun v => 0 <= v <= 1) (ODict.values (EmojiFrame.bars f')) /\
  EmojiFrame.post_init f' = f'.
Proof.
  intros Hwf. cbn zeta.
  assert (Hb : EmojiFrame.badges (EmojiFrame.post_init f)
               = firstn 3 (EmojiFrame.badges f)).
  { unfold EmojiFrame.post_init. cbn [EmojiFrame.badges].
    destruct (3 <? length (EmojiFrame.badges f))%nat eqn:E; [reflexivity|].
    apply Nat.ltb_ge in E. symmetry. now apply firstn_all2. }
  split; [|split; [|split; [|split]]].
  - rewrite Hb. apply firstn_le_length.
  - exact Hb.
  - now apply clamped_keys.
  - apply clamped_values_in_range; [lra | exact Hwf].
  - unfold EmojiFrame.post_init.
    cbn [EmojiFrame.emoji EmojiFrame.badges EmojiFrame.bars
         EmojiFrame.timestamp].
    rewrite update_each_idempotent;
      [|exact Hwf | intros v; apply clamp_idempotent; lra].
    f_equal.
    destruct (3 <? length (EmojiFrame.badges f))%nat eqn:E.
    + assert (Hlen : (3 <? length (firstn 3 (EmojiFrame.badges f)))%nat
                     = false).
      { apply Nat.ltb_ge. apply firstn_le_length. }
      now rewrite Hlen.
    + now rewrite E.
Qed.

Lemma frame_validation_witness :
  (length (EmojiFrame.badges
     (EmojiFrame.init "x" ["a"; "b"; "c"; "d"] [("hunger", 1.5%Q)] 0%Q))
   <= 3)%nat.
Proof.
  apply (frame_validation
           {| EmojiFrame.emoji := "x";
              EmojiFrame.badges := ["a"; "b"; "c"; "d"];
              EmojiFrame.bars := [("hunger", 1.5)];
              EmojiFrame.timestamp := 0 |}).
  unfold ODict.well_formed. cbn. repeat constructor. intros [].
Defined.

(** ** Frame creation *)

Lemma store_fresh (k : string) (v : Q) (d : ODict.t) :
  ~ In k (ODict.keys d) -> ODict.store k v d = (d ++ [(k, v)])%list.
Proof.
  intros Hn. rewrite <- (app_nil_r d) at 1.
  now rewrite ODictStore.store_app_fresh.
Qed.

Lemma progress_bars_from (rest : ODict.t) : forall done : ODict.t,
  List.NoDup (ODict.keys (done ++ rest)%list) ->
  fold_left (fun acc kv => ODict.store (fst kv) (snd kv / 100) acc) rest done
  = (done ++ ODict.on_values (fun v => v / 100) rest)%list.
Proof.
  induction rest as [|[k v] rest IH]; intros done Hnd; cbn [fold_left].
  - cbn. now rewrite app_nil_r.
  - cbn [fst snd].
    assert (Hfresh : ~ In k (ODict.keys done)).
    { rewrite ODictStore.keys_app in Hnd. cbn in Hnd.
      apply List.NoDup_remove_2 in Hnd. intros Hin. apply Hnd.
      apply in_or_app. now left. }
    rewrite (store_fresh _ _ _ Hfresh), IH.
    + rewrite <- app_assoc. reflexivity.
    + rewrite <- app_assoc. cbn.
      rewrite ODictStore.keys_app in *. exact Hnd.
Qed.

(** On a dictionary the comprehension divides every value by 100 and
    keeps the keys in place. *)
Lemma progress_bars_on_values (d : ODict.t) :
  ODict.well_formed d ->
  Display.progress_bars d = ODict.on_values (fun v => v / 100) d.
Proof. intros Hwf. apply (progress_bars_from d []). exact Hwf. Qed.

Lemma fold_lower_in (r : ODict.t) : forall kv,
  fold_left Display.lower r kv = kv \/ In (fold_left Display.lower r kv) r.
Proof.
  induction r as [|x r IH]; intros kv; cbn; [now left|].
  destruct (IH (Display.lower kv x)) as [H|H]; [|now right; right].
  rewrite H. unfold Display.lower.
  destruct (snd x <? snd kv); [right; now left | now left].
Qed.

Lemma fold_lower_le (r : ODict.t) : forall kv x,
  x = kv \/ In x r -> snd (fold_left Display.lower r kv) <= snd x.
Proof.
  induction r as [|y r IH]; intros kv x Hx; cbn.
  - destruct Hx as [->|[]]. lra.
  - assert (Hstep : snd (Display.lower kv y) <= snd kv /\
                    snd (Display.lower kv y) <= snd y).
    { unfold Display.lower. float_cases; lra. }
    pose proof (IH (Display.lower kv y) _ (or_introl eq_refl)) as Hbest.
    destruct Hx as [Hx|[Hx|Hin]].
    + subst x. lra.
    + subst x. lra.
    + apply IH. now right.
Qed.

Lemma min_item_spec (d : ODict.t) :
  d <> [] ->
  exists lowest,
    Display.min_item d = Display.Returns lowest /\
    In lowest d /\ forall kv, In kv d -> snd lowest <= snd kv.
Proof.
  destruct d as [|kv r]; [congruence|]. intros _.
  exists (fold_left Display.lower r kv). split; [reflexivity|]. split.
  - destruct (fold_lower_in r kv) as [-> | H]; [now left | now right].
  - intros x [<-|Hin]; apply fold_lower_le; auto.
Qed.

Lemma evolution_stages_four (path : string) (stages : list string) :
  EVOLUTION_STAGES !! path = Some stages -> length stages = 4%nat.
Proof.
  intros H. unfold EVOLUTION_STAGES in H.
  apply elem_of_list_to_map_2 in H.
  repeat (apply elem_of_cons in H as [H|H]; [now injection H as -> ->|]).
  now apply elem_of_nil in H.
Qed.

Lemma index_in_range {A} (l : list A) (i : Z) :
  (- Z.of_nat (length l) <= i < Z.of_nat (length l))%Z ->
  exists x, Display.index l i = Display.Returns x /\ In x l.
Proof.
  intros Hi. unfold Display.index.
  set (n := Z.of_nat (length l)) in *.
  set (j := if (i <? 0)%Z then (i + n)%Z else i).
  assert (Hj : (0 <= j < n)%Z).
  { subst j. destruct (i <? 0)%Z eqn:E;
      [apply Z.ltb_lt in E | apply Z.ltb_ge in E]; lia. }
  assert (E1 : ((j <? 0) || (n <=? j))%Z = false).
  { apply orb_false_iff. split; [apply Z.ltb_ge | apply Z.leb_gt]; lia. }
  rewrite E1.
  destruct (nth_error l (Z.to_nat j)) as [x|] eqn:E.
  - exists x. split; [reflexivity|]. eapply nth_error_In; eassumption.
  - apply nth_error_None in E. subst n. lia.
Qed.

Lemma index_out_of_range {A} (l : list A) (i : Z) :
  (i < - Z.of_nat (length l) \/ Z.of_nat (length l) <= i)%Z ->
  Display.index l i = Display.Raises Display.IndexError.
Proof.
  intros Hi. unfold Display.index.
  set (n := Z.of_nat (length l)) in *.
  assert (E1 : (((if (i <? 0)%Z then (i + n)%Z else i) <? 0)
               || (n <=? (if (i <? 0)%Z then (i + n)%Z else i)))%Z = true).
  { apply orb_true_iff.
    destruct (i <? 0)%Z eqn:E;
      [apply Z.ltb_lt in E | apply Z.ltb_ge in E].
    - left. apply Z.ltb_lt. subst n. lia.
    - right. apply Z.leb_le. lia. }
  now rewrite E1.
Qed.

(** Frame creation on a state inside the engine's ranges: the frame,
    its badges and its bars. *)
Lemma create_emoji_frame_valid (now : Q) (b : Beast) (env : EnvFeatures) :
  state_ok b ->
  needs b <> [] ->
  exists f stage_badge lowest,
    Display.create_emoji_frame now b env = Display.Returns f /\
    EmojiFrame.badges f =
      (stage_badge ++
       (if snd lowest <? 40 then Display.need_badge (fst lowest) else []))%list /\
    (length stage_badge <= 1)%nat /\
    (length (EmojiFrame.badges f) <= 2)%nat /\
    In lowest (needs b) /\
    (forall kv, In kv (needs b) -> snd lowest <= snd kv) /\
    ODict.keys (EmojiFrame.bars f) = ODict.keys (needs b) /\
    (forall k v, ODict.lookup k (needs b) = Some v ->
       exists bar, ODict.lookup k (EmojiFrame.bars f) = Some bar /\
                   bar == v / 100).
Proof.
  intros [Hwf Hn _ Hs _ _] Hne.
  destruct (min_item_spec (needs b) Hne) as (lowest & Hmin & Hin & Hle).
  assert (Hstage : exists stage_badge,
    match EVOLUTION_STAGES !! evolution_path b with
    | Some stages =>
        match Display.index stages (evolution_stage b - 1) with
        | Display.Returns stage_emoji => Display.Returns [stage_emoji]
        | Display.Raises e => Display.Raises e
        end
    | None => Display.Returns []
    end = Display.Returns stage_badge /\ (length stage_badge <= 1)%nat).
  { destruct (EVOLUTION_STAGES !! evolution_path b) as [stages|] eqn:E.
    - apply evolution_stages_four in E.
      destruct (index_in_range stages (evolution_stage b - 1))
        as (x & -> & _).
      + rewrite E. unfold stage_in_range in Hs. lia.
      + exists [x]. split; [reflexivity | cbn; lia].
    - exists []. split; [reflexivity | cbn; lia]. }
  destruct Hstage as (stage_badge & Hstage & Hlen).
  set (need_part := if snd lowest <? 40 then Display.need_badge (fst lowest)
                    else []).
  assert (Hneed_len : (length need_part <= 1)%nat).
  { subst need_part. destruct (snd lowest <? 40); [|cbn; lia].
    unfold Display.need_badge.
    repeat match goal with
    | |- context [if ?c then _ else _] => destruct c
    end; cbn; lia. }
  assert (Hbadges : (if snd lowest <? 40
                     then (stage_badge ++ Display.need_badge (fst lowest))%list
                     else stage_badge) = (stage_badge ++ need_part)%list).
  { subst need_part. destruct (snd lowest <? 40); [reflexivity|].
    now rewrite app_nil_r. }
  assert (Hshort : (length (stage_badge ++ need_part)%list <= 2)%nat).
  { rewrite length_app. lia. }
  eexists _, stage_badge, lowest. split.
  { unfold Display.create_emoji_frame. rewrite Hstage, Hmin, Hbadges.
    reflexivity. }
  unfold EmojiFrame.init, EmojiFrame.post_init.
  cbn [EmojiFrame.badges EmojiFrame.bars].
  assert (Hkeep : (3 <? length (stage_badge ++ need_part)%list)%nat = false).
  { apply Nat.ltb_ge. lia. }
  rewrite Hkeep.
  rewrite (progress_bars_on_values _ Hwf).
  assert (Hwf' : ODict.well_formed
                   (ODict.on_values (fun v => v / 100) (needs b))).
  { unfold ODict.well_formed. now rewrite ODictStore.keys_on_values. }
  rewrite (ODictStore.update_each_on_values _ _ Hwf').
  split; [reflexivity|]. split; [exact Hlen|]. split; [exact Hshort|].
  split; [exact Hin|]. split; [exact Hle|]. split.
  - now rewrite !ODictStore.keys_on_values.
  - intros k v Hk. rewrite !lookup_on_values, Hk.
    cbn [fmap option_fmap option_map]. eexists. split; [reflexivity|].
    apply clamp_id.
    assert (Hv : 0 <= v <= 100).
    { unfold needs_in_range in Hn. rewrite List.Forall_forall in Hn.
      apply Hn. now apply ODictFacts.lookup_some_in in Hk. }
    split.
    + apply Qle_shift_div_l; lra.
    + apply Qle_shift_div_r; lra.
Qed.

(** X15.  For a state inside the engine's ranges that has at least one
    need, frame creation completes.  The frame carries at most two
    badges, so the limit of three never cuts one off: at most one
    stage glyph, then the badge of a need with the lowest value when
    that value is below 40.  Each bar is the need divided by 100, under
    the need's key, and the clamp of the frame changes none. *)
Theorem frame_of_a_valid_state (now : Q) (b : Beast) (env : EnvFeatures) :
  state_ok b ->
  needs b <> [] ->
  exists f stage_badge lowest,
    Display.create_emoji_frame now b env = Display.Returns f /\
    EmojiFrame.badges f =
      (stage_badge ++
       (if snd lowest <? 40 then Display.need_badge (fst lowest) else []))%list /\
    (length stage_badge <= 1)%nat /\
    (length (EmojiFrame.badges f) <= 2)%nat /\
    In lowest (needs b) /\
    (forall kv, In kv (needs b) -> snd lowest <= snd kv) /\
    ODict.keys (EmojiFrame.bars f) = ODict.keys (needs b) /\
    (forall k v, ODict.lookup k (needs b) = Some v ->
       exists bar, ODict.lookup k (EmojiFrame.bars f) = Some bar /\
                   bar == v / 100).
Proof. intros Hok Hne. now apply create_emoji_frame_valid. Qed.

Lemma frame_of_a_valid_state_witness :
  exists f,
    Display.create_emoji_frame 0 hungry_beast sun_env = Display.Returns f /\
    (length (EmojiFrame.badges f) <= 2)%nat.
Proof.
  destruct (frame_of_a_valid_state 0 hungry_beast sun_env)
    as (f & sb & lowest & Hf & _ & _ & Hlen & _).
  - apply Beast_init_ok. now apply need_names_well_formed.
  - vm_compute. discriminate.
  - exists f. split; [exact Hf | exact Hlen].
Defined.

(** X16.  Frame creation raises in two cases only: [IndexError] when
    the path is one of the table and the stage is below -3 or above 4,
    and [ValueError] when the beast has no need at all.  A stage from
    -3 to 0 is not an error: the index wraps around to a glyph of the
    same path. *)
Theorem frame_creation_errors (now : Q) (b : Beast) (env : EnvFeatures) :
  (forall e,
     Display.create_emoji_frame now b env = Display.Raises e ->
     (e = Display.IndexError /\
      is_Some (EVOLUTION_STAGES !! evolution_path b) /\
      (evolution_stage b < -3 \/ 4 < evolution_stage b)%Z) \/
     (e = Display.ValueError /\ needs b = [])) /\
  (is_Some (EVOLUTION_STAGES !! evolution_path b) ->
   (evolution_stage b < -3 \/ 4 < evolution_stage b)%Z ->
   Display.create_emoji_frame now b env = Display.Raises Display.IndexError) /\
  (forall stages,
     EVOLUTION_STAGES !! evolution_path b = Some stages ->
     (-3 <= evolution_stage b <= 0)%Z -> needs b <> [] ->
     exists f glyph,
       Display.create_emoji_frame now b env = Display.Returns f /\
       hd_error (EmojiFrame.badges f) = Some glyph /\
       nth_error stages (Z.to_nat (evolution_stage b + 3)) = Some glyph).
Proof.
  split; [|split].
  - intros e H. unfold Display.create_emoji_frame in H.
    destruct (EVOLUTION_STAGES !! evolution_path b) as [stages|] eqn:E.
    + pose proof (evolution_stages_four _ _ E) as Hlen.
      destruct (Z_lt_dec (evolution_stage b) (-3)) as [Hlo|Hlo];
        [|destruct (Z_lt_dec 4 (evolution_stage b)) as [Hhi|Hhi]].
      * rewrite index_out_of_range in H by (rewrite Hlen; lia).
        injection H as <-. left. split; [reflexivity|]. split; [eauto | lia].
      * rewrite index_out_of_range in H by (rewrite Hlen; lia).
        injection H as <-. left. split; [reflexivity|]. split; [eauto | lia].
      * destruct (index_in_range stages (evolution_stage b - 1))
          as (x & Hx & _); [rewrite Hlen; lia|].
        rewrite Hx in H.
        destruct (needs b) as [|kv r]; [|discriminate H].
        cbn in H. injection H as <-. right. now split.
    + destruct (needs b) as [|kv r]; [|discriminate H].
      cbn in H. injection H as <-. right. now split.
  - intros [stages E] Hout. unfold Display.create_emoji_frame. rewrite E.
    pose proof (evolution_stages_four _ _ E) as Hlen.
    now rewrite index_out_of_range by (rewrite Hlen; lia).
  - intros stages E Hwrap Hne. unfold Display.create_emoji_frame. rewrite E.
    pose proof (evolution_stages_four _ _ E) as Hlen.
    assert (Hidx : exists glyph,
      Display.index stages (evolution_stage b - 1) = Display.Returns glyph /\
      nth_error stages (Z.to_nat (evolution_stage b + 3)) = Some glyph).
    { unfold Display.index. rewrite Hlen.
      assert (E1 : (evolution_stage b - 1 <? 0)%Z = true)
        by (apply Z.ltb_lt; lia).
      rewrite E1.
      assert (E2 : ((evolution_stage b - 1 + Z.of_nat 4 <? 0)
                    || (Z.of_nat 4 <=? evolution_stage b - 1 + Z.of_nat 4))%Z
                   = false).
      { apply orb_false_iff. split; [apply Z.ltb_ge | apply Z.leb_gt]; lia. }
      rewrite E2.
      replace (evolution_stage b - 1 + Z.of_nat 4)%Z
        with (evolution_stage b + 3)%Z by lia.
      destruct (nth_error stages (Z.to_nat (evolution_stage b + 3)))
        as [g|] eqn:En; [eauto|].
      apply nth_error_None in En. lia. }
    destruct Hidx as (glyph & -> & Hnth).
    destruct (min_item_spec (needs b) Hne) as (lowest & -> & _).
    eexists _, glyph. split; [reflexivity|]. split; [|exact Hnth].
    unfold EmojiFrame.init, EmojiFrame.post_init. cbn [EmojiFrame.badges].
    destruct (snd lowest <? 40).
    + destruct (3 <? length ([glyph] ++ Display.need_badge (fst lowest))%list)%nat;
        reflexivity.
    + reflexivity.
Qed.

Lemma frame_creation_errors_witness :
  Display.create_emoji_frame 0
    {| mood := "calm"; needs := default_needs; traits := default_traits;
       evolution_path := "sun"; evolution_stage := 5; evolution_prog := 0;
       energy := 100; last_updated := 0;
       _last_fingerprint := None; _last_lux := None |} sun_env
  = Display.Raises Display.IndexError.
Proof.
  apply frame_creation_errors.
  - eexists. reflexivity.
  - cbn. lia.
Defined.

(** ** Battery level and power policy *)

Ltac battery_cases :=
  unfold PowerManager._calculate_battery_percent; float_cases.

(** X17.  The battery percentage computed from a voltage is always
    between 0 and 100; it is 0 exactly up to 3.0 V and 100 exactly from
    4.1 V on. *)
Theorem battery_percent_range (voltage : Q) :
  0 <= PowerManager._calculate_battery_percent voltage <= 100 /\
  (PowerManager._calculate_battery_percent voltage == 0 <-> voltage <= 3.0) /\
  (PowerManager._calculate_battery_percent voltage == 100 <-> 4.1 <= voltage).
Proof.
  battery_cases; repeat split; intros; lra.
Qed.

(** X18.  The voltage curve is not monotone: the segment below 3.7 V
    ends at 25.01 while the next one starts at 25, so a higher voltage
    can give a lower percentage.  The dip is the only one and is at most
    0.01: percentages never fall by more than that as the voltage
    rises, and they do not fall at all between two voltages on the same
    side of 3.7 V. *)
Theorem battery_curve_dips_at_3_7 :
  (forall v1 v2, v1 <= v2 ->
     PowerManager._calculate_battery_percent v1
     <= PowerManager._calculate_battery_percent v2 + 0.01) /\
  (forall v1 v2, v1 <= v2 -> (v2 < 3.7 \/ 3.7 <= v1) ->
     PowerManager._calculate_battery_percent v1
     <= PowerManager._calculate_battery_percent v2) /\
  (exists v1 v2, v1 < v2 /\
     PowerManager._calculate_battery_percent v2
     < PowerManager._calculate_battery_percent v1).
Proof.
  split; [|split].
  - intros v1 v2 Hle.
    unfold PowerManager._calculate_battery_percent. float_cases; lra.
  - intros v1 v2 Hle Hside.
    unfold PowerManager._calculate_battery_percent. float_cases; lra.
  - exists 3.6999, 3.7. split; [reflexivity|]. reflexivity.
Qed.

Lemma policy_subscript (m : gmap string Q) (k : string) (v : Q) :
  Py.subscript m k = Ok v -> m !! k = Some v.
Proof.
  unfold Py.subscript. destruct (m !! k); [|discriminate].
  now intros [= ->].
Qed.

(** X19.  The four power policies are nested: a policy that shuts down
    is static, a static policy is dimmed, and a policy is dimmed exactly
    when its brightness is below 1.  A critical battery always gives
    the shutdown policy and a low battery at least the dimmed one.
    When the static threshold is not above the shutdown threshold, the
    static policy without shutdown is never chosen. *)
Theorem power_policies_are_nested (display_config : gmap string Q)
    (power_state : PowerState.t) (policy : PowerManager.PowerPolicy) :
  PowerManager.get_power_policy display_config power_state = Ok policy ->
  (PowerManager.shutdown policy = true -> PowerManager.static_mode policy = true) /\
  (PowerManager.static_mode policy = true -> PowerManager.dim policy = true) /\
  (PowerManager.dim policy = true <-> PowerManager.brightness policy < 1) /\
  (PowerManager.static_mode policy = true -> PowerManager.fps policy = 1) /\
  (PowerState.critical_battery power_state = true ->
     PowerManager.shutdown policy = true) /\
  (PowerState.low_battery power_state = true -> PowerManager.dim policy = true) /\
  (forall s t,
     display_config !! "battery_shutdown_pct" = Some s ->
     display_config !! "battery_static_pct" = Some t ->
     t <= s ->
     PowerManager.static_mode policy = true -> PowerManager.shutdown policy = true).
Proof.
  unfold PowerManager.get_power_policy. intros H. bind_inv H.
  apply policy_subscript in Hv.
  destruct (PowerState.battery_percent power_state <=? v) eqn:E1;
    cbn [orb] in H.
  { injection H as <-. cbn. repeat split; intros; try reflexivity;
      try discriminate; try lra; auto. }
  destruct (PowerState.critical_battery power_state) eqn:Ec.
  { injection H as <-. cbn. repeat split; intros; try reflexivity;
      try discriminate; try lra; auto. }
  bind_inv H. apply policy_subscript in Hv0.
  apply leb_false in E1.
  destruct (PowerState.battery_percent power_state <=? v0) eqn:E2.
  { injection H as <-. apply leb_true in E2. cbn.
    repeat split; intros; try reflexivity; try discriminate; try lra; auto.
    match goal with
    | Hs : display_config !! "battery_shutdown_pct" = Some _,
      Ht : display_config !! "battery_static_pct" = Some _ |- _ =>
        rewrite Hv in Hs; rewrite Hv0 in Ht;
        injection Hs as <-; injection Ht as <-; lra
    end. }
  bind_inv H.
  destruct ((PowerState.battery_percent power_state <=? v1)
            || PowerState.low_battery power_state) eqn:E3.
  { bind_inv H. injection H as <-. cbn.
    repeat split; intros; try reflexivity; try discriminate; try lra; auto. }
  apply orb_false_iff in E3 as (_ & El).
  bind_inv H. injection H as <-. cbn.
  repeat split; intros; try reflexivity; try discriminate; try lra;
    try congruence.
Qed.

Lemma power_policies_are_nested_witness :
  exists policy,
    PowerManager.get_power_policy
      (<["battery_shutdown_pct" := 5]> (<["battery_static_pct" := 15]>
       (<["battery_dim_pct" := 30]> (<["fps_idle" := 2]>
       (<["fps_active" := 10]> ∅)))))
      {| PowerState.battery_percent := 12; PowerState.voltage := 3.5;
         PowerState.current_ma := 250; PowerState.power_w := 0.9;
         PowerState.charging := false; PowerState.low_battery := true;
         PowerState.critical_battery := false;
         PowerState.timestamp := 0 |} = Ok policy /\
    PowerManager.dim policy = true.
Proof.
  destruct (PowerManager.get_power_policy
      (<["battery_shutdown_pct" := 5]> (<["battery_static_pct" := 15]>
       (<["battery_dim_pct" := 30]> (<["fps_idle" := 2]>
       (<["fps_active" := 10]> ∅)))))
      {| PowerState.battery_percent := 12; PowerState.voltage := 3.5;
         PowerState.current_ma := 250; PowerState.power_w := 0.9;
         PowerState.charging := false; PowerState.low_battery := true;
         PowerState.critical_battery := false;
         PowerState.timestamp := 0 |}) as [policy|e] eqn:E;
    [|vm_compute in E; discriminate E].
  exists policy. split; [reflexivity|].
  destruct (power_policies_are_nested _ _ _ E) as (_ & _ & _ & _ & _ & Hlow & _).
  now apply Hlow.
Defined.

(** ** The mock battery *)

Lemma read_power_state_cycle (self self' : MockPowerManager.t)
    (step load now : Q) (state : PowerState.t) :
  mock_cycle self -> 0 <= step <= 0.5 ->
  MockPowerManager.read_power_state self step load now = (self', state) ->
  mock_cycle self' /\
  9.5 <= PowerState.battery_percent state <= 95.5 /\
  3.4 <= PowerState.voltage state <= 4.1 /\
  PowerState.critical_battery state = false /\
  PowerState.charging state = MockPowerManager._mock_charging self' /\
  PowerState.battery_percent state = MockPowerManager._mock_battery self' /\
  (MockPowerManager._mock_charging self = true ->
     PowerState.battery_percent state == MockPowerManager._mock_battery self + step) /\
  (MockPowerManager._mock_charging self = false ->
     PowerState.battery_percent state == MockPowerManager._mock_battery self - step).
Proof.
  unfold mock_cycle, MockPowerManager.read_power_state. intros Hc Hs H.
  destruct self as [b c]. cbn [MockPowerManager._mock_battery MockPowerManager._mock_charging] in *.
  destruct c.
  - destruct (95 <=? b + step) eqn:E; injection H as <- <-;
      cbn [MockPowerManager._mock_battery MockPowerManager._mock_charging
           PowerState.battery_percent PowerState.voltage
           PowerState.critical_battery PowerState.charging];
      [apply leb_true in E | apply leb_false in E];
      assert (Hb : Py.max 0 (Py.min 100 (b + step)) = b + step)
        by (unfold Py.min, Py.max;
            assert (E1 : (b + step <? 100) = true) by (apply ltb_true; lra);
            assert (E2 : (0 <? b + step) = true) by (apply ltb_true; lra);
            now rewrite E1, E2);
      rewrite Hb;
      change ((b + step) / 75) with ((b + step) * (1 # 75));
      repeat split; intros; try discriminate; try lra;
      try (apply ltb_false; lra);
      float_cases; lra.
  - destruct (b - step <=? 10) eqn:E; injection H as <- <-;
      cbn [MockPowerManager._mock_battery MockPowerManager._mock_charging
           PowerState.battery_percent PowerState.voltage
           PowerState.critical_battery PowerState.charging];
      [apply leb_true in E | apply leb_false in E];
      assert (Hb : Py.max 0 (Py.min 100 (b - step)) = b - step)
        by (unfold Py.min, Py.max;
            assert (E1 : (b - step <? 100) = true) by (apply ltb_true; lra);
            assert (E2 : (0 <? b - step) = true) by (apply ltb_true; lra);
            now rewrite E1, E2);
      rewrite Hb;
      change ((b - step) / 75) with ((b - step) * (1 # 75));
      repeat split; intros; try discriminate; try lra;
      try (apply ltb_false; lra);
      float_cases; lra.
Qed.

Lemma read_power_states_cycle (draws : list (Q * Q)) (now : Q) :
  forall (self self' : MockPowerManager.t) (states : list PowerState.t),
  mock_cycle self ->
  Forall (fun draw => 0 <= fst draw <= 0.5) draws ->
  MockPowerManager.read_power_states self draws now = (self', states) ->
  mock_cycle self' /\
  length states = length draws /\
  Forall (fun state =>
            9.5 <= PowerState.battery_percent state <= 95.5 /\
            3.4 <= PowerState.voltage state <= 4.1 /\
            PowerState.critical_battery state = false) states.
Proof.
  induction draws as [|[step load] draws IH]; intros self self' states Hc Hd H;
    cbn [MockPowerManager.read_power_states] in H.
  - injection H as <- <-. split; [exact Hc|]. split; [reflexivity|]. constructor.
  - destruct (MockPowerManager.read_power_state self step load now) as [self1 state] eqn:E1.
    destruct (MockPowerManager.read_power_states self1 draws now) as [self2 rest] eqn:E2.
    injection H as <- <-.
    apply List.Forall_cons_iff in Hd as (Hstep & Hd).
    destruct (read_power_state_cycle _ _ _ _ _ _ Hc Hstep E1)
      as (Hc1 & Hb & Hv & Hcrit & _).
    destruct (IH _ _ _ Hc1 Hd E2) as (Hc2 & Hlen & Hall).
    split; [exact Hc2|]. split; [cbn; now rewrite Hlen|].
    constructor; [now repeat split | exact Hall].
Qed.

(** X20.  The mock battery never runs down: from its initial 75%, with
    every charge or drain of a reading between 0 and 0.5 (the draws of
    the source are inside), each reading reports a battery between 9.5%
    and 95.5% and a voltage between 3.4 V and 4.1 V, and never a
    critical battery; the clamp to [0,100] never applies.  With a
    shutdown threshold below 9.5% the mock therefore never gets the
    shutdown policy. *)
Theorem mock_battery_never_critical (draws : list (Q * Q)) (now : Q)
    (display_config : gmap string Q) (shutdown_pct : Q) :
  Forall (fun draw => 0 <= fst draw <= 0.5) draws ->
  display_config !! "battery_shutdown_pct" = Some shutdown_pct ->
  shutdown_pct < 9.5 ->
  exists self' states,
    MockPowerManager.read_power_states MockPowerManager.init draws now
      = (self', states) /\
    length states = length draws /\
    Forall (fun state =>
              9.5 <= PowerState.battery_percent state <= 95.5 /\
              3.4 <= PowerState.voltage state <= 4.1 /\
              PowerState.critical_battery state = false /\
              forall policy,
                PowerManager.get_power_policy display_config state = Ok policy ->
                PowerManager.shutdown policy = false) states.
Proof.
  intros Hd Hcfg Hlow.
  destruct (MockPowerManager.read_power_states MockPowerManager.init draws now)
    as [self' states] eqn:E.
  exists self', states. split; [reflexivity|].
  assert (Hstart : mock_cycle MockPowerManager.init).
  { unfold mock_cycle. cbn. lra. }
  destruct (read_power_states_cycle _ _ _ _ _ Hstart Hd E) as (_ & Hlen & Hall).
  split; [exact Hlen|].
  eapply List.Forall_impl; [|exact Hall].
  intros state (Hb & Hv & Hcrit). do 3 (split; [assumption|]).
  intros policy Hp. unfold PowerManager.get_power_policy in Hp.
  rewrite (subscript_some _ _ _ Hcfg) in Hp. cbn [Py.bind] in Hp.
  assert (E1 : (PowerState.battery_percent state <=? shutdown_pct) = false)
    by (apply leb_false; lra).
  rewrite E1, Hcrit in Hp. cbn [orb] in Hp.
  bind_inv Hp.
  destruct (PowerState.battery_percent state <=? v);
    [now injection Hp as <-|].
  bind_inv Hp.
  destruct ((PowerState.battery_percent state <=? v0)
            || PowerState.low_battery state);
    bind_inv Hp; now injection Hp as <-.
Qed.

Lemma mock_battery_never_critical_witness :
  exists self' states,
    MockPowerManager.read_power_states MockPowerManager.init
      [(0.2, 250); (0.1, 300); (0.05, 120)] 0 = (self', states) /\
    length states = 3%nat.
Proof.
  destruct (mock_battery_never_critical
              [(0.2, 250); (0.1, 300); (0.05, 120)] 0
              (<["battery_shutdown_pct" := 5]> ∅) 5)
    as (self' & states & H & Hlen & _).
  - repeat constructor; cbn; lra.
  - reflexivity.
  - lra.
  - exists self', states. split; [exact H | exact Hlen].
Defined.

(** ** Pressure trend *)

Lemma last_skipn (l : list Q) : forall k : nat,
  (k < length l)%nat -> List.last (skipn k l) 0 = List.last l 0.
Proof.
  induction l as [|x l IH]; intros k Hk; [cbn in Hk; lia|].
  destruct k as [|k]; [reflexivity|].
  cbn [skipn]. cbn [length] in Hk. rewrite IH by lia.
  destruct l as [|y l]; [cbn in Hk; lia | reflexivity].
Qed.

Lemma hd_skipn (l : list Q) : forall k : nat,
  List.hd 0 (skipn k l) = nth k l 0.
Proof.
  induction l as [|x l IH]; intros [|k]; try reflexivity.
  cbn [skipn nth]. apply IH.
Qed.

Lemma last_tl (l : list Q) :
  (2 <= length l)%nat -> List.last (tl l) 0 = List.last l 0.
Proof.
  destruct l as [|x [|y l]]; cbn [length]; try lia. reflexivity.
Qed.

(** X21.  With a history of at most 3600 readings, the history stays
    at most 3600 long and ends with the new reading, and the trend is
    always computed: no division by zero and no empty window.  The
    first reading gives 0; after that the trend is the new reading
    minus the oldest reading of a window of [n] readings, from 2 to
    300, divided by [n / 60], so a reading equal to the oldest of the
    window gives 0; the second length test of the source never
    holds. *)
Theorem pressure_trend_is_a_scaled_difference (history : list Q)
    (current : Q) :
  (length history <= 3600)%nat ->
  exists history' trend,
    Sensors.calculate_pressure_trend history current = (history', Ok trend) /\
    length history' = Nat.min (S (length history)) 3600 /\
    List.last history' 0 = current /\
    (history = [] -> trend = 0) /\
    (history <> [] ->
     let n := Nat.min 300 (length history') in
     let oldest := nth (length history' - n) history' 0 in
     (2 <= n <= 300)%nat /\
     trend == (current - oldest) / (inject_Z (Z.of_nat n) / 60) /\
     (oldest == current -> trend == 0)).
Proof.
  intros Hlen. unfold Sensors.calculate_pressure_trend.
  set (h0 := (history ++ [current])%list).
  assert (Hlen0 : length h0 = S (length history)).
  { subst h0. rewrite length_app. cbn. lia. }
  assert (Hlast0 : List.last h0 0 = current) by apply last_last.
  set (h' := if (3600 <? length h0)%nat then tl h0 else h0).
  assert (Hh' : length h' = Nat.min (S (length history)) 3600 /\
                List.last h' 0 = current).
  { subst h'. destruct (3600 <? length h0)%nat eqn:E;
      [apply Nat.ltb_lt in E | apply Nat.ltb_ge in E].
    - split.
      + destruct h0; cbn in *; lia.
      + rewrite last_tl by lia. exact Hlast0.
    - split; [lia | exact Hlast0]. }
  destruct Hh' as (Hlen' & Hlast').
  destruct history as [|p history].
  { (* first reading *)
    change (length (@nil Q)) with 0%nat in Hlen'.
    assert (E : (length h' <? 2)%nat = true) by (apply Nat.ltb_lt; lia).
    rewrite E. exists h', 0. split; [reflexivity|].
    split; [exact Hlen'|]. split; [exact Hlast'|].
    split; [reflexivity | congruence]. }
  cbn [length] in Hlen, Hlen'.
  assert (E : (length h' <? 2)%nat = false) by (apply Nat.ltb_ge; lia).
  rewrite E.
  set (n := Nat.min 300 (length h')).
  assert (Hn : (2 <= n <= 300)%nat) by (subst n; lia).
  assert (Hrecent : length (Sensors.last_items 300 h') = n).
  { unfold Sensors.last_items. rewrite length_skipn. subst n. lia. }
  rewrite Hrecent.
  assert (E2 : (n <? 2)%nat = false) by (apply Nat.ltb_ge; lia).
  rewrite E2.
  assert (Hminutes : Sensors.divide (inject_Z (Z.of_nat n)) 60
                     = Ok (inject_Z (Z.of_nat n) / 60)) by reflexivity.
  rewrite Hminutes. cbn [Py.bind].
  assert (Hpos : 0 < inject_Z (Z.of_nat n) / 60).
  { apply Qlt_shift_div_l; [lra|].
    assert (H2 : inject_Z 2 <= inject_Z (Z.of_nat n)).
    { rewrite <- Zle_Qle. lia. }
    unfold inject_Z at 1 in H2. lra. }
  assert (Hnz : Qeq_bool (inject_Z (Z.of_nat n) / 60) 0 = false).
  { destruct (Qeq_bool (inject_Z (Z.of_nat n) / 60) 0) eqn:Eq; [|reflexivity].
    apply Qeq_bool_eq in Eq. lra. }
  unfold Sensors.divide at 1. rewrite Hnz.
  assert (Hlast : List.last (Sensors.last_items 300 h') 0 = current).
  { unfold Sensors.last_items. rewrite last_skipn by lia. exact Hlast'. }
  assert (Hhd : List.hd 0 (Sensors.last_items 300 h')
                = nth (length h' - n) h' 0).
  { unfold Sensors.last_items. rewrite hd_skipn. f_equal. subst n. lia. }
  rewrite Hlast, Hhd.
  eexists h', _. split; [reflexivity|].
  split; [exact Hlen'|]. split; [exact Hlast'|].
  split; [discriminate|]. intros _. cbn zeta. fold n.
  split; [exact Hn|]. split; [reflexivity|].
  intros Hsame. rewrite Hsame. unfold Qdiv. ring.
Qed.

Lemma pressure_trend_is_a_scaled_difference_witness :
  exists history' trend,
    Sensors.calculate_pressure_trend [1013; 1013.5] 1014
      = (history', Ok trend) /\
    length history' = 3%nat.
Proof.
  destruct (pressure_trend_is_a_scaled_difference [1013; 1013.5] 1014)
    as (history' & trend & H & Hlen & _).
  - cbn. lia.
  - exists history', trend. split; [exact H | exact Hlen].
Defined.

(** ** A tick followed by its frame *)

Lemma set_mood_ok (m : string) (b : Beast) : state_ok b -> state_ok (set_mood m b).
Proof. intros [H1 H2 H3 H4 H5 H6]. now split. Qed.

Lemma tick_ok cfg now env b b' :
  0 <= progression_rate cfg -> stage_goal cfg <= 1 ->
  state_ok b -> tick cfg now env b = Ok b' -> state_ok b'.
Proof.
  intros Hr Hg Hok H. unfold tick in H. bind_inv H.
  apply (set_mood_ok v) in Hok.
  apply (apply_update_ok cfg (UpdateNeeds now env ∅) _ _ Hr Hg Hok) in Hv0.
  apply (apply_update_ok cfg (TickTraits env ∅) _ _ Hr Hg Hv0) in Hv1.
  exact (apply_update_ok cfg (UpdateEvolution env) _ _ Hr Hg Hv1 H).
Qed.

(** X22.  The loop of the callers holds together: on a complete
    configuration with a non-negative progression rate and a stage goal
    of at most 1, a tick on a state inside the ranges returns a state
    inside the ranges, and frame creation on that state completes with
    at most two badges and one bar per need.  The state returned meets
    the conditions again, so this holds tick after tick. *)
Theorem frame_after_every_tick (cfg : Config) (now frame_time : Q)
    (env : EnvFeatures) (b : Beast) :
  config_complete cfg ->
  0 <= progression_rate cfg ->
  stage_goal cfg <= 1 ->
  state_ok b ->
  beast_complete b ->
  exists b' f,
    tick cfg now env b = Ok b' /\
    state_ok b' /\ beast_complete b' /\
    Display.create_emoji_frame frame_time b' env = Display.Returns f /\
    (length (EmojiFrame.badges f) <= 2)%nat /\
    ODict.keys (EmojiFrame.bars f) = NEED_NAMES.
Proof.
  intros Hc Hr Hg Hok Hb.
  destruct (tick_total cfg now env b Hc Hb) as (b' & Htick & Hb').
  pose proof (tick_ok _ _ _ _ _ Hr Hg Hok Htick) as Hok'.
  assert (Hne : needs b' <> []).
  { destruct Hb' as (Hkeys & _). intros Hnil. rewrite Hnil in Hkeys.
    discriminate Hkeys. }
  destruct (create_emoji_frame_valid frame_time b' env Hok' Hne)
    as (f & sb & lowest & Hf & _ & _ & Hlen & _ & _ & Hkeys & _).
  exists b', f. do 4 (split; [assumption|]). split; [exact Hlen|].
  rewrite Hkeys. now destruct Hb'.
Qed.

Lemma frame_after_every_tick_witness :
  exists b' f,
    tick sample_config 600 sun_env (create_default_beast 0) = Ok b' /\
    Display.create_emoji_frame 600 b' sun_env = Display.Returns f.
Proof.
  destruct (frame_after_every_tick sample_config 600 600 sun_env
              (create_default_beast 0))
    as (b' & f & Htick & _ & _ & Hf & _).
  - exact sample_config_complete.
  - vm_compute. discriminate.
  - vm_compute. discriminate.
  - apply Beast_init_ok. now apply need_names_well_formed.
  - apply create_default_beast_complete.
  - exists b', f. split; [exact Htick | exact Hf].
Defined.

(** ** Dot-notation access to the configuration *)

Lemma yaml_lookup_store_same (k : string) (v : Yaml.value)
    (items : list (string * Yaml.value)) :
  Yaml.lookup k (Yaml.store k v items) = Some v.
Proof.
  induction items as [|[k' v'] items IH]; cbn.
  - now rewrite String.eqb_refl.
  - destruct (String.eqb k k') eqn:E; cbn; rewrite E; [reflexivity | exact IH].
Qed.

Lemma yaml_lookup_store_other (k k' : string) (v : Yaml.value)
    (items : list (string * Yaml.value)) :
  k <> k' -> Yaml.lookup k' (Yaml.store k v items) = Yaml.lookup k' items.
Proof.
  intros Hne. induction items as [|[k0 v0] items IH]; cbn.
  - destruct (String.eqb_spec k' k); [congruence | reflexivity].
  - destruct (String.eqb_spec k k0) as [->|Hk]; cbn.
    + destruct (String.eqb_spec k' k0); [congruence | reflexivity].
    + now rewrite IH.
Qed.

Lemma split_not_empty (sep : Ascii.ascii) (s : string) : Yaml.split sep s <> [].
Proof.
  destruct s as [|c s]; cbn; [discriminate|].
  destruct (Ascii.eqb c sep); [discriminate|].
  destruct (Yaml.split sep s); discriminate.
Qed.

Lemma set_path_get_path (keys : list string) (new : Yaml.value) :
  forall config config',
    Yaml.set_path keys new config = Some config' ->
    Yaml.get_path keys config' = Some new.
Proof.
  induction keys as [|k rest IH]; intros config config' H; [discriminate|].
  cbn [Yaml.set_path] in H.
  destruct config as [q|s|items]; try discriminate.
  destruct rest as [|k2 rest].
  - injection H as <-. cbn. now rewrite yaml_lookup_store_same.
  - destruct (Yaml.set_path (k2 :: rest) new
                match Yaml.lookup k items with
                | Some c => c
                | None => Yaml.Mapping []
                end) as [child'|] eqn:E; [|discriminate].
    injection H as <-. cbn [Yaml.get_path].
    rewrite yaml_lookup_store_same. eapply IH. exact E.
Qed.

Lemma get_path_empty_mapping (keys : list string) :
  keys <> [] -> Yaml.get_path keys (Yaml.Mapping []) = None.
Proof. destruct keys; [congruence | reflexivity]. Qed.

Lemma set_path_frame (common : list string) :
  forall (a b : string) (p' q' : list string) (new config config' : Yaml.value),
    a <> b ->
    Yaml.set_path (common ++ a :: p')%list new config = Some config' ->
    Yaml.get_path (common ++ b :: q')%list config' =
    Yaml.get_path (common ++ b :: q')%list config.
Proof.
  induction common as [|c common IH];
    intros a b p' q' new config config' Hne H.
  - cbn [app] in *. cbn [Yaml.set_path] in H.
    destruct config as [q|s|items]; try discriminate.
    assert (Hc : exists x, config' = Yaml.Mapping (Yaml.store a x items)).
    { destruct p' as [|k2 p'].
      - injection H as <-. eauto.
      - destruct (Yaml.set_path (k2 :: p') new _) as [child'|];
          [|discriminate].
        injection H as <-. eauto. }
    destruct Hc as (x & ->). cbn [Yaml.get_path].
    now rewrite yaml_lookup_store_other.
  - cbn [app] in *. cbn [Yaml.set_path] in H.
    destruct config as [q|s|items]; try discriminate.
    destruct (common ++ a :: p')%list as [|k2 rest] eqn:Ep.
    { now destruct common. }
    destruct (Yaml.set_path (k2 :: rest) new
                match Yaml.lookup c items with
                | Some c0 => c0
                | None => Yaml.Mapping []
                end) as [child'|] eqn:E; [|discriminate].
    injection H as <-. cbn [Yaml.get_path].
    rewrite yaml_lookup_store_same.
    rewrite <- Ep in E.
    rewrite (IH a b p' q' new _ child' Hne E).
    destruct (Yaml.lookup c items) as [child|]; [reflexivity|].
    apply get_path_empty_mapping. now destruct common.
Qed.

(** X23.  Dot-notation access round-trips: after [set(key, value)] has
    completed, [get(key)] returns [value] whatever the default, and
    [get] of any key whose path parts from the path of [key] returns
    what it returned before.  [split] never returns an empty list, so
    [set] never indexes an empty list of keys. *)
Theorem config_set_then_get (config config' : Yaml.value) (key : string)
    (new : Yaml.value) :
  Yaml.set config key new = Some config' ->
  (forall default, Yaml.get config' key default = new) /\
  (forall other default,
     Yaml.diverge (Yaml.split Yaml.dot key) (Yaml.split Yaml.dot other) ->
     Yaml.get config' other default = Yaml.get config other default) /\
  Yaml.split Yaml.dot key <> [].
Proof.
  unfold Yaml.set. intros H. split; [|split].
  - intros default. unfold Yaml.get.
    now rewrite (set_path_get_path _ _ _ _ H).
  - intros other default (common & a & b & p' & q' & Hp & Hq & Hne).
    unfold Yaml.get. rewrite Hq. rewrite Hp in H.
    now rewrite (set_path_frame common a b p' q' new config config' Hne H).
  - apply split_not_empty.
Qed.

Lemma config_set_then_get_witness :
  exists config',
    Yaml.set (Yaml.Mapping [("thresholds", Yaml.Mapping [("temp_hot", Yaml.Scalar 30)])])
      "display.fps_idle" (Yaml.Scalar 2) = Some config' /\
    Yaml.get config' "display.fps_idle" (Yaml.Scalar 0) = Yaml.Scalar 2 /\
    Yaml.get config' "thresholds.temp_hot" (Yaml.Scalar 0) = Yaml.Scalar 30.
Proof.
  destruct (Yaml.set (Yaml.Mapping [("thresholds", Yaml.Mapping [("temp_hot", Yaml.Scalar 30)])])
      "display.fps_idle" (Yaml.Scalar 2)) as [config'|] eqn:E;
    [|vm_compute in E; discriminate E].
  exists config'. split; [reflexivity|].
  destruct (config_set_then_get _ _ _ _ E) as (Hget & Hframe & _).
  split; [apply Hget|].
  rewrite Hframe.
  - reflexivity.
  - exists [], "display", "thresholds", ["fps_idle"], ["temp_hot"].
    repeat split; [discriminate].
Defined.

(** ** From a reading to the shutdown *)

(** X24.  When the power service shuts the device down.  With the
    shutdown threshold configured, the policy of a reading is the
    shutdown policy in each of these cases: the voltage is below the
    configured critical voltage; the voltage is at most 3.0 V and the
    shutdown threshold is not negative; or the reading fails (the
    sensor raises, or [low_voltage] or [critical_voltage] is missing
    from the configuration) before any reading has succeeded.  A
    failed reading leaves the remembered state as it was. *)
Theorem when_the_device_shuts_down (power_config display_config : gmap string Q)
    (last last' : option PowerState.t) (reading : option (Q * Q * Q))
    (now shutdown_pct : Q) (state : PowerState.t) :
  PowerManager.read_power_state power_config last reading now
    = (last', state) ->
  display_config !! "battery_shutdown_pct" = Some shutdown_pct ->
  let configured :=
    is_Some (power_config !! "low_voltage") /\
    is_Some (power_config !! "critical_voltage") in
  let shuts_down :=
    exists policy,
      PowerManager.get_power_policy display_config state = Ok policy /\
      PowerManager.shutdown policy = true in
  (forall voltage current_ma power_w critical_voltage,
     reading = Some (voltage, current_ma, power_w) ->
     is_Some (power_config !! "low_voltage") ->
     power_config !! "critical_voltage" = Some critical_voltage ->
     voltage < critical_voltage -> shuts_down) /\
  (forall voltage current_ma power_w,
     reading = Some (voltage, current_ma, power_w) -> configured ->
     voltage <= 3.0 -> 0 <= shutdown_pct -> shuts_down) /\
  (reading = None \/ ~ configured -> last = None -> shuts_down) /\
  (reading = None \/ ~ configured -> last' = last) /\
  (reading <> None -> configured -> last' = Some state).
Proof.
  intros H Hcfg. cbn zeta.
  assert (Hcritical : PowerState.critical_battery state = true ->
    exists policy,
      PowerManager.get_power_policy display_config state = Ok policy /\
      PowerManager.shutdown policy = true).
  { intros Hc. unfold PowerManager.get_power_policy.
    rewrite (subscript_some _ _ _ Hcfg). cbn [Py.bind].
    rewrite Hc, orb_true_r. eexists. split; reflexivity. }
  assert (Hempty : PowerState.battery_percent state <= shutdown_pct ->
    exists policy,
      PowerManager.get_power_policy display_config state = Ok policy /\
      PowerManager.shutdown policy = true).
  { intros Hb. unfold PowerManager.get_power_policy.
    rewrite (subscript_some _ _ _ Hcfg). cbn [Py.bind].
    apply leb_true in Hb. rewrite Hb. cbn [orb]. eexists. split; reflexivity. }
  unfold PowerManager.read_power_state in H.
  split; [|split; [|split; [|split]]].
  - intros voltage current_ma power_w cv -> [lv Hlv] Hcv Hlt.
    rewrite (subscript_some _ _ _ Hlv), (subscript_some _ _ _ Hcv) in H.
    cbn [Py.bind] in H. injection H as _ <-.
    apply Hcritical. cbn [PowerState.critical_battery]. now apply ltb_true.
  - intros voltage current_ma power_w -> ([lv Hlv] & [cv Hcv]) Hv Hs.
    rewrite (subscript_some _ _ _ Hlv), (subscript_some _ _ _ Hcv) in H.
    cbn [Py.bind] in H. injection H as _ <-.
    apply Hempty. cbn [PowerState.battery_percent].
    unfold PowerManager._calculate_battery_percent. float_cases; lra.
  - intros Hfail ->. apply Hcritical.
    destruct reading as [[[voltage current_ma] power_w]|].
    + destruct Hfail as [Hfail|Hfail]; [discriminate|].
      unfold Py.subscript in H.
      destruct (power_config !! "low_voltage") as [lv|] eqn:Elv;
        cbn [Py.bind] in H; [|now injection H as _ <-].
      destruct (power_config !! "critical_voltage") as [cv|] eqn:Ecv;
        cbn [Py.bind] in H; [|now injection H as _ <-].
      exfalso. apply Hfail. split; eauto.
    + now injection H as _ <-.
  - intros Hfail.
    destruct reading as [[[voltage current_ma] power_w]|].
    + destruct Hfail as [Hfail|Hfail]; [discriminate|].
      unfold Py.subscript in H.
      destruct (power_config !! "low_voltage") as [lv|] eqn:Elv;
        cbn [Py.bind] in H; [|now injection H as <- _].
      destruct (power_config !! "critical_voltage") as [cv|] eqn:Ecv;
        cbn [Py.bind] in H; [|now injection H as <- _].
      exfalso. apply Hfail. split; eauto.
    + now injection H as <- _.
  - intros Hr ([lv Hlv] & [cv Hcv]).
    destruct reading as [[[voltage current_ma] power_w]|]; [|congruence].
    rewrite (subscript_some _ _ _ Hlv), (subscript_some _ _ _ Hcv) in H.
    cbn [Py.bind] in H. now injection H as <- <-.
Qed.

Lemma when_the_device_shuts_down_witness :
  exists policy,
    PowerManager.get_power_policy (<["battery_shutdown_pct" := 5]> ∅)
      (PowerManager.failed_reading 0) = Ok policy /\
    PowerManager.shutdown policy = true.
Proof.
  destruct (when_the_device_shuts_down ∅ (<["battery_shutdown_pct" := 5]> ∅)
              None None (Some (3.8, 120, 0.4)) 0 5
              (PowerManager.failed_reading 0))
    as (_ & _ & Hfail & _).
  - reflexivity.
  - reflexivity.
  - apply Hfail; [|reflexivity].
    right. intros ([lv Hlv] & _). discriminate Hlv.
Defined.

(** ** The exceptions of the engine *)

Lemma subscript_raise (m : gmap string Q) (k : string) (e : exn) :
  Py.subscript m k = Raise e -> m !! k = None /\ e = KeyError k.
Proof.
  unfold Py.subscript. destruct (m !! k); [discriminate|].
  intros [= <-]. now split.
Qed.

Lemma odict_subscript_raise (d : ODict.t) (k : string) (e : exn) :
  ODict.subscript d k = Raise e -> ODict.lookup k d = None /\ e = KeyError k.
Proof.
  unfold ODict.subscript. destruct (ODict.lookup k d); [discriminate|].
  intros [= <-]. now split.
Qed.

Lemma average_raise (d : ODict.t) (e : exn) :
  average d = Raise e -> d = [] /\ e = ZeroDivisionError.
Proof.
  unfold average. destruct d; [|discriminate]. intros [= <-]. now split.
Qed.

(** Split a failed computation into the step that raised. *)
Ltac raise_inv :=
  repeat match goal with
  | H : Ok _ = Raise _ |- _ => discriminate H
  | H : Raise _ = Raise _ |- _ => injection H as ->
  | H : Py.bind ?m _ = Raise _ |- _ =>
      let E := fresh "E" in
      destruct m eqn:E; cbn [Py.bind] in H
  | H : Py.bind ?m _ = Ok _ |- _ =>
      let E := fresh "E" in
      destruct m eqn:E; cbn [Py.bind] in H; [|discriminate H]
  | H : (if ?c then _ else _) = Raise _ |- _ => destruct c
  | H : (if ?c then _ else _) = Ok _ |- _ => destruct c
  | H : match ?a !! ?k with _ => _ end = Raise _ |- _ => destruct (a !! k)
  | H : trait_add _ _ _ = Raise _ |- _ => unfold trait_add in H
  | H : _is_comfortable_temperature _ _ = Raise _ |- _ =>
      unfold _is_comfortable_temperature in H
  | H : _calculate_drift_rate _ _ _ _ _ = Raise _ |- _ =>
      unfold _calculate_drift_rate in H;
      cbn [String.eqb Ascii.eqb Bool.eqb] in H
  | H : _apply_environmental_satisfaction _ _ _ = Raise _ |- _ =>
      unfold _apply_environmental_satisfaction in H
  end.

Ltac key_error :=
  match goal with
  | E : Py.subscript _ ?k = Raise _ |- _ =>
      apply subscript_raise in E as (? & ->); exists k; auto
  | E : ODict.subscript _ ?k = Raise _ |- _ =>
      apply odict_subscript_raise in E as (? & ->); exists k; auto
  | _ => congruence
  end.

(** X25.  The only exceptions of the engine.  [infer_mood] and
    [update_evolution] raise nothing but the [KeyError] of a key that
    is missing from the configuration, [generate_tasks] nothing but the
    [KeyError] of a missing trait, [update_needs] nothing but a
    [KeyError], and [tick_traits] a [KeyError] or, when the beast has
    no need at all, the [ZeroDivisionError] of the average.  The
    [ValueError] of [max] on an empty sequence is never raised. *)
Theorem engine_raises_only_missing_keys (cfg : Config) (now : Q)
    (env : EnvFeatures) (b : Beast) (actions : gmap string Q) (e : exn) :
  (infer_mood cfg env b = Raise e ->
     exists k, e = KeyError k /\
       (thresholds cfg !! k = None \/ power cfg !! k = None)) /\
  (update_evolution cfg env b = Raise e ->
     exists k, e = KeyError k /\ thresholds cfg !! k = None) /\
  (generate_tasks b env = Raise e ->
     exists k, e = KeyError k /\ traits b !! k = None) /\
  (update_needs cfg now b env actions = Raise e ->
     exists k, e = KeyError k) /\
  (tick_traits cfg env b actions = Raise e ->
     (e = ZeroDivisionError /\ needs b = []) \/ exists k, e = KeyError k).
Proof.
  split; [|split; [|split; [|split]]].
  - unfold infer_mood. intros H. raise_inv; key_error.
  - unfold update_evolution. intros H.
    destruct (exposure_scores cfg env) as [scores|e'] eqn:Es;
      cbn [Py.bind] in H.
    + assert (Hscores : exists kv r, scores = kv :: r).
      { unfold exposure_scores in Es. raise_inv; injection Es as <-; eauto. }
      destruct Hscores as (kv & r & ->).
      unfold switch_path, progress_gain in H.
      cbn [ODict.max_item ODict.max_value ODict.values map Py.bind] in H.
      raise_inv.
    + injection H as ->. unfold exposure_scores in Es. raise_inv; key_error.
  - unfold generate_tasks. intros H. raise_inv; key_error.
  - unfold update_needs. intros H. cbn [drift_loop] in H.
    unfold drift_step in H. raise_inv; key_error.
  - unfold tick_traits. intros H. raise_inv;
      try (right; key_error);
      match goal with
      | E : average _ = Raise _ |- _ =>
          apply average_raise in E as (? & ->); now left
      end.
Qed.

Lemma engine_raises_only_missing_keys_witness :
  tick_traits sample_config hot_env
    {| mood := "calm"; needs := []; traits := default_traits;
       evolution_path := "sun"; evolution_stage := 1; evolution_prog := 0;
       energy := 100; last_updated := 0;
       _last_fingerprint := None; _last_lux := None |} ∅
  = Raise ZeroDivisionError.
Proof.
  set (b0 := {| mood := "calm"; needs := []; traits := default_traits;
                evolution_path := "sun"; evolution_stage := 1;
                evolution_prog := 0; energy := 100; last_updated := 0;
                _last_fingerprint := None; _last_lux := None |}).
  destruct (tick_traits sample_config hot_env b0 ∅) as [b'|e] eqn:E;
    [vm_compute in E; discriminate E|].
  destruct (engine_raises_only_missing_keys sample_config 0 hot_env b0 ∅ e)
    as (_ & _ & _ & _ & H).
  destruct (H E) as [(-> & _)|(k & ->)]; [reflexivity|].
  vm_compute in E. discriminate E.
Defined.
